(** * x402-stacks: payment client, axios interceptor (V1) and memo codec

    A shallow embedding of [src/client.ts] ([X402PaymentClient]), of the V1
    axios interceptor ([wrapAxiosWithPaymentV1] and its helpers) and of the
    memo codec and the other helpers of [src/utils.ts] that compute on
    strings and integers, with the properties of the protocol and signing
    layer proved about them.

    Conventions.
    - A JavaScript string is a [string]: one [ascii] per UTF-16 code unit
      (code units below 256).
    - A [bigint], a time value (milliseconds) and the retry count
      [maxRetries] are [Z].
    - An [async] function is a computation in the monad [M]: it threads the
      state of the outside world and a trace of the calls made to the
      collaborators, and completes by returning or by throwing.
    - The chain SDK, the HTTP client, the clock and the JavaScript built-ins
      the code calls are the fields of the class [Platform]. *)

From Stdlib Require Import ZArith Lia String Ascii List Bool.
From Stdlib Require Import DecimalString DecimalPos DecimalZ.
From stdpp Require Import base option list gmap sets strings.

Set Warnings "-register-all,-clear-no-such-hyp".
#[local] Arguments String.append !s1 s2 : simpl nomatch.
Local Open Scope string_scope.
Local Open Scope Z_scope.

(** ** JavaScript values, as far as the code observes them *)

Inductive JsValue : Type :=
| JUndefined
| JNull
| JBool (b : bool)
| JNumber (n : Z)
| JString (s : string)
| JArray (items : list JsValue)
| JObject (fields : list (string * JsValue)).

(** [typeof v] *)
Definition typeof (v : JsValue) : string :=
  match v with
  | JUndefined => "undefined"
  | JNull => "object"
  | JBool _ => "boolean"
  | JNumber _ => "number"
  | JString _ => "string"
  | JArray _ => "object"
  | JObject _ => "object"
  end.

(** [!v] is [negb (truthy v)] *)
Definition truthy (v : JsValue) : bool :=
  match v with
  | JUndefined | JNull => false
  | JBool b => b
  | JNumber n => negb (n =? 0)
  | JString s => negb (String.eqb s "")
  | JArray _ | JObject _ => true
  end.

(** The first binding of [k] in the property list of an object. *)
Fixpoint assoc (k : string) (fields : list (string * JsValue)) : option JsValue :=
  match fields with
  | [] => None
  | (k', v) :: rest => if String.eqb k k' then Some v else assoc k rest
  end.

(** What a JavaScript expression completes with: a value, or a thrown one. *)
Inductive ErrorClass := EError | ETypeError | ESyntaxError.

Module Response.
Record t := { status : Z; data : JsValue }.
End Response.
Abbreviation HttpResponse := Response.t.

(** Request configuration objects are compared by identity ([WeakSet]
    membership, in-place header updates): an object is named by its
    identifier in the store. *)
Definition ObjId := positive.

(** The rejection of the HTTP client: an [Error] carrying the configuration
    object of the failed request and, when one was received, the response. *)
Record AxiosError := {
  message : string;
  config : ObjId;
  response : option HttpResponse
}.

Inductive Exn : Type :=
| ErrorObj (cls : ErrorClass) (message : string)   (* an instance of Error *)
| AxiosErr (e : AxiosError)                        (* the HTTP client's own rejection *)
| Other (v : JsValue).                             (* any other thrown value *)

Inductive Completion (A : Type) : Type :=
| Returned (a : A)
| Thrown (e : Exn).
Arguments Returned {A} a.
Arguments Thrown {A} e.

(** [v.k]: reading a property of [undefined] or [null] throws a TypeError;
    a primitive has none of the properties read here; an array has no
    property with a non-index name other than [length]. *)
Definition get_prop (v : JsValue) (k : string) : Completion JsValue :=
  match v with
  | JUndefined =>
      Thrown (ErrorObj ETypeError ("Cannot read properties of undefined (reading '" ++ k ++ "')"))
  | JNull =>
      Thrown (ErrorObj ETypeError ("Cannot read properties of null (reading '" ++ k ++ "')"))
  | JObject fields => Returned (default JUndefined (assoc k fields))
  | JArray items =>
      Returned (if String.eqb k "length" then JNumber (Z.of_nat (length items)) else JUndefined)
  | JString s =>
      Returned (if String.eqb k "length" then JNumber (Z.of_nat (String.length s)) else JUndefined)
  | JBool _ | JNumber _ => Returned JUndefined
  end.

(** [typeof v.k === 'string'] *)
Definition prop_is_string (v : JsValue) (k : string) : Completion bool :=
  match get_prop v k with
  | Returned x => Returned (String.eqb (typeof x) "string")
  | Thrown e => Thrown e
  end.

(** [v.k === s] for a string literal [s] *)
Definition prop_equals (v : JsValue) (k s : string) : Completion bool :=
  match get_prop v k with
  | Returned (JString x) => Returned (String.eqb x s)
  | Returned _ => Returned false
  | Thrown e => Thrown e
  end.

(** [a && b] and [a || b] on boolean operands, the right operand evaluated
    only when the left one does not decide. *)
Definition and_then (a b : Completion bool) : Completion bool :=
  match a with
  | Returned true => b
  | Returned false => Returned false
  | Thrown e => Thrown e
  end.

Definition or_else (a b : Completion bool) : Completion bool :=
  match a with
  | Returned true => Returned true
  | Returned false => b
  | Thrown e => Thrown e
  end.

Infix "&&&" := and_then (at level 40, left associativity).
Infix "|||" := or_else (at level 50, left associativity).

(** The six required fields, in the order the validators test them. *)
Definition required_fields : list string :=
  ["maxAmountRequired"; "resource"; "payTo"; "network"; "nonce"; "expiresAt"].

(** What both validators are meant to decide: a mapping with the six
    string-valued fields whose [network] is ['mainnet'] or ['testnet']. *)
Definition well_formed_request (v : JsValue) : Prop :=
  exists fields,
    v = JObject fields /\
    (forall k, In k required_fields -> exists s, assoc k fields = Some (JString s)) /\
    (assoc "network" fields = Some (JString "mainnet") \/
     assoc "network" fields = Some (JString "testnet")).

(** [fields] binds [k] to a string. *)
Definition has_string (fields : list (string * JsValue)) (k : string) : bool :=
  match assoc k fields with
  | Some (JString _) => true
  | _ => false
  end.

Definition network_ok (fields : list (string * JsValue)) : bool :=
  match assoc "network" fields with
  | Some (JString n) => String.eqb n "mainnet" || String.eqb n "testnet"
  | _ => false
  end.

(** The same condition as a test on the property list of a mapping. *)
Definition object_check (fields : list (string * JsValue)) : bool :=
  has_string fields "maxAmountRequired" && has_string fields "resource" &&
  has_string fields "payTo" && has_string fields "network" &&
  has_string fields "nonce" && has_string fields "expiresAt" &&
  network_ok fields.

(** ** The wire and signing types of [src/types.ts] *)

Inductive NetworkType := mainnet | testnet.
Inductive TokenType := STX | sBTC | USDCx.

Definition TokenType_to_string (t : TokenType) : string :=
  match t with STX => "STX" | sBTC => "sBTC" | USDCx => "USDCx" end.

Module Contract.
Record t := { address : string; name : string }.
End Contract.
Abbreviation TokenContract := Contract.t.

Record X402PaymentRequired := {
  maxAmountRequired : string;
  resource : string;
  payTo : string;
  network : NetworkType;
  nonce : string;
  expiresAt : string;
  memo : option string;
  tokenType : option TokenType;
  tokenContract : option TokenContract
}.

Module Details.
Record t := {
  recipient : string;
  amount : Z;
  senderKey : string;
  network : NetworkType;
  memo : option string;
  nonce : option Z;
  fee : option Z;
  tokenType : option TokenType;
  tokenContract : option TokenContract
}.
End Details.
Abbreviation PaymentDetails := Details.t.

Record SignedPaymentResult := {
  signedTransaction : string;
  success : bool;
  senderAddress : option string;
  error : option string
}.

Module Account.
Record t := { address : string; privateKey : string; network : NetworkType }.
End Account.
Abbreviation StacksAccount := Account.t.

(** Clarity values, as the argument list of a contract call holds them. *)
Inductive ClarityValue :=
| uintCV (n : Z)
| principalCV (a : string)
| bufferCVFromString (s : string)
| someCV (v : ClarityValue)
| noneCV.

(** The options handed to the chain SDK. *)
Module STXOptions.
Record t := {
  recipient : string;
  amount : Z;
  senderKey : string;
  network : NetworkType;
  memo : string;
  nonce : option Z;
  fee : option Z
}.
End STXOptions.

Module CallOptions.
Record t := {
  contractAddress : string;
  contractName : string;
  functionName : string;
  functionArgs : list ClarityValue;
  senderKey : string;
  network : NetworkType;
  postConditionMode : string;
  nonce : option Z;
  fee : option Z
}.
End CallOptions.

(** The request the explicit client hands to its HTTP client. *)
Record HttpRequest := {
  url : string;
  method : string;
  body : JsValue;
  headers : gmap string string
}.

(** A request configuration object of the wrapped axios instance. *)
Record RequestConfig := {
  cfg_url : string;
  cfg_method : string;
  cfg_headers : option (gmap string string)
}.

(** ** Collaborators

    [BigInt s] is the built-in conversion, which throws on a string that is
    not an integer literal. [Date_parse s] is the time value of
    [new Date(s)], absent for an invalid date. The signing calls of the chain
    SDK complete with the serialized transaction or throw; the construction
    of the Clarity arguments is part of [makeContractCall]'s completion. *)
Class Platform := {
  World : Type;
  BigInt : string -> Completion Z;
  Date_parse : string -> option Z;
  Date_now : World -> Z * World;
  getAddressFromPrivateKey : string -> NetworkType -> Completion string;
  makeSTXTokenTransfer : STXOptions.t -> World -> Completion string * World;
  makeContractCall : CallOptions.t -> World -> Completion string * World;
  (* this.httpClient.request(r), resolved with response.data *)
  httpClient_request : HttpRequest -> World -> (AxiosError + JsValue) * World
}.

(** ** Effects: the state threaded through an [async] function *)

(** Calls that leave the module, in the order they are made. [EvSignPayment]
    marks the entry into a [signPayment]. *)
Inductive Event :=
| EvRequest (r : HttpRequest)                     (* this.httpClient.request(r) *)
| EvNow (t : Z)                                   (* new Date() *)
| EvSignPayment (p : X402PaymentRequired)
| EvMakeSTX (o : STXOptions.t)                    (* makeSTXTokenTransfer(o) *)
| EvMakeCall (o : CallOptions.t)                  (* makeContractCall(o) *)
| EvMark (o : ObjId)                              (* paymentAttempted.add(o) *)
| EvReissue (o : ObjId) (cfg : RequestConfig).    (* axiosInstance.request(o) *)

(** [paymentAttempted] is the interceptor's module-level [WeakSet];
    [requests] is the store of request configuration objects. *)
Record State `{Platform} := {
  world : World;
  trace : list Event;
  paymentAttempted : gset ObjId;
  requests : gmap ObjId RequestConfig
}.

Section Monad.
Context `{Platform}.

Definition M (A : Type) : Type := State -> Completion A * State.

Definition ret {A} (a : A) : M A := fun s => (Returned a, s).

Definition throw {A} (e : Exn) : M A := fun s => (Thrown e, s).

Definition bind {A B} (m : M A) (f : A -> M B) : M B :=
  fun s =>
    match m s with
    | (Returned a, s') => f a s'
    | (Thrown e, s') => (Thrown e, s')
    end.

(** [try { m } catch (error) { h error }] *)
Definition try_catch {A} (m : M A) (h : Exn -> M A) : M A :=
  fun s =>
    match m s with
    | (Returned a, s') => (Returned a, s')
    | (Thrown e, s') => h e s'
    end.

Definition lift {A} (c : Completion A) : M A := fun s => (c, s).

Definition emit (e : Event) : M unit :=
  fun s =>
    (Returned tt,
     {| world := world s; trace := trace s ++ [e];
        paymentAttempted := paymentAttempted s; requests := requests s |}).

(** A call to a collaborator that reads and updates the world. *)
Definition call {A} (f : World -> A * World) : M A :=
  fun s =>
    let '(a, w) := f (world s) in
    (Returned a,
     {| world := w; trace := trace s;
        paymentAttempted := paymentAttempted s; requests := requests s |}).

(** [new Date()] *)
Definition new_Date : M Z :=
  bind (call Date_now) (fun t => bind (emit (EvNow t)) (fun _ => ret t)).

(** [new Date(expiresAt) < now], the comparison being false on an
    invalid date. *)
Definition date_lt (expiresAt : string) (now : Z) : bool :=
  match Date_parse expiresAt with
  | Some t => t <? now
  | None => false
  end.

(** [error instanceof Error ? error.message : fallback] *)
Definition message_or (e : Exn) (fallback : string) : string :=
  match e with
  | ErrorObj _ m => m
  | AxiosErr a => message a
  | Other _ => fallback
  end.
End Monad.

Notation "'let*' x ':=' m 'in' k" := (bind m (fun x => k))
  (at level 10, x name, m at level 100, k at level 200).
Notation "'do' m 'then' k" := (bind m (fun _ => k))
  (at level 10, m at level 100, k at level 200).

(** ** [src/client.ts]: [X402PaymentClient] *)

(** A response body read at its declared type [X402PaymentRequired], as
    the casts of the code do once the validator has accepted it. The
    validator does not look at the optional fields: a [tokenType] that is
    none of the three names reads as absent (the code signs it as STX all
    the same, and only the token type header would carry the other name),
    and so does a [tokenContract] that is not an object. *)
Definition string_prop (v : JsValue) (k : string) : string :=
  match get_prop v k with
  | Returned (JString s) => s
  | _ => ""
  end.

Definition as_token_contract (v : JsValue) : option TokenContract :=
  match v with
  | JObject _ =>
      Some {| Contract.address := string_prop v "address";
              Contract.name := string_prop v "name" |}
  | _ => None
  end.

Definition as_payment_request (v : JsValue) : X402PaymentRequired :=
  {| maxAmountRequired := string_prop v "maxAmountRequired";
     resource := string_prop v "resource";
     payTo := string_prop v "payTo";
     network := if String.eqb (string_prop v "network") "mainnet" then mainnet else testnet;
     nonce := string_prop v "nonce";
     expiresAt := string_prop v "expiresAt";
     memo :=
       match get_prop v "memo" with
       | Returned (JString s) => Some s
       | _ => None
       end;
     tokenType :=
       match get_prop v "tokenType" with
       | Returned (JString s) =>
           if String.eqb s "STX" then Some STX
           else if String.eqb s "sBTC" then Some sBTC
           else if String.eqb s "USDCx" then Some USDCx
           else None
       | _ => None
       end;
     tokenContract :=
       match get_prop v "tokenContract" with
       | Returned c => as_token_contract c
       | Thrown _ => None
       end |}.

(** [error.response && error.response.status === 402], which is also
    [error.response?.status === 402]; and [error.response.data] where that
    holds. *)
Definition is_402 (error : AxiosError) : bool :=
  match response error with
  | Some r => Response.status r =? 402
  | None => false
  end.

Definition response_data (error : AxiosError) : JsValue :=
  match response error with
  | Some r => Response.data r
  | None => JUndefined
  end.

(** The fields of the client object ([this]) that the methods read. *)
Module X402PaymentClient.
Record t := { network : NetworkType; privateKey : string }.
End X402PaymentClient.

Module Client.
Section Client.
Context `{Platform}.

Variable this : X402PaymentClient.t.

Definition failure (fallback : string) (error : Exn) : M SignedPaymentResult :=
  ret {| signedTransaction := ""; success := false; senderAddress := None;
         error := Some (message_or error fallback) |}.

Definition signSTXTransfer (details : PaymentDetails) : M SignedPaymentResult :=
  try_catch
    (let network := Details.network details in
     let* senderAddress :=
       lift (getAddressFromPrivateKey (Details.senderKey details)
               (match network with mainnet => mainnet | testnet => testnet end)) in
     let txOptions :=
       {| STXOptions.recipient := Details.recipient details;
          STXOptions.amount := Details.amount details;
          STXOptions.senderKey := X402PaymentClient.privateKey this;
          STXOptions.network := network;
          STXOptions.memo :=
            match Details.memo details with
            | Some m => if String.eqb m "" then "" else m
            | None => ""
            end;
          STXOptions.nonce := Details.nonce details;
          STXOptions.fee := Details.fee details |} in
     do emit (EvMakeSTX txOptions) then
     let* transaction := call (makeSTXTokenTransfer txOptions) in
     let* serialized := lift transaction in
     ret {| signedTransaction := serialized; success := true;
            senderAddress := Some senderAddress; error := None |})
    (failure "Transaction signing failed").

(** The body shared, word for word, by [signSBTCTransfer] and
    [signUSDCxTransfer], which differ in the two messages. *)
Definition signContractTransfer (label fallback : string) (details : PaymentDetails)
  : M SignedPaymentResult :=
  try_catch
    (let network := Details.network details in
     let* senderAddress :=
       lift (getAddressFromPrivateKey (Details.senderKey details)
               (match network with mainnet => mainnet | testnet => testnet end)) in
     match Details.tokenContract details with
     | None =>
         throw (ErrorObj EError ("Token contract required for " ++ label ++ " transfers"))
     | Some contract =>
         let contractAddress := Contract.address contract in
         let contractName := Contract.name contract in
         let functionArgs :=
           [ uintCV (Details.amount details);
             principalCV senderAddress;
             principalCV (Details.recipient details);
             match Details.memo details with
             | Some m => if String.eqb m "" then noneCV else someCV (bufferCVFromString m)
             | None => noneCV
             end ] in
         let txOptions :=
           {| CallOptions.contractAddress := contractAddress;
              CallOptions.contractName := contractName;
              CallOptions.functionName := "transfer";
              CallOptions.functionArgs := functionArgs;
              CallOptions.senderKey := X402PaymentClient.privateKey this;
              CallOptions.network := network;
              CallOptions.postConditionMode := "allow";
              CallOptions.nonce := Details.nonce details;
              CallOptions.fee := Details.fee details |} in
         do emit (EvMakeCall txOptions) then
         let* transaction := call (makeContractCall txOptions) in
         let* serialized := lift transaction in
         ret {| signedTransaction := serialized; success := true;
                senderAddress := Some senderAddress; error := None |}
     end)
    (failure fallback).

Definition signSBTCTransfer : PaymentDetails -> M SignedPaymentResult :=
  signContractTransfer "sBTC" "sBTC signing failed".

Definition signUSDCxTransfer : PaymentDetails -> M SignedPaymentResult :=
  signContractTransfer "USDCx" "USDCx signing failed".

Definition signPayment (paymentRequest : X402PaymentRequired) : M SignedPaymentResult :=
  do emit (EvSignPayment paymentRequest) then
  try_catch
    (let* amount := lift (BigInt (maxAmountRequired paymentRequest)) in
     let tokenType := default STX (tokenType paymentRequest) in
     let paymentDetails :=
       {| Details.recipient := payTo paymentRequest;
          Details.amount := amount;
          Details.senderKey := X402PaymentClient.privateKey this;
          Details.network := network paymentRequest;
          Details.memo := Some (String.substring 0 34 (nonce paymentRequest));
          Details.nonce := None;
          Details.fee := None;
          Details.tokenType := Some tokenType;
          Details.tokenContract := tokenContract paymentRequest |} in
     match tokenType with
     | sBTC => signSBTCTransfer paymentDetails
     | USDCx => signUSDCxTransfer paymentDetails
     | STX => signSTXTransfer paymentDetails
     end)
    (failure "Unknown error").

(** [isValidPaymentRequest(request: any)] *)
Definition isValidPaymentRequest (request : JsValue) : Completion bool :=
  Returned (String.eqb (typeof request) "object") &&&
  prop_is_string request "maxAmountRequired" &&&
  prop_is_string request "resource" &&&
  prop_is_string request "payTo" &&&
  prop_is_string request "network" &&&
  prop_is_string request "nonce" &&&
  prop_is_string request "expiresAt" &&&
  (prop_equals request "network" "mainnet" ||| prop_equals request "network" "testnet").

(** The options of [requestWithPayment], each one possibly left out. *)
Record RequestOptions := {
  opt_method : option string;
  opt_data : JsValue;
  opt_headers : option (gmap string string);
  opt_maxRetries : option Z
}.

(** How one turn of the [while] loop ends when it does not throw:
    [return response.data], or [continue] with a signed payment. *)
Inductive Turn :=
| Done (data : JsValue)
| Continue (signedTransaction : string) (paymentRequest : X402PaymentRequired).

(** The [if (error.response && error.response.status === 402)] block of
    the [catch]. *)
Definition on402 (paymentRequest : JsValue) : M Turn :=
  let* valid := lift (isValidPaymentRequest paymentRequest) in
  if negb valid then
    throw (ErrorObj EError "Invalid x402 payment request from server")
  else
    let request := as_payment_request paymentRequest in
    let* now := new_Date in
    if date_lt (expiresAt request) now then
      throw (ErrorObj EError "Payment request has expired")
    else
      let* signResult := signPayment request in
      if negb (success signResult) then
        throw (ErrorObj EError
                 ("Payment signing failed: " ++ default "undefined" (error signResult)))
      else
        ret (Continue (signedTransaction signResult) request).

(** [requestHeaders]: a copy of [headers], with the payment headers when
    an earlier turn left a signed payment. *)
Definition requestHeaders (headers : gmap string string)
    (lastSignedPayment : option string) (lastPaymentRequest : option X402PaymentRequired)
  : gmap string string :=
  match lastSignedPayment, lastPaymentRequest with
  | Some signed, Some request =>
      if String.eqb signed "" then headers
      else
        <["X-PAYMENT-TOKEN-TYPE" := TokenType_to_string (default STX (tokenType request))]>
          (<["X-PAYMENT" := signed]> headers)
  | _, _ => headers
  end.

(** The body of the [while] loop. *)
Definition turn (url method : string) (data : JsValue) (headers : gmap string string)
    (lastSignedPayment : option string) (lastPaymentRequest : option X402PaymentRequired)
  : M Turn :=
  let request :=
    {| url := url; method := method; body := data;
       headers := requestHeaders headers lastSignedPayment lastPaymentRequest |} in
  do emit (EvRequest request) then
  let* outcome := call (httpClient_request request) in
  match outcome with
  | inr received => ret (Done received)
  | inl error =>
      if is_402 error then on402 (response_data error)
      else throw (AxiosErr error)
  end.

(** [while (attempt <= maxRetries) { ... }] followed by the final
    [throw]; [None] when [fuel] turns do not reach the end of the loop. *)
Fixpoint requestLoop (fuel : nat) (url method : string) (data : JsValue)
    (headers : gmap string string) (maxRetries attempt : Z)
    (lastSignedPayment : option string) (lastPaymentRequest : option X402PaymentRequired)
    (s : State) : option (Completion JsValue * State) :=
  match fuel with
  | O => None
  | S fuel' =>
      if attempt <=? maxRetries then
        match turn url method data headers lastSignedPayment lastPaymentRequest s with
        | (Returned (Done received), s') => Some (Returned received, s')
        | (Returned (Continue signed request), s') =>
            requestLoop fuel' url method data headers maxRetries (attempt + 1)
              (Some signed) (Some request) s'
        | (Thrown e, s') => Some (Thrown e, s')
        end
      else Some (Thrown (ErrorObj EError "Max retries exceeded for payment request"), s)
  end.

Definition requestWithPayment_fuel (fuel : nat) (url : string) (options : RequestOptions)
  : State -> option (Completion JsValue * State) :=
  let method := default "GET" (opt_method options) in
  let data := opt_data options in
  let headers := default ∅ (opt_headers options) in
  let maxRetries := default 1 (opt_maxRetries options) in
  requestLoop fuel url method data headers maxRetries 0 None None.

(** [requestWithPayment(url, options)]: the loop makes at most
    [maxRetries + 1] turns before its condition fails, so that many turns
    and one more test of the condition are enough. *)
Definition requestWithPayment (url : string) (options : RequestOptions)
  : State -> option (Completion JsValue * State) :=
  requestWithPayment_fuel
    (S (Z.to_nat (default 1 (opt_maxRetries options) + 1))) url options.
End Client.
End Client.

(** ** The V1 axios interceptor *)

Module Interceptor.
Section Interceptor.
Context `{Platform}.

(** [signPayment(paymentRequest, account)]: resolves with the serialized
    transaction, or throws. *)
Definition signPayment (paymentRequest : X402PaymentRequired) (account : StacksAccount)
  : M string :=
  do emit (EvSignPayment paymentRequest) then
  let* amount := lift (BigInt (maxAmountRequired paymentRequest)) in
  let tokenType := default STX (tokenType paymentRequest) in
  let network := network paymentRequest in
  let memo := String.substring 0 34 (nonce paymentRequest) in
  match tokenType with
  | sBTC | USDCx =>
      match tokenContract paymentRequest with
      | None =>
          throw (ErrorObj EError
                   ("Token contract required for " ++ TokenType_to_string tokenType
                      ++ " payments"))
      | Some contract =>
          let contractAddress := Contract.address contract in
          let contractName := Contract.name contract in
          let functionArgs :=
            [ uintCV amount;
              principalCV (Account.address account);
              principalCV (payTo paymentRequest);
              if String.eqb memo "" then noneCV else someCV (bufferCVFromString memo) ] in
          let txOptions :=
            {| CallOptions.contractAddress := contractAddress;
               CallOptions.contractName := contractName;
               CallOptions.functionName := "transfer";
               CallOptions.functionArgs := functionArgs;
               CallOptions.senderKey := Account.privateKey account;
               CallOptions.network := network;
               CallOptions.postConditionMode := "allow";
               CallOptions.nonce := None;
               CallOptions.fee := None |} in
          do emit (EvMakeCall txOptions) then
          let* transaction := call (makeContractCall txOptions) in
          lift transaction
      end
  | STX =>
      let txOptions :=
        {| STXOptions.recipient := payTo paymentRequest;
           STXOptions.amount := amount;
           STXOptions.senderKey := Account.privateKey account;
           STXOptions.network := network;
           STXOptions.memo := memo;
           STXOptions.nonce := None;
           STXOptions.fee := None |} in
      do emit (EvMakeSTX txOptions) then
      let* transaction := call (makeSTXTokenTransfer txOptions) in
      lift transaction
  end.

(** [isValidPaymentRequest(data: unknown)] *)
Definition isValidPaymentRequest (data : JsValue) : Completion bool :=
  if negb (truthy data) || negb (String.eqb (typeof data) "object") then Returned false
  else
    let request := data in
    prop_is_string request "maxAmountRequired" &&&
    prop_is_string request "resource" &&&
    prop_is_string request "payTo" &&&
    prop_is_string request "network" &&&
    prop_is_string request "nonce" &&&
    prop_is_string request "expiresAt" &&&
    (prop_equals request "network" "mainnet" ||| prop_equals request "network" "testnet").

(** [paymentAttempted.has(o)] and [paymentAttempted.add(o)] *)
Definition paymentAttempted_has (o : ObjId) : M bool :=
  fun s => (Returned (bool_decide (o ∈ paymentAttempted s)), s).

Definition paymentAttempted_add (o : ObjId) : M unit :=
  fun s =>
    (Returned tt,
     {| world := world s; trace := trace s ++ [EvMark o];
        paymentAttempted := {[o]} ∪ paymentAttempted s; requests := requests s |}).

(** The configuration object [o] of the store; an identifier the store
    does not hold reads as an object without properties. *)
Definition empty_config : RequestConfig :=
  {| cfg_url := ""; cfg_method := ""; cfg_headers := None |}.

Definition read_config (o : ObjId) (s : State) : RequestConfig :=
  default empty_config (requests s !! o).

(** [o.headers = o.headers || {}; o.headers['X-PAYMENT'] = signed;
     o.headers['X-PAYMENT-TOKEN-TYPE'] = tokenType || 'STX'] *)
Definition set_payment_headers (o : ObjId) (signed : string)
    (paymentRequest : X402PaymentRequired) : M unit :=
  fun s =>
    let cfg := read_config o s in
    let headers := default ∅ (cfg_headers cfg) in
    let headers' :=
      <["X-PAYMENT-TOKEN-TYPE" :=
          TokenType_to_string (default STX (tokenType paymentRequest))]>
        (<["X-PAYMENT" := signed]> headers) in
    let cfg' :=
      {| cfg_url := cfg_url cfg; cfg_method := cfg_method cfg;
         cfg_headers := Some headers' |} in
    (Returned tt,
     {| world := world s; trace := trace s;
        paymentAttempted := paymentAttempted s;
        requests := <[o := cfg']> (requests s) |}).

(** [return axiosInstance.request(o)]: the handler's promise takes the
    outcome of that request. *)
Definition reissue (o : ObjId) : M ObjId :=
  fun s => bind (emit (EvReissue o (read_config o s))) (fun _ => ret o) s.

(** The rejection handler installed by [wrapAxiosWithPaymentV1]: it
    rejects (throws), or resolves with the outcome of re-issuing the
    returned request object through the instance. The instance is the
    caller's: which configuration object a later rejection carries is
    its choice, and the handler is modelled for every such choice. *)
Definition onRejected (account : StacksAccount) (error : AxiosError) : M ObjId :=
  let originalRequest := config error in
  if negb (is_402 error) then throw (AxiosErr error)
  else
    let* attempted := paymentAttempted_has originalRequest in
    if attempted then
      throw (ErrorObj EError "Payment already attempted for this request")
    else
      do paymentAttempted_add originalRequest then
      let paymentRequest := response_data error in
      let* valid := lift (isValidPaymentRequest paymentRequest) in
      if negb valid then
        throw (ErrorObj EError "Invalid x402 payment request from server")
      else
        let request := as_payment_request paymentRequest in
        let* now := new_Date in
        if date_lt (expiresAt request) now then
          throw (ErrorObj EError "Payment request has expired")
        else
          try_catch
            (let* signedTransaction := signPayment request account in
             do set_payment_headers originalRequest signedTransaction request then
             reissue originalRequest)
            (fun paymentError =>
               throw (ErrorObj EError
                        ("Payment signing failed: "
                           ++ message_or paymentError "Unknown error"))).

(** A run of the handler over the rejections the instance reports, in
    the order they arrive, each for the account of the wrapper that
    installed the handler. One run of the handler is one step: the marker
    is tested and set before the first [await], so that no other run comes
    between the two, and what follows the [await] touches only the
    configuration object of the run. *)
Fixpoint deliver (arrivals : list (StacksAccount * AxiosError)) (s : State) : State :=
  match arrivals with
  | [] => s
  | (account, error) :: rest => deliver rest (snd (onRejected account error s))
  end.
End Interceptor.
End Interceptor.

(** ** [src/utils.ts]: the memo codec *)

(** [s.split(sep)] for a one-character separator: the pieces between the
    occurrences of [sep], at least one piece. *)
Fixpoint split_on (sep : ascii) (s : string) : list string :=
  match s with
  | EmptyString => [EmptyString]
  | String c rest =>
      if Ascii.eqb c sep then EmptyString :: split_on sep rest
      else
        match split_on sep rest with
        | piece :: pieces => String c piece :: pieces
        | [] => [String c EmptyString]
        end
  end.

(** [s.substring(n)] *)
Fixpoint drop_chars (n : nat) (s : string) : string :=
  match n, s with
  | O, _ => s
  | S n', String _ rest => drop_chars n' rest
  | S _, EmptyString => EmptyString
  end.

(** [obj[key] = value] on an object created by [{}]: the inherited
    [__proto__] setter takes the assignment of that one key and ignores a
    string. *)
Definition obj_set (key value : string) (obj : gmap string string) : gmap string string :=
  if String.eqb key "__proto__" then obj else <[key := value]> obj.

Module Memo.
Record t := {
  resource : option string;
  nonce : option string;
  custom : option (gmap string string)
}.
Definition empty : t := {| resource := None; nonce := None; custom := None |}.
End Memo.

Module Utils.

(** One turn of the [for (const part of parts)] loop. *)
Definition parse_part (result : Memo.t) (part : string) : Memo.t :=
  let pieces := split_on "=" part in
  let key := nth 0 pieces "" in
  let value := nth_error pieces 1 in
  match value with
  | Some value =>
      if negb (String.eqb key "") && negb (String.eqb value "") then
        if String.eqb key "resource" then
          {| Memo.resource := Some value; Memo.nonce := Memo.nonce result;
             Memo.custom := Memo.custom result |}
        else if String.eqb key "nonce" then
          {| Memo.resource := Memo.resource result; Memo.nonce := Some value;
             Memo.custom := Memo.custom result |}
        else
          {| Memo.resource := Memo.resource result; Memo.nonce := Memo.nonce result;
             Memo.custom := Some (obj_set key value (default ∅ (Memo.custom result))) |}
      else result
  | None => result
  end.

Definition parsePaymentMemo (memo : string) : Memo.t :=
  let result := Memo.empty in
  if negb (String.prefix "x402:" memo) then result
  else
    let content := drop_chars 5 memo in
    let parts := split_on "," content in
    fold_left parse_part parts result.

(** [custom] is the sequence [Object.entries(custom)] of the record. *)
Definition createPaymentMemo (resource nonce : string)
    (custom : option (list (string * string))) : string :=
  let memo := "x402:" ++ resource ++ ",nonce=" ++ nonce in
  match custom with
  | Some entries =>
      fold_left (fun memo '(key, value) => memo ++ "," ++ key ++ "=" ++ value) entries memo
  | None => memo
  end.

End Utils.

(** The number of bytes of the UTF-8 encoding of a string: one for a code
    unit below 128, two for the others that a [string] holds. *)
Fixpoint utf8_length (s : string) : nat :=
  match s with
  | EmptyString => O
  | String c rest =>
      ((if (nat_of_ascii c <? 128)%nat then 1 else 2) + utf8_length rest)%nat
  end.

(** ** The [X-PAYMENT-RESPONSE] header codec *)





Module Header.
Section Header.
Context `{Builtins}.


End Header.
End Header.

(** ** A scripted platform, to run the code on concrete inputs

    The world holds the answers the collaborators will give: the outcomes of
    the successive HTTP requests of the explicit client and the successive
    readings of the clock. A script that has run out answers with a network
    error (no response), respectively with time 0. *)
Module Scripted.

Record World := {
  http_outcomes : list (AxiosError + JsValue);
  clock_readings : list Z
}.

Definition network_error (o : ObjId) : AxiosError :=
  {| message := "Network Error"; config := o; response := None |}.

(** Decimal integer literals with an optional sign; the empty string
    converts to 0. *)
Definition digit_of (c : ascii) : option Z :=
  let n := nat_of_ascii c in
  if ((48 <=? n) && (n <=? 57))%nat then Some (Z.of_nat n - 48) else None.

Fixpoint digits (acc : Z) (s : string) : option Z :=
  match s with
  | EmptyString => Some acc
  | String c rest =>
      match digit_of c with
      | Some d => digits (10 * acc + d) rest
      | None => None
      end
  end.

Definition BigInt (s : string) : Completion Z :=
  let unsigned_part (t : string) : option Z :=
    match t with EmptyString => None | _ => digits 0 t end in
  let parsed :=
    match s with
    | EmptyString => Some 0
    | String "-" rest => option_map Z.opp (unsigned_part rest)
    | String "+" rest => unsigned_part rest
    | _ => digits 0 s
    end in
  match parsed with
  | Some n => Returned n
  | None => Thrown (ErrorObj ESyntaxError ("Cannot convert " ++ s ++ " to a BigInt"))
  end.

(** The time values of the dates the examples use. *)
Definition Date_parse (s : string) : option Z :=
  if String.eqb s "2030-01-01T00:00:00.000Z" then Some 1893456000000
  else if String.eqb s "2020-01-01T00:00:00.000Z" then Some 1577836800000
  else None.

Definition Date_now (w : World) : Z * World :=
  match clock_readings w with
  | t :: rest =>
      (t, {| http_outcomes := http_outcomes w; clock_readings := rest |})
  | [] => (0, w)
  end.

(** A key is a string of 64 characters; the address is derived from its
    first eight. *)
Definition getAddressFromPrivateKey (key : string) (n : NetworkType) : Completion string :=
  if (String.length key =? 64)%nat then
    Returned ((match n with mainnet => "SP" | testnet => "ST" end)
                ++ String.substring 0 8 key)
  else Thrown (ErrorObj EError "Invalid private key").

(** The SDK refuses a memo of more than 34 bytes and a malformed key. *)
Definition makeSTXTokenTransfer (o : STXOptions.t) (w : World) : Completion string * World :=
  if (34 <? utf8_length (STXOptions.memo o))%nat then
    (Thrown (ErrorObj EError "Memo exceeds maximum length of 34 bytes"), w)
  else if negb (String.length (STXOptions.senderKey o) =? 64)%nat then
    (Thrown (ErrorObj EError "Invalid private key"), w)
  else (Returned ("0x00" ++ STXOptions.recipient o), w).

Definition makeContractCall (o : CallOptions.t) (w : World) : Completion string * World :=
  if negb (String.length (CallOptions.senderKey o) =? 64)%nat then
    (Thrown (ErrorObj EError "Invalid private key"), w)
  else (Returned ("0x80" ++ CallOptions.contractName o), w).

Definition httpClient_request (r : HttpRequest) (w : World)
  : (AxiosError + JsValue) * World :=
  match http_outcomes w with
  | out :: rest =>
      (out, {| http_outcomes := rest; clock_readings := clock_readings w |})
  | [] => (inl (network_error 1%positive), w)
  end.

Definition platform : Platform :=
  Build_Platform World BigInt Date_parse Date_now getAddressFromPrivateKey
    makeSTXTokenTransfer makeContractCall httpClient_request.

Definition start (w : World) : @State platform :=
  @Build_State platform w [] ∅ ∅.

(** A state in which the request objects [os] are marked. *)
Definition marked (os : gset ObjId) (w : World) : @State platform :=
  @Build_State platform w [] os ∅.

End Scripted.

(** ** Vocabulary of the properties *)

(** The two shapes of a [SignedPaymentResult]. *)
Definition discriminated (r : SignedPaymentResult) : Prop :=
  (success r = true /\ (exists a, senderAddress r = Some a) /\ error r = None) \/
  (success r = false /\ signedTransaction r = "" /\ senderAddress r = None /\
   exists msg, error r = Some msg).

(** [m] resolves, in every state, to a result of one of the two shapes. *)
Definition resolves_discriminated `{Platform} (m : M SignedPaymentResult) : Prop :=
  forall s, exists r s', m s = (Returned r, s') /\ discriminated r.

(** The message of the missing-contract failure of the client. *)
Definition missing_contract_message (t : TokenType) : string :=
  "Token contract required for " ++ TokenType_to_string t ++ " transfers".

(** Inputs of the examples. *)
Module Sample.
Definition key : string :=
  "753b7cc01a1a2e86221266a154af739463fce51219d97e4f856cd7200c3bd2a6".

Definition client : X402PaymentClient.t :=
  {| X402PaymentClient.network := testnet; X402PaymentClient.privateKey := key |}.

Definition bad_client : X402PaymentClient.t :=
  {| X402PaymentClient.network := testnet; X402PaymentClient.privateKey := "not-a-key" |}.

Definition merchant : string := "ST2J6ZY48GV1EZ5V2V5RB9MP66SW86PYKKNRV9EJ7".

Definition request (amount nonce : string) (t : option TokenType)
    (c : option TokenContract) : X402PaymentRequired :=
  {| maxAmountRequired := amount; resource := "/resource"; payTo := merchant;
     network := testnet; nonce := nonce;
     expiresAt := "2030-01-01T00:00:00.000Z";
     memo := None; tokenType := t; tokenContract := c |}.

Definition account : StacksAccount :=
  {| Account.address := "ST753b7cc0"; Account.privateKey := key;
     Account.network := testnet |}.

(** Thirty-four times the letter e with an acute accent (U+00E9), which
    UTF-8 encodes on two bytes. *)
Definition accented_nonce : string :=
  string_of_list_ascii (repeat (ascii_of_nat 233) 34).

(** A well-formed offer, and the rejection that carries a body with
    status 402. *)
Definition offer : JsValue :=
  JObject [("maxAmountRequired", JString "1000000");
           ("resource", JString "/resource");
           ("payTo", JString merchant);
           ("network", JString "testnet");
           ("nonce", JString "abc123");
           ("expiresAt", JString "2030-01-01T00:00:00.000Z")].

Definition payment_required (o : ObjId) (body : JsValue) : AxiosError :=
  {| message := "Request failed with status code 402"; config := o;
     response := Some {| Response.status := 402; Response.data := body |} |}.

(** 14 November 2023, and the first instant of 2030, in milliseconds. *)
Definition in_2023 : Z := 1700000000000.
Definition start_of_2030 : Z := 1893456000000.

Definition options : Client.RequestOptions :=
  {| Client.opt_method := None; Client.opt_data := JUndefined;
     Client.opt_headers := None; Client.opt_maxRetries := Some 1 |}.

(** Two 402 answers with the same offer, both read before it expires. *)
Definition two_offers : Scripted.World :=
  {| Scripted.http_outcomes :=
       [inl (payment_required 1%positive offer); inl (payment_required 1%positive offer)];
     Scripted.clock_readings := [in_2023; in_2023] |}.

(** The same two answers, the first one read a second before the offer
    expires and the second one a second after. *)
Definition just_before_2030 : Z := 1893455999000.
Definition just_after_2030 : Z := 1893456001000.

Definition two_offers_late : Scripted.World :=
  {| Scripted.http_outcomes :=
       [inl (payment_required 1%positive offer); inl (payment_required 1%positive offer)];
     Scripted.clock_readings := [just_before_2030; just_after_2030] |}.

(** A 402 answer with the offer, then a 402 answer with an empty object. *)
Definition offer_then_empty : Scripted.World :=
  {| Scripted.http_outcomes :=
       [inl (payment_required 1%positive offer);
        inl (payment_required 1%positive (JObject []))];
     Scripted.clock_readings := [in_2023] |}.

(** The same offer, expired since the first instant of 2020. *)
Definition expired_offer : JsValue :=
  JObject [("maxAmountRequired", JString "1000000");
           ("resource", JString "/resource");
           ("payTo", JString merchant);
           ("network", JString "testnet");
           ("nonce", JString "abc123");
           ("expiresAt", JString "2020-01-01T00:00:00.000Z")].

(** A world whose clock gives the readings [ts]. *)
Definition clock (ts : list Z) : Scripted.World :=
  {| Scripted.http_outcomes := []; Scripted.clock_readings := ts |}.

Definition other_account : StacksAccount :=
  {| Account.address := "STa1b2c3d4";
     Account.privateKey :=
       "a1b2c3d4e5f60718293a4b5c6d7e8f90a1b2c3d4e5f60718293a4b5c6d7e8f90";
     Account.network := testnet |}.

(** One 402 answer with [body], read at time [t]. *)
Definition one_offer (body : JsValue) (t : Z) : Scripted.World :=
  {| Scripted.http_outcomes := [inl (payment_required 1%positive body)];
     Scripted.clock_readings := [t] |}.

Definition idle : Scripted.World :=
  {| Scripted.http_outcomes := []; Scripted.clock_readings := [] |}.
End Sample.

(** [c] occurs in [s]. *)
Fixpoint has_char (c : ascii) (s : string) : bool :=
  match s with
  | EmptyString => false
  | String c' rest => Ascii.eqb c' c || has_char c rest
  end.

(** A string the memo format carries unchanged as a value: not empty, and
    free of the two separators. *)
Definition plain (s : string) : bool :=
  negb (String.eqb s "") && negb (has_char "," s) && negb (has_char "=" s).

(** A key the decoder files under [custom]. *)
Definition custom_key (k : string) : bool :=
  plain k && negb (String.eqb k "resource") && negb (String.eqb k "nonce")
  && negb (String.eqb k "__proto__").

Definition custom_entry (e : string * string) : bool :=
  custom_key (fst e) && plain (snd e).

(** The piece of the memo that carries one custom entry. *)
Definition entry_text (e : string * string) : string := fst e ++ "=" ++ snd e.

(** The text [createPaymentMemo] appends for the custom entries. *)
Fixpoint custom_suffix (entries : list (string * string)) : string :=
  match entries with
  | [] => ""
  | (key, value) :: rest => "," ++ key ++ "=" ++ value ++ custom_suffix rest
  end.

(** ** Vocabulary of the traces *)

Section Traces.
Context `{Platform}.

Definition is_request (e : Event) : bool :=
  match e with EvRequest _ => true | _ => false end.

Definition is_sign (e : Event) : bool :=
  match e with EvSignPayment _ => true | _ => false end.

(** The HTTP requests the explicit client has issued, and the entries into
    a [signPayment]. *)
Definition requests_issued (tr : list Event) : nat := length (List.filter is_request tr).
Definition signs_made (tr : list Event) : nat := length (List.filter is_sign tr).

Definition is_sdk_call (e : Event) : Prop :=
  match e with EvMakeSTX _ | EvMakeCall _ => True | _ => False end.

(** What the handling of one 402 adds to the trace: nothing when the body is
    not accepted; the reading of the clock when the offer has expired; the
    reading of the clock, the entry into the signer and the calls of the
    signer to the SDK when it has not. *)
Inductive handled : list Event -> Prop :=
| handled_refused : handled []
| handled_expired (t : Z) (p : X402PaymentRequired) :
    date_lt (expiresAt p) t = true -> handled [EvNow t]
| handled_signed (t : Z) (p : X402PaymentRequired) (sdk : list Event) :
    date_lt (expiresAt p) t = false -> Forall is_sdk_call sdk ->
    handled (EvNow t :: EvSignPayment p :: sdk).

(** Every entry into a signer comes right after a reading of the clock
    that does not put the offer in the past. [prev] is the reading made by
    the event just before, when that event is a reading. *)
Fixpoint guarded_from (prev : option Z) (tr : list Event) : Prop :=
  match tr with
  | [] => True
  | EvNow t :: rest => guarded_from (Some t) rest
  | EvSignPayment p :: rest =>
      match prev with
      | Some t => date_lt (expiresAt p) t = false
      | None => False
      end /\ guarded_from None rest
  | _ :: rest => guarded_from None rest
  end.

Definition guarded (tr : list Event) : Prop := guarded_from None tr.

(** The trace of [n] turns of the client's loop: each one a request,
    followed by the handling of its 402 if that is how it was answered. *)
Inductive turns : nat -> list Event -> Prop :=
| turns_nil : turns 0 []
| turns_cons (r : HttpRequest) (delta : list Event) (n : nat) (rest : list Event) :
    handled delta -> turns n rest -> turns (S n) (EvRequest r :: delta ++ rest).

(** The configuration object carries the payment headers for the signed
    transaction [signed] of the offer [p]. *)
Definition has_payment_headers (cfg : RequestConfig) (signed : string)
    (p : X402PaymentRequired) : Prop :=
  exists h : gmap string string,
    cfg_headers cfg = Some h /\
    h !! "X-PAYMENT" = Some signed /\
    h !! "X-PAYMENT-TOKEN-TYPE" = Some (TokenType_to_string (default STX (tokenType p))).

(** One payment cycle of the interceptor for the request object [o]: the
    object is marked; then the 402 is handled, and when that ends with a
    signed payment the object, now carrying the payment headers, is
    re-issued. *)
Inductive cycle (o : ObjId) : list Event -> Prop :=
| cycle_rejected (delta : list Event) :
    handled delta -> cycle o (EvMark o :: delta)
| cycle_reissued (t : Z) (p : X402PaymentRequired) (sdk : list Event)
    (cfg : RequestConfig) (signed : string) :
    date_lt (expiresAt p) t = false -> Forall is_sdk_call sdk ->
    has_payment_headers cfg signed p ->
    cycle o (EvMark o :: EvNow t :: EvSignPayment p :: sdk ++ [EvReissue o cfg]).

(** A sequence of cycles, for the request objects [os] in this order. *)
Inductive cycles : list ObjId -> list Event -> Prop :=
| cycles_nil : cycles [] []
| cycles_cons (o : ObjId) (os : list ObjId) (delta rest : list Event) :
    cycle o delta -> cycles os rest -> cycles (o :: os) (delta ++ rest).

Definition is_reissue_of (o : ObjId) (e : Event) : bool :=
  match e with EvReissue o' _ => Pos.eqb o' o | _ => false end.


(** How often [o] was re-issued, and how often it was marked. *)
Definition reissues_of (o : ObjId) (tr : list Event) : nat :=
  length (List.filter (is_reissue_of o) tr).

(** [s'] comes from [s] by adding [delta] to the trace, the world apart. *)
Definition extends (s s' : State) (delta : list Event) : Prop :=
  trace s' = (trace s ++ delta)%list /\
  paymentAttempted s' = paymentAttempted s /\
  requests s' = requests s.

End Traces.

(** The terminal errors of the two paths. *)
Definition max_retries_error : Exn :=
  ErrorObj EError "Max retries exceeded for payment request".
Definition invalid_request_error : Exn :=
  ErrorObj EError "Invalid x402 payment request from server".
Definition expired_error : Exn := ErrorObj EError "Payment request has expired".
Definition already_attempted_error : Exn :=
  ErrorObj EError "Payment already attempted for this request".

(** ** Reference built-ins, to run the header codec

    Base64 and UTF-8 as the platform has them, on the strings of this
    development; JSON restricted to the scalars and the records of scalars
    that are written without escapes: [stringify] throws on every other
    value and [parse] reads only the texts that [stringify] writes. *)
Module Reference.

(** *** Base64 *)














(** *** UTF-8, of code units below 256 *)




(** *** JSON, of scalars and of records of scalars

    The values are [null], the booleans, the integers, the strings of
    printable ASCII characters other than the quote and the backslash, and
    the objects whose keys are such strings, no key twice, and whose values
    are such scalars. The texts are those that [JSON.stringify] writes for
    them: no white space, escape, fraction or exponent, and [-0] is not
    read. *)



























End Reference.

(** ** [src/client.ts]: the broadcasting path

    [makePayment] and the three [send] functions build the transaction as
    the signing functions do, and submit it themselves. *)

(** What [broadcastTransaction] resolves with: a result with the [txid],
    or one that has an [error]. *)
Inductive TxBroadcastResult :=
| BroadcastOk (txid : string)
| BroadcastRejected (reason : string).

(** [broadcastTransaction({ transaction, network })]. A transaction is
    named by its serialization, which is what the call submits. *)
Class Broadcaster `{Platform} := {
  broadcastTransaction :
    string -> NetworkType -> World -> Completion TxBroadcastResult * World
}.

Module Payment.
Record t := {
  txId : string;
  txRaw : string;
  success : bool;
  error : option string
}.
End Payment.
Abbreviation PaymentResult := Payment.t.

Module Broadcasting.
Section Broadcasting.
Context `{Broadcaster}.

Variable this : X402PaymentClient.t.

Definition failure (fallback : string) (error : Exn) : M PaymentResult :=
  ret {| Payment.txId := ""; Payment.txRaw := ""; Payment.success := false;
         Payment.error := Some (message_or error fallback) |}.

(** The lines that follow the construction of the transaction, the same
    in the three [send] functions. *)
Definition broadcast (transaction : string) (network : NetworkType) : M PaymentResult :=
  let* outcome := call (broadcastTransaction transaction network) in
  let* broadcastResponse := lift outcome in
  let txRaw := transaction in
  match broadcastResponse with
  | BroadcastRejected reason =>
      ret {| Payment.txId := ""; Payment.txRaw := txRaw; Payment.success := false;
             Payment.error := Some reason |}
  | BroadcastOk txid =>
      ret {| Payment.txId := txid; Payment.txRaw := txRaw; Payment.success := true;
             Payment.error := None |}
  end.

Definition sendSTXTransfer (details : PaymentDetails) : M PaymentResult :=
  try_catch
    (let network := Details.network details in
     let txOptions :=
       {| STXOptions.recipient := Details.recipient details;
          STXOptions.amount := Details.amount details;
          STXOptions.senderKey := X402PaymentClient.privateKey this;
          STXOptions.network := network;
          STXOptions.memo :=
            match Details.memo details with
            | Some m => if String.eqb m "" then "" else m
            | None => ""
            end;
          STXOptions.nonce := Details.nonce details;
          STXOptions.fee := Details.fee details |} in
     do emit (EvMakeSTX txOptions) then
     let* made := call (makeSTXTokenTransfer txOptions) in
     let* transaction := lift made in
     broadcast transaction network)
    (failure "Transaction failed").

(** The body shared, word for word, by [sendSBTCTransfer] and
    [sendUSDCxTransfer], which differ in the two messages. *)
Definition sendContractTransfer (label fallback : string) (details : PaymentDetails)
  : M PaymentResult :=
  try_catch
    (let network := Details.network details in
     let* senderAddress :=
       lift (getAddressFromPrivateKey (Details.senderKey details)
               (match network with mainnet => mainnet | testnet => testnet end)) in
     match Details.tokenContract details with
     | None =>
         throw (ErrorObj EError ("Token contract required for " ++ label ++ " transfers"))
     | Some contract =>
         let contractAddress := Contract.address contract in
         let contractName := Contract.name contract in
         let functionArgs :=
           [ uintCV (Details.amount details);
             principalCV senderAddress;
             principalCV (Details.recipient details);
             match Details.memo details with
             | Some m => if String.eqb m "" then noneCV else someCV (bufferCVFromString m)
             | None => noneCV
             end ] in
         let txOptions :=
           {| CallOptions.contractAddress := contractAddress;
              CallOptions.contractName := contractName;
              CallOptions.functionName := "transfer";
              CallOptions.functionArgs := functionArgs;
              CallOptions.senderKey := X402PaymentClient.privateKey this;
              CallOptions.network := network;
              CallOptions.postConditionMode := "allow";
              CallOptions.nonce := Details.nonce details;
              CallOptions.fee := Details.fee details |} in
         do emit (EvMakeCall txOptions) then
         let* made := call (makeContractCall txOptions) in
         let* transaction := lift made in
         broadcast transaction network
     end)
    (failure fallback).

Definition sendSBTCTransfer : PaymentDetails -> M PaymentResult :=
  sendContractTransfer "sBTC" "sBTC transfer failed".

Definition sendUSDCxTransfer : PaymentDetails -> M PaymentResult :=
  sendContractTransfer "USDCx" "USDCx transfer failed".

Definition makePayment (paymentRequest : X402PaymentRequired) : M PaymentResult :=
  try_catch
    (let* amount := lift (BigInt (maxAmountRequired paymentRequest)) in
     let tokenType := default STX (tokenType paymentRequest) in
     let paymentDetails :=
       {| Details.recipient := payTo paymentRequest;
          Details.amount := amount;
          Details.senderKey := X402PaymentClient.privateKey this;
          Details.network := network paymentRequest;
          Details.memo := Some (String.substring 0 34 (nonce paymentRequest));
          Details.nonce := None;
          Details.fee := None;
          Details.tokenType := Some tokenType;
          Details.tokenContract := tokenContract paymentRequest |} in
     match tokenType with
     | sBTC => sendSBTCTransfer paymentDetails
     | USDCx => sendUSDCxTransfer paymentDetails
     | STX => sendSTXTransfer paymentDetails
     end)
    (failure "Unknown error").

(** [getNetwork()] *)
Definition getNetwork : NetworkType := X402PaymentClient.network this.
End Broadcasting.
End Broadcasting.

(** The two shapes of a [PaymentResult]. *)
Definition settled_or_failed (r : PaymentResult) : Prop :=
  (Payment.success r = true /\ Payment.error r = None) \/
  (Payment.success r = false /\ Payment.txId r = "" /\
   exists msg, Payment.error r = Some msg).

(** The message of a failure whose cause is not an [Error], by token. *)
Definition transfer_fallback (t : TokenType) : string :=
  match t with
  | STX => "Transaction failed"
  | sBTC => "sBTC transfer failed"
  | USDCx => "USDCx transfer failed"
  end.

(** ** The V1 interceptor: [privateKeyToAccountV1] *)

Definition privateKeyToAccountV1 `{Platform} (privateKey : string)
    (network : option NetworkType) : Completion StacksAccount :=
  let network := default testnet network in
  match getAddressFromPrivateKey privateKey
          (match network with mainnet => mainnet | testnet => testnet end) with
  | Returned address =>
      Returned {| Account.address := address; Account.privateKey := privateKey;
                  Account.network := network |}
  | Thrown e => Thrown e
  end.

(** The headers of a configuration object, an absent [headers] read as
    the empty record. *)
Definition config_headers (cfg : RequestConfig) : gmap string string :=
  default ∅ (cfg_headers cfg).

(** A key other than the two payment headers. *)
Definition other_header (k : string) : Prop :=
  k <> "X-PAYMENT" /\ k <> "X-PAYMENT-TOKEN-TYPE".

(** The event is not a request, or is one for [u] with the method [m] and
    the body [d] whose headers are those of [h], the two payment headers
    apart. *)
Definition request_of (u m : string) (d : JsValue) (h : gmap string string)
    (e : Event) : Prop :=
  match e with
  | EvRequest r =>
      url r = u /\ method r = m /\ body r = d /\
      forall k, other_header k -> headers r !! k = h !! k
  | _ => True
  end.

(** The events end with an entry into the signer that only calls of the
    SDK follow. *)
Definition ends_with_signature (tr : list Event) : Prop :=
  exists before p sdk,
    tr = (before ++ EvSignPayment p :: sdk)%list /\
    Forall is_sdk_call sdk.

(** The number of characters that [createPaymentMemo] writes for the
    custom entries: a comma, the key, an equals sign and the value for
    each. *)
Fixpoint custom_length (entries : list (string * string)) : nat :=
  match entries with
  | [] => O
  | (key, value) :: rest =>
      (2 + String.length key + String.length value + custom_length rest)%nat
  end.

(** ** [src/utils.ts]: addresses, display, expiration and retries

    The unit conversions and [formatPaymentAmount] go through floating
    point numbers ([Number], [parseFloat], [toFixed]), [generateKeypair]
    draws a random key and [createExpirationTimestamp] prints a calendar
    date: they are not embedded. *)

Module Helpers.

(** A character of the class [[0-9A-Z]]. *)
Definition upper_alnum (c : ascii) : bool :=
  let n := nat_of_ascii c in
  (((48 <=? n) && (n <=? 57)) || ((65 <=? n) && (n <=? 90)))%nat.

Fixpoint all_chars (p : ascii -> bool) (s : string) : bool :=
  match s with
  | EmptyString => true
  | String c rest => p c && all_chars p rest
  end.

(** [/^XY[0-9A-Z]{38,41}$/.test(address)] for the two-letter prefix [XY]. *)
Definition regex_test (prefix address : string) : bool :=
  String.prefix prefix address &&
  (let rest := drop_chars 2 address in
   (38 <=? String.length rest)%nat && (String.length rest <=? 41)%nat &&
   all_chars upper_alnum rest).

Definition isValidStacksAddress (address : string) : bool :=
  let mainnetRegex := regex_test "SP" in
  let testnetRegex := regex_test "ST" in
  mainnetRegex address || testnetRegex address.

(** [null] is [None]. *)
Definition getAddressNetwork (address : string) : option NetworkType :=
  if negb (isValidStacksAddress address) then None
  else Some (if String.prefix "SP" address then mainnet else testnet).

(** The index that [slice] reads an integer argument as: a negative one
    counts from the end, and both ends are clamped to the string. *)
Definition slice_index (len i : Z) : Z :=
  if i <? 0 then Z.max (len + i) 0 else Z.min i len.

(** [s.slice(start, stop)], and [s.slice(start)] for [stop = None] *)
Definition slice (s : string) (start : Z) (stop : option Z) : string :=
  let len := Z.of_nat (String.length s) in
  let from := slice_index len start in
  let to :=
    match stop with
    | Some e => slice_index len e
    | None => len
    end in
  String.substring (Z.to_nat from) (Z.to_nat (to - from)) s.

(** [chars] is an integer. *)
Definition truncateAddress (address : string) (chars : option Z) : string :=
  let chars := default 6 chars in
  if Z.of_nat (String.length address) <=? chars * 2 then address
  else slice address 0 (Some chars) ++ "..." ++ slice address (- chars) None.

Definition getDefaultSBTCContract (network : NetworkType) : TokenContract :=
  match network with
  | mainnet =>
      {| Contract.address := "SM3VDXK3WZZSA84XXFKAFAF15NNZX32CTSG82JFQ4";
         Contract.name := "sbtc-token" |}
  | testnet =>
      {| Contract.address := "ST1F7QA2MDF17S807EPA36TSS8AMEFY4KA9TVGWXT";
         Contract.name := "sbtc-token" |}
  end.

Definition getDefaultUSDCxContract (network : NetworkType) : TokenContract :=
  match network with
  | mainnet =>
      {| Contract.address := "SP120SBRBQJ00MCWS7TM5R8WJNTTKD5K0HFRC2CNE";
         Contract.name := "usdcx" |}
  | testnet =>
      {| Contract.address := "ST1PQHQKV0RJXZFY1DGX8MNSNYVE3VGZJSRTPGZGM";
         Contract.name := "usdcx" |}
  end.

(** [isPaymentRequestExpired(expiresAt)] *)
Definition isPaymentRequestExpired `{Platform} (expiresAt : string) : M bool :=
  let expirationDate := expiresAt in
  let* now := new_Date in
  ret (date_lt expirationDate now).

End Helpers.

(** The prefix of the addresses of a network. *)
Definition network_prefix (n : NetworkType) : string :=
  match n with mainnet => "SP" | testnet => "ST" end.

(** *** [waitWithBackoff] and [retryWithBackoff]

    [fn] is the caller's function: it reads and updates the caller's
    world, and completes by returning or by throwing. The world goes on
    while a timer runs: [setTimeout d w] is the world when a timer of [d]
    milliseconds set in [w] fires. Delays and [maxAttempts] are integers. *)
Module Backoff.

(** What a run does, in order: the calls of [fn], each with the value it
    threw if it did, and the timers waited for. *)
Inductive Step :=
| Called (attempt : nat) (thrown : option Exn)
| Waited (delay : Z).

Section Backoff.
Variables (W A : Type).
Variable setTimeout : Z -> W -> W.

Definition Run : Type := W * list Step.

(** [Math.min(baseDelayMs * Math.pow(2, attempt), maxDelayMs)] *)
Definition backoff_delay (attempt : nat) (baseDelayMs maxDelayMs : Z) : Z :=
  Z.min (baseDelayMs * 2 ^ Z.of_nat attempt) maxDelayMs.

Definition waitWithBackoff (attempt : nat) (baseDelayMs maxDelayMs : option Z)
    (s : Run) : Run :=
  let baseDelayMs := default 1000 baseDelayMs in
  let maxDelayMs := default 30000 maxDelayMs in
  let delay := backoff_delay attempt baseDelayMs maxDelayMs in
  (setTimeout delay (fst s), (snd s ++ [Waited delay])%list).

(** [error instanceof Error ? error : new Error('Unknown error')] *)
Definition as_Error (error : Exn) : Exn :=
  match error with
  | Other _ => ErrorObj EError "Unknown error"
  | _ => error
  end.

(** The [for] loop and the [throw] after it. The counter [attempt] runs
    over 0, ..., [maxAttempts - 1] and the body does not assign it:
    [remaining] is the number of turns left. *)
Fixpoint attempts (fn : W -> Completion A * W) (maxAttempts baseDelayMs : Z)
    (remaining attempt : nat) (lastError : option Exn) (s : Run)
  : Completion A * Run :=
  match remaining with
  | O =>
      (Thrown (default (ErrorObj EError "Max retry attempts exceeded") lastError), s)
  | S remaining' =>
      let '(outcome, w) := fn (fst s) in
      match outcome with
      | Returned a => (Returned a, (w, (snd s ++ [Called attempt None])%list))
      | Thrown error =>
          let s1 : Run := (w, (snd s ++ [Called attempt (Some error)])%list) in
          let lastError := as_Error error in
          let s2 :=
            if Z.of_nat attempt <? maxAttempts - 1
            then waitWithBackoff attempt (Some baseDelayMs) None s1
            else s1 in
          attempts fn maxAttempts baseDelayMs remaining' (S attempt) (Some lastError) s2
      end
  end.

Definition retryWithBackoff (fn : W -> Completion A * W)
    (maxAttempts baseDelayMs : option Z) (s : Run) : Completion A * Run :=
  let maxAttempts := default 3 maxAttempts in
  let baseDelayMs := default 1000 baseDelayMs in
  attempts fn maxAttempts baseDelayMs (Z.to_nat maxAttempts) 0 None s.

(** The steps of a run that makes at least one call, from the call
    numbered [attempt] on, and the value it throws if it does: the call
    returns; or it is the last one and throws; or it throws, the timer is
    waited for, and the run goes on with the next call. *)
Inductive retry_steps (maxAttempts baseDelayMs : Z)
  : nat -> list Step -> option Exn -> Prop :=
| retry_returned (attempt : nat) :
    Z.of_nat attempt < maxAttempts ->
    retry_steps maxAttempts baseDelayMs attempt [Called attempt None] None
| retry_exhausted (attempt : nat) (error : Exn) :
    Z.of_nat attempt = maxAttempts - 1 ->
    retry_steps maxAttempts baseDelayMs attempt
      [Called attempt (Some error)] (Some (as_Error error))
| retry_again (attempt : nat) (error : Exn) (rest : list Step) (thrown : option Exn) :
    Z.of_nat attempt < maxAttempts - 1 ->
    retry_steps maxAttempts baseDelayMs (S attempt) rest thrown ->
    retry_steps maxAttempts baseDelayMs attempt
      (Called attempt (Some error)
         :: Waited (backoff_delay attempt baseDelayMs 30000) :: rest)
      thrown.

End Backoff.

Definition is_call (e : Step) : bool :=
  match e with Called _ _ => true | Waited _ => false end.

(** The calls of [fn] and the timers of a run. *)
Definition calls_made (steps : list Step) : nat := length (List.filter is_call steps).
Definition timers_set (steps : list Step) : nat :=
  length (List.filter (fun e => negb (is_call e)) steps).

(** The steps are calls of [fn] with exactly one timer between each call
    and the next: a call comes first, a call comes last, and every timer
    stands between two calls. *)
Fixpoint spaced (steps : list Step) : bool :=
  match steps with
  | [Called _ _] => true
  | Called _ _ :: Waited _ :: rest => spaced rest
  | _ => false
  end.

(** The step is not a call that returned. *)
Definition not_returned (e : Step) : bool :=
  match e with Called _ None => false | _ => true end.

(** What a completion throws. *)
Definition thrown_by {A} (c : Completion A) : option Exn :=
  match c with
  | Returned _ => None
  | Thrown e => Some e
  end.

End Backoff.

(** ** A scripted node, to run the broadcasting path

    The node accepts the native transfers, whose serialization starts
    with [0x00] on the scripted platform, and rejects the contract calls. *)
Module ScriptedNode.

Definition broadcastTransaction (transaction : string) (n : NetworkType)
    (w : Scripted.World) : Completion TxBroadcastResult * Scripted.World :=
  if String.prefix "0x00" transaction
  then (Returned (BroadcastOk ("txid-" ++ transaction)), w)
  else (Returned (BroadcastRejected "transaction rejected"), w).

Definition broadcaster : @Broadcaster Scripted.platform :=
  @Build_Broadcaster Scripted.platform broadcastTransaction.

(** A node that cannot be reached. *)
Definition unreachable (transaction : string) (n : NetworkType)
    (w : Scripted.World) : Completion TxBroadcastResult * Scripted.World :=
  (Thrown (ErrorObj EError "fetch failed"), w).

Definition offline : @Broadcaster Scripted.platform :=
  @Build_Broadcaster Scripted.platform unreachable.

End ScriptedNode.

(** More inputs of the examples. *)
Module Sample2.

(** A 402 answer with the offer, then the resource. *)
Definition offer_then_resource : Scripted.World :=
  {| Scripted.http_outcomes :=
       [inl (Sample.payment_required 1%positive Sample.offer);
        inr (JString "premium data")];
     Scripted.clock_readings := [Sample.in_2023] |}.

(** The resource at once, and a server error. *)
Definition resource_at_once : Scripted.World :=
  {| Scripted.http_outcomes := [inr (JString "free data")];
     Scripted.clock_readings := [] |}.

Definition server_error (o : ObjId) : AxiosError :=
  {| message := "Request failed with status code 500"; config := o;
     response := Some {| Response.status := 500; Response.data := JNull |} |}.

(** An offer whose [expiresAt] is not a date. *)
Definition undated_offer : JsValue :=
  JObject [("maxAmountRequired", JString "1000000");
           ("resource", JString "/resource");
           ("payTo", JString Sample.merchant);
           ("network", JString "testnet");
           ("nonce", JString "abc123");
           ("expiresAt", JString "soon")].

(** The offer with optional fields of the wrong types. *)
Definition offer_with_extras : JsValue :=
  JObject [("maxAmountRequired", JString "1000000");
           ("resource", JString "/resource");
           ("payTo", JString Sample.merchant);
           ("network", JString "testnet");
           ("nonce", JString "abc123");
           ("expiresAt", JString "2030-01-01T00:00:00.000Z");
           ("tokenType", JNumber 7);
           ("tokenContract", JString "none")].

Definition token : TokenContract :=
  {| Contract.address := "ST1F7QA2MDF17S807EPA36TSS8AMEFY4KA9TVGWXT";
     Contract.name := "sbtc-token" |}.

(** An offer for sBTC with its contract, and a world that answers with it
    and then with the resource. *)
Definition sbtc_offer_with_contract : JsValue :=
  JObject [("maxAmountRequired", JString "2500");
           ("resource", JString "/resource");
           ("payTo", JString Sample.merchant);
           ("network", JString "testnet");
           ("nonce", JString "abc123");
           ("expiresAt", JString "2030-01-01T00:00:00.000Z");
           ("tokenType", JString "sBTC");
           ("tokenContract",
            JObject [("address", JString "ST1F7QA2MDF17S807EPA36TSS8AMEFY4KA9TVGWXT");
                     ("name", JString "sbtc-token")])].

Definition sbtc_offer_then_resource : Scripted.World :=
  {| Scripted.http_outcomes :=
       [inl (Sample.payment_required 1%positive sbtc_offer_with_contract);
        inr (JString "premium data")];
     Scripted.clock_readings := [Sample.in_2023] |}.

(** An offer for sBTC that comes without its contract. *)
Definition sbtc_offer : JsValue :=
  JObject [("maxAmountRequired", JString "2500");
           ("resource", JString "/resource");
           ("payTo", JString Sample.merchant);
           ("network", JString "testnet");
           ("nonce", JString "abc123");
           ("expiresAt", JString "2030-01-01T00:00:00.000Z");
           ("tokenType", JString "sBTC")].

(** A function that throws a string twice and then returns, on a world
    that counts its calls. *)
Definition flaky (w : nat) : Completion string * nat :=
  if (w <? 2)%nat then (Thrown (Other (JString "busy")), S w)
  else (Returned "done", S w).

Definition no_timer (d : Z) (w : nat) : nat := w.

End Sample2.

(** ** Vocabulary of the expiration check *)

(** The reading [t] of the clock does not put [expiresAt] in the past:
    [expiresAt] is a date that is not earlier than [t], or is not a date. *)
Definition not_past `{Platform} (expiresAt : string) (t : Z) : Prop :=
  forall e, Date_parse expiresAt = Some e -> t <= e.

(** Every entry into a signer comes right after a reading of the clock
    that does not put the offer in the past. [prev] is the reading made by
    the event just before, when that event is a reading. *)
Fixpoint signed_in_time_from `{Platform} (prev : option Z) (tr : list Event) : Prop :=
  match tr with
  | [] => True
  | EvNow t :: rest => signed_in_time_from (Some t) rest
  | EvSignPayment p :: rest =>
      match prev with
      | Some t => not_past (expiresAt p) t
      | None => False
      end /\ signed_in_time_from None rest
  | _ :: rest => signed_in_time_from None rest
  end.

Definition signed_in_time `{Platform} (tr : list Event) : Prop :=
  signed_in_time_from None tr.

(** ** Vocabulary of the optional fields *)

(** [body.tokenType || 'STX'], read off the body of a 402. *)
Definition token_type_or_STX (body : JsValue) : Completion JsValue :=
  match get_prop body "tokenType" with
  | Returned v => Returned (if truthy v then v else JString "STX")
  | Thrown e => Thrown e
  end.

(** The three names of the declared type of [tokenType]. *)
Definition token_name (name : string) : Prop :=
  name = "STX" \/ name = "sBTC" \/ name = "USDCx".

(** [!body.tokenContract] *)
Definition no_token_contract (body : JsValue) : Prop :=
  exists v, get_prop body "tokenContract" = Returned v /\ truthy v = false.

(** ** Vocabulary of the paid turns *)

(** A turn of the loop of [requestWithPayment] that ends in a signed
    payment, from the state [s] to the state [s1]. Its request is for the
    URL, with the method, the body and, the two payment headers apart, the
    headers of the call: it is sent with the caller's headers when no
    payment was signed before, and carries in [X-PAYMENT] the payment
    signed before when that is not the empty string. The request is
    answered by a 402 whose body the validator accepts; the clock, read
    next, does not put the offer of that body in the past; and
    [signPayment], run on the offer right after that reading, returns a
    success, whose transaction is [signed]. *)
Definition paid_turn `{Platform} (this : X402PaymentClient.t) (url method : string)
    (data : JsValue) (given : gmap string string)
    (lastSigned : option string) (signed : string) (s s1 : State) : Prop :=
  exists request error w r,
    let offer := as_payment_request (response_data error) in
    let answered :=
      {| world := w; trace := trace s ++ [EvRequest request];
         paymentAttempted := paymentAttempted s; requests := requests s |} in
    request_of url method data given (EvRequest request) /\
    (lastSigned = None -> headers request = given) /\
    (forall sent, lastSigned = Some sent -> sent <> "" ->
                  headers request !! "X-PAYMENT" = Some sent) /\
    httpClient_request request (world s) = (inl error, w) /\
    is_402 error = true /\
    Client.isValidPaymentRequest (response_data error) = Returned true /\
    not_past (expiresAt offer) (fst (Date_now w)) /\
    Client.signPayment this offer (snd (new_Date answered)) = (Returned r, s1) /\
    success r = true /\
    signed = signedTransaction r.

(** [n] such turns in a row, each one sending the payment that the one
    before it signed. *)
Inductive paid_turns `{Platform} (this : X402PaymentClient.t) (url method : string)
    (data : JsValue) (headers : gmap string string)
  : option string -> State -> nat -> State -> Prop :=
| paid_turns_none lastSigned s :
    paid_turns this url method data headers lastSigned s O s
| paid_turns_more lastSigned s signed s1 n s' :
    paid_turn this url method data headers lastSigned signed s s1 ->
    paid_turns this url method data headers (Some signed) s1 n s' ->
    paid_turns this url method data headers lastSigned s (S n) s'.

(** * Properties *)

(** ** The structural validators *)

Section Validators.

Lemma prop_is_string_object fields k :
  prop_is_string (JObject fields) k = Returned (has_string fields k).
Proof.
  unfold prop_is_string, has_string; simpl.
  destruct (assoc k fields) as [[]|]; reflexivity.
Qed.

Lemma prop_equals_object fields k s :
  prop_equals (JObject fields) k s =
  Returned (match assoc k fields with
            | Some (JString x) => String.eqb x s
            | _ => false
            end).
Proof.
  unfold prop_equals; simpl.
  destruct (assoc k fields) as [[]|]; reflexivity.
Qed.

Lemma conjunction_object fields :
  prop_is_string (JObject fields) "maxAmountRequired" &&&
  prop_is_string (JObject fields) "resource" &&&
  prop_is_string (JObject fields) "payTo" &&&
  prop_is_string (JObject fields) "network" &&&
  prop_is_string (JObject fields) "nonce" &&&
  prop_is_string (JObject fields) "expiresAt" &&&
  (prop_equals (JObject fields) "network" "mainnet" |||
   prop_equals (JObject fields) "network" "testnet")
  = Returned (object_check fields).
Proof.
  rewrite !prop_is_string_object, !prop_equals_object.
  unfold object_check, network_ok.
  destruct (has_string fields "maxAmountRequired"); [|reflexivity].
  destruct (has_string fields "resource"); [|reflexivity].
  destruct (has_string fields "payTo"); [|reflexivity].
  destruct (has_string fields "network"); [|reflexivity].
  destruct (has_string fields "nonce"); [|reflexivity].
  destruct (has_string fields "expiresAt"); [|reflexivity].
  simpl. destruct (assoc "network" fields) as [[]|]; simpl; try reflexivity.
  destruct (String.eqb s "mainnet"); reflexivity.
Qed.

Lemma has_string_true fields k :
  has_string fields k = true <-> exists s, assoc k fields = Some (JString s).
Proof.
  unfold has_string. split.
  - destruct (assoc k fields) as [[]|]; try discriminate. eauto.
  - intros [s ->]. reflexivity.
Qed.

Lemma object_check_true fields :
  object_check fields = true <-> well_formed_request (JObject fields).
Proof.
  unfold object_check, well_formed_request. split.
  - intros Hc.
    apply andb_prop in Hc as [Hc Hnet]. apply andb_prop in Hc as [Hc H6].
    apply andb_prop in Hc as [Hc H5]. apply andb_prop in Hc as [Hc H4].
    apply andb_prop in Hc as [Hc H3]. apply andb_prop in Hc as [H1 H2].
    exists fields. split; [reflexivity|]. split.
    + intros k Hk. apply has_string_true.
      simpl in Hk. intuition (subst; assumption).
    + unfold network_ok in Hnet.
      destruct (assoc "network" fields) as [[]|]; try discriminate.
      apply orb_prop in Hnet as [Hn|Hn]; apply String.eqb_eq in Hn; subst; auto.
  - intros (fields' & Heq & Hreq & Hnet). injection Heq as <-.
    assert (Hs : forall k, In k required_fields -> has_string fields k = true).
    { intros k Hk. apply has_string_true. auto. }
    rewrite !Hs by (simpl; auto 10). simpl.
    unfold network_ok. destruct Hnet as [-> | ->]; reflexivity.
Qed.

Lemma not_well_formed_non_object v :
  (forall fields, v <> JObject fields) -> ~ well_formed_request v.
Proof. intros Hv (fields & -> & _). eapply Hv; reflexivity. Qed.

(** The interceptor's validator returns a boolean on every value, and
    [true] exactly on the well-formed mappings. *)
Lemma interceptor_isValidPaymentRequest_spec (v : JsValue) :
  exists b, Interceptor.isValidPaymentRequest v = Returned b /\
            (b = true <-> well_formed_request v).
Proof.
  destruct v as [| |b|n|s|items|fields].
  1-5: exists false; split;
    [ unfold Interceptor.isValidPaymentRequest; simpl;
      repeat match goal with |- context [if ?c then _ else _] => destruct c end;
      reflexivity
    | split; [discriminate | intros Hw; exfalso;
               revert Hw; apply not_well_formed_non_object; discriminate] ].
  - exists false. split.
    + unfold Interceptor.isValidPaymentRequest. simpl.
      unfold prop_is_string. simpl. reflexivity.
    + split; [discriminate|]. intros Hw; exfalso.
      revert Hw; apply not_well_formed_non_object; discriminate.
  - exists (object_check fields). split.
    + unfold Interceptor.isValidPaymentRequest. simpl.
      apply conjunction_object.
    + apply object_check_true.
Qed.

(** The client's validator agrees with it on every value but [null]. *)
Lemma client_isValidPaymentRequest_spec (v : JsValue) :
  v <> JNull ->
  exists b, Client.isValidPaymentRequest v = Returned b /\
            (b = true <-> well_formed_request v).
Proof.
  intros Hnull.
  destruct v as [| |b|n|s|items|fields]; try congruence.
  1-4: exists false; split;
    [ reflexivity
    | split; [discriminate | intros Hw; exfalso;
               revert Hw; apply not_well_formed_non_object; discriminate] ].
  - exists false. split.
    + unfold Client.isValidPaymentRequest. simpl.
      unfold prop_is_string. simpl. reflexivity.
    + split; [discriminate|]. intros Hw; exfalso.
      revert Hw; apply not_well_formed_non_object; discriminate.
  - exists (object_check fields). split.
    + unfold Client.isValidPaymentRequest. simpl.
      apply conjunction_object.
    + apply object_check_true.
Qed.

End Validators.

(** C6. On [null] the client's validator does not return a boolean: the
    test [typeof request === 'object'] holds for [null], and reading
    [request.maxAmountRequired] then throws a TypeError. The interceptor's
    validator returns [false] on the same input. A 402 response with the
    body [null] so makes [requestWithPayment] throw that TypeError, and not
    the invalid-request error. *)
Theorem client_isValidPaymentRequest_null_throws :
  let type_error :=
    ErrorObj ETypeError "Cannot read properties of null (reading 'maxAmountRequired')" in
  Client.isValidPaymentRequest JNull = Thrown type_error /\
  Interceptor.isValidPaymentRequest JNull = Returned false /\
  option_map fst
    (@Client.requestWithPayment Scripted.platform Sample.client "/resource" Sample.options
       (Scripted.start (Sample.one_offer JNull Sample.in_2023)))
  = Some (Thrown type_error).
Proof. repeat split; vm_compute; reflexivity. Qed.

(** ** [signPayment] of the client *)

Section ClientSigning.
Context `{Platform}.
Variable this : X402PaymentClient.t.

Lemma try_catch_failure m fallback :
  (forall s r s', m s = (Returned r, s') -> discriminated r) ->
  resolves_discriminated (try_catch m (Client.failure fallback)).
Proof.
  intros Hm s. unfold try_catch.
  destruct (m s) as [[r|e] s'] eqn:E.
  - exists r, s'. split; [reflexivity|]. eapply Hm; eassumption.
  - eexists _, _. split; [reflexivity|]. right. simpl. eauto.
Qed.

Lemma signSTXTransfer_discriminated details :
  resolves_discriminated (Client.signSTXTransfer this details).
Proof.
  apply try_catch_failure. intros s r s'.
  unfold bind, lift, emit, call, ret.
  destruct (getAddressFromPrivateKey _ _) as [a|e]; [|discriminate].
  simpl. destruct (makeSTXTokenTransfer _ _) as [[tx|e] w]; [|discriminate].
  intros [= <- <-]. left. simpl. eauto.
Qed.

Lemma signContractTransfer_discriminated label fallback details :
  resolves_discriminated (Client.signContractTransfer this label fallback details).
Proof.
  apply try_catch_failure. intros s r s'.
  unfold bind, lift, emit, call, ret, throw.
  destruct (getAddressFromPrivateKey _ _) as [a|e]; [|discriminate].
  destruct (Details.tokenContract details) as [c|]; [|discriminate].
  simpl. destruct (makeContractCall _ _) as [[tx|e] w]; [|discriminate].
  intros [= <- <-]. left. simpl. eauto.
Qed.

(** C3. [signPayment] never throws: for every payment request, key and
    state of the world it resolves to a result that is either a success
    with a sender address, or a failure with an empty transaction and an
    error message. *)
Theorem signPayment_never_throws (paymentRequest : X402PaymentRequired) (s : State) :
  exists r s',
    Client.signPayment this paymentRequest s = (Returned r, s') /\ discriminated r.
Proof.
  unfold Client.signPayment, bind at 1, emit. cbv beta iota.
  apply try_catch_failure. clear s. intros s r s'.
  unfold bind, lift.
  destruct (BigInt (maxAmountRequired paymentRequest)) as [amount|e]; [|discriminate].
  intros Hrun.
  assert (Hd : exists r0 s0,
             (match default STX (tokenType paymentRequest) with
              | STX => Client.signSTXTransfer this
              | sBTC => Client.signSBTCTransfer this
              | USDCx => Client.signUSDCxTransfer this
              end)
               {| Details.recipient := payTo paymentRequest;
                  Details.amount := amount;
                  Details.senderKey := X402PaymentClient.privateKey this;
                  Details.network := network paymentRequest;
                  Details.memo := Some (String.substring 0 34 (nonce paymentRequest));
                  Details.nonce := None; Details.fee := None;
                  Details.tokenType := Some (default STX (tokenType paymentRequest));
                  Details.tokenContract := tokenContract paymentRequest |} s
             = (Returned r0, s0) /\ discriminated r0).
  { destruct (default STX (tokenType paymentRequest)).
    - apply signSTXTransfer_discriminated.
    - apply signContractTransfer_discriminated.
    - apply signContractTransfer_discriminated. }
  destruct Hd as (r0 & s0 & Hr0 & Hdisc).
  destruct (default STX (tokenType paymentRequest));
    rewrite Hr0 in Hrun; injection Hrun as <- <-; exact Hdisc.
Qed.
End ClientSigning.

(** ** A fungible token without its contract *)

Section MissingContract.
Context `{Platform}.
Variable this : X402PaymentClient.t.

Lemma network_match (n : NetworkType) :
  match n with mainnet => mainnet | testnet => testnet end = n.
Proof. destruct n; reflexivity. Qed.

Lemma signContractTransfer_missing label fallback details s :
  Details.tokenContract details = None ->
  exists r,
    Client.signContractTransfer this label fallback details s = (Returned r, s) /\
    success r = false /\ signedTransaction r = "" /\
    (forall a,
        getAddressFromPrivateKey (Details.senderKey details) (Details.network details)
          = Returned a ->
        error r = Some ("Token contract required for " ++ label ++ " transfers")).
Proof.
  intros Hc. unfold Client.signContractTransfer, Client.failure.
  unfold try_catch, bind, lift, throw, ret.
  rewrite network_match, Hc.
  destruct (getAddressFromPrivateKey _ _) as [a|e].
  - eexists. split; [reflexivity|]. simpl. split; [reflexivity|]. split; reflexivity.
  - eexists. split; [reflexivity|]. simpl. split; [reflexivity|].
    split; [reflexivity|]. intros a [=].
Qed.

(** C4, as the code has it. For a request for sBTC or USDCx without a token
    contract [signPayment] resolves to a failure with an empty transaction,
    and calls neither signing function of the SDK. The message names the
    missing contract whenever the amount converts to an integer and the
    sender address is derived from the key: these two steps come first, and
    the failure carries the message of the first step that throws. *)
Theorem signPayment_missing_contract
    (paymentRequest : X402PaymentRequired) (t : TokenType) (s : State) :
  tokenType paymentRequest = Some t -> t <> STX ->
  tokenContract paymentRequest = None ->
  exists r s',
    Client.signPayment this paymentRequest s = (Returned r, s') /\
    success r = false /\ signedTransaction r = "" /\
    trace s' = (trace s ++ [EvSignPayment paymentRequest])%list /\
    world s' = world s /\
    (forall amount a,
        BigInt (maxAmountRequired paymentRequest) = Returned amount ->
        getAddressFromPrivateKey (X402PaymentClient.privateKey this)
          (network paymentRequest) = Returned a ->
        error r = Some (missing_contract_message t)).
Proof.
  intros Ht Hstx Hc.
  unfold Client.signPayment, bind at 1, emit. cbv beta iota.
  unfold try_catch at 1, bind at 1, lift at 1.
  rewrite Ht. simpl default.
  destruct (BigInt (maxAmountRequired paymentRequest)) as [amount|e].
  - set (details := {| Details.recipient := _ |}).
    set (s0 := {| world := world s |}).
    destruct t; [congruence| |];
      [ destruct (signContractTransfer_missing "sBTC" "sBTC signing failed"
                    details s0 Hc) as (r & Hr & Hfail & Hempty & Hmsg)
      | destruct (signContractTransfer_missing "USDCx" "USDCx signing failed"
                    details s0 Hc) as (r & Hr & Hfail & Hempty & Hmsg) ];
      unfold Client.signSBTCTransfer, Client.signUSDCxTransfer; cbn [from_option id];
      rewrite Hr; exists r, s0; (repeat split; auto);
      intros amount' a _ Ha; apply (Hmsg a); exact Ha.
  - eexists _, _. split; [reflexivity|]. simpl. repeat split.
    intros amount a [=].
Qed.
End MissingContract.

(** C4, as stated, fails: with no token contract, the failure reports the
    amount that does not convert, or the key that yields no address, and
    not the missing contract. *)
Lemma signPayment_missing_contract_other_message :
  (fst (@Client.signPayment Scripted.platform Sample.client
          (Sample.request "abc" "abc123" (Some sBTC) None)
          (Scripted.start Sample.idle))
   = Returned {| signedTransaction := ""; success := false; senderAddress := None;
                 error := Some "Cannot convert abc to a BigInt" |} /\
   "Cannot convert abc to a BigInt" <> missing_contract_message sBTC) /\
  (fst (@Client.signPayment Scripted.platform Sample.bad_client
          (Sample.request "1000000" "abc123" (Some USDCx) None)
          (Scripted.start Sample.idle))
   = Returned {| signedTransaction := ""; success := false; senderAddress := None;
                 error := Some "Invalid private key" |} /\
   "Invalid private key" <> missing_contract_message USDCx).
Proof.
  repeat split; try discriminate; vm_compute; reflexivity.
Qed.

Lemma signPayment_missing_contract_witness :
  exists r s',
    @Client.signPayment Scripted.platform Sample.client
      (Sample.request "1000000" "abc123" (Some sBTC) None)
      (Scripted.start Sample.idle) = (Returned r, s') /\
    success r = false /\ signedTransaction r = "" /\
    error r = Some (missing_contract_message sBTC).
Proof.
  destruct (@signPayment_missing_contract Scripted.platform Sample.client
              (Sample.request "1000000" "abc123" (Some sBTC) None) sBTC
              (Scripted.start Sample.idle) eq_refl ltac:(discriminate) eq_refl)
    as (r & s' & Hr & Hf & He & _ & _ & Hm).
  exists r, s'. repeat split; try assumption.
  apply (Hm 1000000 ("ST" ++ String.substring 0 8 Sample.key)); reflexivity.
Defined.

(** ** The native transfer *)

Section NativeTransfer.
Context `{Platform}.
Variable this : X402PaymentClient.t.

Lemma substring_length_le (n : nat) (s : string) :
  (String.length (String.substring 0 n s) <= n)%nat.
Proof.
  revert s. induction n as [|n IH]; intros [|c s]; simpl; try lia.
  specialize (IH s). lia.
Qed.

(** For a request for the native token whose amount converts and whose
    key yields an address, [signPayment] makes one call to the SDK, with
    the recipient, the converted amount and the first 34 code units of the
    nonce. *)
Lemma signPayment_native_options (paymentRequest : X402PaymentRequired) (s : State)
    (amount : Z) (a : string) :
  default STX (tokenType paymentRequest) = STX ->
  BigInt (maxAmountRequired paymentRequest) = Returned amount ->
  getAddressFromPrivateKey (X402PaymentClient.privateKey this)
    (network paymentRequest) = Returned a ->
  exists options,
    trace (snd (Client.signPayment this paymentRequest s)) =
      (trace s ++ [EvSignPayment paymentRequest; EvMakeSTX options])%list /\
    STXOptions.recipient options = payTo paymentRequest /\
    STXOptions.amount options = amount /\
    STXOptions.senderKey options = X402PaymentClient.privateKey this /\
    STXOptions.memo options = String.substring 0 34 (nonce paymentRequest) /\
    (String.length (STXOptions.memo options) <= 34)%nat.
Proof.
  intros Ht Hamount Haddr.
  unfold Client.signPayment, bind at 1, emit. cbv beta iota.
  unfold try_catch at 1, bind at 1, lift at 1.
  rewrite Hamount, Ht.
  unfold Client.signSTXTransfer, Client.failure.
  unfold try_catch, bind, lift, emit, call, ret.
  cbn [Details.senderKey Details.network Details.memo Details.recipient Details.amount
         Details.nonce Details.fee].
  rewrite network_match, Haddr. cbn [world trace].
  eexists. split.
  - destruct (makeSTXTokenTransfer _ _) as [[tx|e] w]; cbn [snd trace];
      rewrite <- app_assoc; reflexivity.
  - cbn [STXOptions.recipient STXOptions.amount STXOptions.senderKey STXOptions.memo].
    assert (Hmemo : (if String.eqb (String.substring 0 34 (nonce paymentRequest)) ""
                     then "" else String.substring 0 34 (nonce paymentRequest))
                    = String.substring 0 34 (nonce paymentRequest)).
    { destruct (String.eqb_spec (String.substring 0 34 (nonce paymentRequest)) "")
        as [E|E]; [rewrite E|]; reflexivity. }
    rewrite Hmemo. repeat split. apply substring_length_le.
Qed.
End NativeTransfer.

(** C8. The memo is the first 34 UTF-16 code units of the nonce, not its
    first 34 bytes: for a nonce of 34 accented letters both [signPayment]
    hand the SDK a memo of 68 bytes, against the bound of 34 bytes that the
    code states for the memo. (The SDK refuses such a memo, and the client
    reports the failure.) *)
Theorem signPayment_memo_exceeds_34_bytes :
  let request := Sample.request "1000000" Sample.accented_nonce None None in
  let options :=
    {| STXOptions.recipient := payTo request; STXOptions.amount := 1000000;
       STXOptions.senderKey := Sample.key; STXOptions.network := testnet;
       STXOptions.memo := Sample.accented_nonce;
       STXOptions.nonce := None; STXOptions.fee := None |} in
  String.substring 0 34 (nonce request) = Sample.accented_nonce /\
  utf8_length (STXOptions.memo options) = 68%nat /\
  trace (snd (@Client.signPayment Scripted.platform Sample.client request
                (Scripted.start Sample.idle)))
    = [EvSignPayment request; EvMakeSTX options] /\
  fst (@Client.signPayment Scripted.platform Sample.client request
         (Scripted.start Sample.idle))
    = Returned {| signedTransaction := ""; success := false; senderAddress := None;
                  error := Some "Memo exceeds maximum length of 34 bytes" |} /\
  trace (snd (@Interceptor.signPayment Scripted.platform request Sample.account
                (Scripted.start Sample.idle)))
    = [EvSignPayment request; EvMakeSTX options].
Proof.
  repeat split; vm_compute; reflexivity.
Qed.

(** ** The memo codec *)

Lemma string_app_assoc (a b c : string) : (a ++ b) ++ c = a ++ (b ++ c).
Proof. induction a as [|x a IH]; cbn; [reflexivity | f_equal; exact IH]. Qed.

Lemma string_app_empty_r (a : string) : a ++ "" = a.
Proof. induction a as [|x a IH]; cbn; [reflexivity | f_equal; exact IH]. Qed.

Lemma split_on_nonempty sep s : split_on sep s <> [].
Proof.
  destruct s as [|c s]; simpl; [discriminate|].
  destruct (Ascii.eqb c sep); [discriminate|].
  destruct (split_on sep s); discriminate.
Qed.

Lemma split_on_app sep (a b : string) :
  split_on sep (a ++ String sep b) = (split_on sep a ++ split_on sep b)%list.
Proof.
  induction a as [|c a IH]; simpl.
  - rewrite Ascii.eqb_refl. reflexivity.
  - destruct (Ascii.eqb c sep).
    + rewrite IH. reflexivity.
    + rewrite IH. pose proof (split_on_nonempty sep a) as Hne.
      destruct (split_on sep a) as [|p ps]; [congruence|]. reflexivity.
Qed.

Lemma split_on_absent sep s : has_char sep s = false -> split_on sep s = [s].
Proof.
  induction s as [|c s IH]; simpl; [reflexivity|].
  intros Hc. apply orb_false_elim in Hc as [Hc Hs].
  rewrite Hc, (IH Hs). reflexivity.
Qed.

Lemma has_char_app c (a b : string) :
  has_char c (a ++ b) = has_char c a || has_char c b.
Proof.
  induction a as [|x a IH]; simpl; [reflexivity|].
  rewrite IH. apply orb_assoc.
Qed.

(** The pieces of a string without [c] are without [c]. *)
Lemma split_on_pieces_absent sep c s :
  has_char c s = false -> Forall (fun p => has_char c p = false) (split_on sep s).
Proof.
  induction s as [|x s IH]; simpl.
  - intros _. repeat constructor.
  - intros Hc. apply orb_false_elim in Hc as [Hx Hs]. specialize (IH Hs).
    destruct (Ascii.eqb x sep).
    + constructor; [reflexivity | assumption].
    + destruct (split_on sep s) as [|p ps]; [repeat constructor; simpl; now rewrite Hx|].
      inversion IH as [|? ? Hp Hps]; subst.
      constructor; [simpl; now rewrite Hx, Hp | assumption].
Qed.

Lemma plain_inv s :
  plain s = true -> s <> "" /\ has_char "," s = false /\ has_char "=" s = false.
Proof.
  unfold plain. intros Hp.
  apply andb_prop in Hp as [Hp He]. apply andb_prop in Hp as [Hn Hc].
  apply negb_true_iff in He, Hc, Hn. repeat split; try assumption.
  intros ->. discriminate.
Qed.

(** A piece without [=] leaves the result as it is. *)
Lemma parse_part_skip result part :
  has_char "=" part = false -> Utils.parse_part result part = result.
Proof.
  intros Hc. unfold Utils.parse_part. rewrite (split_on_absent _ _ Hc). reflexivity.
Qed.

Lemma fold_parse_part_skip result parts :
  Forall (fun p => has_char "=" p = false) parts ->
  fold_left Utils.parse_part parts result = result.
Proof.
  induction 1 as [|p ps Hp _ IH]; simpl; [reflexivity|].
  rewrite (parse_part_skip _ _ Hp). exact IH.
Qed.

Lemma split_key_value key value :
  has_char "=" key = false -> has_char "=" value = false ->
  split_on "=" (key ++ "=" ++ value) = [key; value].
Proof.
  intros Hk Hv. change (key ++ "=" ++ value) with (key ++ String "=" value).
  rewrite split_on_app, (split_on_absent _ _ Hk), (split_on_absent _ _ Hv).
  reflexivity.
Qed.

Lemma parse_part_nonce result nonce :
  plain nonce = true ->
  Utils.parse_part result ("nonce=" ++ nonce) =
    {| Memo.resource := Memo.resource result; Memo.nonce := Some nonce;
       Memo.custom := Memo.custom result |}.
Proof.
  intros Hp. apply plain_inv in Hp as (Hne & _ & Heq).
  unfold Utils.parse_part.
  change ("nonce=" ++ nonce) with ("nonce" ++ "=" ++ nonce).
  rewrite split_key_value by (reflexivity || assumption). simpl.
  destruct (String.eqb_spec nonce ""); [contradiction|]. reflexivity.
Qed.

Lemma parse_part_custom result key value :
  custom_key key = true -> plain value = true ->
  Utils.parse_part result (key ++ "=" ++ value) =
    {| Memo.resource := Memo.resource result; Memo.nonce := Memo.nonce result;
       Memo.custom := Some (<[key := value]> (default ∅ (Memo.custom result))) |}.
Proof.
  unfold custom_key. intros Hk Hv.
  apply andb_prop in Hk as [Hk Hproto]. apply andb_prop in Hk as [Hk Hnonce].
  apply andb_prop in Hk as [Hk Hres].
  apply plain_inv in Hk as (Hkne & _ & Hkeq). apply plain_inv in Hv as (Hvne & _ & Hveq).
  apply negb_true_iff in Hproto, Hnonce, Hres.
  unfold Utils.parse_part. rewrite split_key_value by assumption. simpl.
  destruct (String.eqb_spec key ""); [contradiction|].
  destruct (String.eqb_spec value ""); [contradiction|]. simpl.
  rewrite Hres, Hnonce. unfold obj_set. rewrite Hproto. reflexivity.
Qed.

Ltac normalize_append :=
  repeat first [rewrite string_app_assoc | progress cbn [String.append]].

Lemma fold_append_entries entries memo :
  fold_left (fun memo '(key, value) => memo ++ "," ++ key ++ "=" ++ value) entries memo
  = memo ++ custom_suffix entries.
Proof.
  revert memo. induction entries as [|[key value] rest IH]; intros memo; simpl.
  - symmetry. apply string_app_empty_r.
  - rewrite IH. normalize_append. reflexivity.
Qed.

Lemma createPaymentMemo_text resource nonce custom :
  Utils.createPaymentMemo resource nonce custom =
  "x402:" ++ resource ++ ",nonce=" ++ nonce ++ custom_suffix (default [] custom).
Proof.
  unfold Utils.createPaymentMemo.
  destruct custom as [entries|]; simpl default.
  - rewrite fold_append_entries. normalize_append. reflexivity.
  - simpl custom_suffix. rewrite string_app_empty_r. reflexivity.
Qed.

Lemma custom_entry_inv key value :
  custom_entry (key, value) = true -> custom_key key = true /\ plain value = true.
Proof. unfold custom_entry. simpl. apply andb_prop. Qed.

Lemma custom_key_plain key : custom_key key = true -> plain key = true.
Proof.
  unfold custom_key. intros Hk.
  apply andb_prop in Hk as [Hk _]. apply andb_prop in Hk as [Hk _].
  apply andb_prop in Hk as [Hk _]. exact Hk.
Qed.

(** The comma-separated pieces of a piece followed by the custom text. *)
Lemma split_custom_suffix first entries :
  has_char "," first = false ->
  forallb custom_entry entries = true ->
  split_on "," (first ++ custom_suffix entries) = first :: map entry_text entries.
Proof.
  revert first. induction entries as [|[key value] rest IH]; intros first Hfirst Hall.
  - simpl. rewrite string_app_empty_r. apply split_on_absent, Hfirst.
  - simpl in Hall. apply andb_prop in Hall as [He Hrest].
    apply custom_entry_inv in He as [Hk Hv].
    apply custom_key_plain, plain_inv in Hk as (_ & Hkc & _).
    apply plain_inv in Hv as (_ & Hvc & _).
    cbn [custom_suffix map].
    change ("," ++ key ++ "=" ++ value ++ custom_suffix rest)
      with (String "," (key ++ "=" ++ value ++ custom_suffix rest)).
    rewrite split_on_app, (split_on_absent _ _ Hfirst).
    replace (key ++ "=" ++ value ++ custom_suffix rest)
      with ((key ++ "=" ++ value) ++ custom_suffix rest)
      by (normalize_append; reflexivity).
    rewrite IH; [reflexivity | | assumption].
    rewrite !has_char_app, Hkc, Hvc. reflexivity.
Qed.

(** The decoder files the custom pieces one after the other. *)
Lemma fold_parse_custom entries result :
  forallb custom_entry entries = true ->
  fold_left Utils.parse_part (map entry_text entries) result =
    {| Memo.resource := Memo.resource result;
       Memo.nonce := Memo.nonce result;
       Memo.custom :=
         match entries with
         | [] => Memo.custom result
         | _ :: _ =>
             Some (fold_left (fun m e => <[fst e := snd e]> m) entries
                     (default ∅ (Memo.custom result)))
         end |}.
Proof.
  revert result. induction entries as [|[key value] rest IH]; intros result Hall.
  - destruct result; reflexivity.
  - simpl in Hall. apply andb_prop in Hall as [He Hrest].
    apply custom_entry_inv in He as [Hk Hv].
    cbn [map fold_left]. unfold entry_text at 1. cbn [fst snd].
    rewrite (parse_part_custom _ _ _ Hk Hv), (IH _ Hrest).
    cbn [Memo.resource Memo.nonce Memo.custom].
    destruct rest; reflexivity.
Qed.

Lemma fold_insert_list_to_map (entries : list (string * string))
    (m : gmap string string) :
  NoDup (map fst entries) ->
  fold_left (fun m e => <[fst e := snd e]> m) entries m = list_to_map entries ∪ m.
Proof.
  revert m. induction entries as [|[key value] rest IH]; intros m Hnd.
  - simpl. symmetry. apply (left_id ∅ (∪)).
  - simpl in Hnd. apply NoDup_cons in Hnd as [Hnotin Hnd].
    cbn [fold_left fst snd]. rewrite (IH _ Hnd), list_to_map_cons.
    rewrite <- insert_union_l. symmetry. apply insert_union_r.
    apply not_elem_of_list_to_map_1. exact Hnotin.
Qed.

Lemma prefix_x402 (rest : string) : String.prefix "x402:" ("x402:" ++ rest) = true.
Proof. destruct rest; reflexivity. Qed.

Lemma drop_x402 (rest : string) : drop_chars 5 ("x402:" ++ rest) = rest.
Proof. reflexivity. Qed.

(** The resource is written without a key, and so never read back: with
    no [=] in it, each of its pieces is skipped. *)
Lemma parse_create_memo_fields (resource nonce : string)
    (custom : option (list (string * string))) :
  has_char "=" resource = false ->
  plain nonce = true ->
  forallb custom_entry (default [] custom) = true ->
  NoDup (map fst (default [] custom)) ->
  Utils.parsePaymentMemo (Utils.createPaymentMemo resource nonce custom) =
    {| Memo.resource := None; Memo.nonce := Some nonce;
       Memo.custom :=
         match default [] custom with
         | [] => None
         | _ :: _ => Some (list_to_map (default [] custom))
         end |}.
Proof.
  intros Hres Hnonce Hall Hnd.
  rewrite createPaymentMemo_text. unfold Utils.parsePaymentMemo.
  rewrite prefix_x402, drop_x402. cbn [negb].
  replace (resource ++ ",nonce=" ++ nonce ++ custom_suffix (default [] custom))
    with (resource ++ String "," (("nonce=" ++ nonce) ++ custom_suffix (default [] custom)))
    by (normalize_append; reflexivity).
  rewrite split_on_app, fold_left_app.
  rewrite (fold_parse_part_skip _ _ (split_on_pieces_absent "," "=" _ Hres)).
  pose proof (plain_inv _ Hnonce) as (_ & Hnc & _).
  rewrite split_custom_suffix; [| simpl; exact Hnc | exact Hall].
  cbn [fold_left]. rewrite (parse_part_nonce _ _ Hnonce).
  rewrite (fold_parse_custom _ _ Hall).
  cbn [Memo.resource Memo.nonce Memo.custom Memo.empty].
  destruct (default [] custom) as [|e rest] eqn:E; [reflexivity|].
  rewrite (fold_insert_list_to_map _ _ Hnd).
  simpl default. rewrite (right_id ∅ (∪)). reflexivity.
Qed.


(** C7, as the code has it. When the resource has no [=], the nonce is not
    empty and has neither [,] nor [=], and the custom keys and values are
    such strings too, the keys distinct and none of [resource], [nonce] and
    [__proto__], decoding an encoded memo gives back the nonce and, as a
    map, the custom entries. A string that does not start with [x402:]
    decodes to the empty result. *)
Theorem parse_create_memo (resource nonce : string)
    (custom : option (list (string * string))) :
  has_char "=" resource = false ->
  plain nonce = true ->
  forallb custom_entry (default [] custom) = true ->
  NoDup (map fst (default [] custom)) ->
  let parsed := Utils.parsePaymentMemo (Utils.createPaymentMemo resource nonce custom) in
  Memo.nonce parsed = Some nonce /\
  default ∅ (Memo.custom parsed) = list_to_map (default [] custom) /\
  (forall memo, String.prefix "x402:" memo = false ->
                Utils.parsePaymentMemo memo = Memo.empty).
Proof.
  intros Hres Hnonce Hall Hnd parsed. subst parsed.
  rewrite (parse_create_memo_fields _ _ _ Hres Hnonce Hall Hnd).
  cbn [Memo.nonce Memo.custom]. split; [reflexivity|]. split.
  - destruct (default [] custom); reflexivity.
  - intros memo Hp. unfold Utils.parsePaymentMemo. rewrite Hp. reflexivity.
Qed.

Lemma parse_create_memo_witness :
  let parsed :=
    Utils.parsePaymentMemo
      (Utils.createPaymentMemo "/api/data" "abc123"
         (Some [("user", "42"); ("plan", "pro")])) in
  Memo.nonce parsed = Some "abc123" /\
  default ∅ (Memo.custom parsed) = list_to_map [("user", "42"); ("plan", "pro")].
Proof.
  assert (Hnd : NoDup (map fst [("user", "42"); ("plan", "pro")]))
    by (refine (@bool_decide_unpack _ _ _); vm_compute; exact I).
  destruct (parse_create_memo "/api/data" "abc123"
              (Some [("user", "42"); ("plan", "pro")])
              eq_refl eq_refl eq_refl Hnd) as (Hn & Hc & _).
  split; assumption.
Defined.

(** C7, as stated, fails: a nonce with a comma comes back cut at the comma,
    and the resource, written without a key, does not come back. *)
Lemma parse_create_memo_loses_fields :
  Memo.nonce (Utils.parsePaymentMemo (Utils.createPaymentMemo "/api/data" "abc,123" None))
    = Some "abc" /\
  Some "abc" <> Some "abc,123" /\
  Memo.resource (Utils.parsePaymentMemo (Utils.createPaymentMemo "/api/data" "abc123" None))
    = None.
Proof.
  split; [vm_compute; reflexivity|]. split; [discriminate|]. vm_compute; reflexivity.
Qed.

(** ** What the code adds to the trace *)

Section TraceLemmas.
Context `{Platform}.

Lemma extends_refl s : extends s s [].
Proof. unfold extends. rewrite app_nil_r. auto. Qed.

Lemma extends_trans s1 s2 s3 d1 d2 :
  extends s1 s2 d1 -> extends s2 s3 d2 -> extends s1 s3 (d1 ++ d2).
Proof.
  unfold extends. intros (Ht1 & Hp1 & Hr1) (Ht2 & Hp2 & Hr2).
  rewrite Ht2, Ht1, Hp2, Hp1, Hr2, Hr1, app_assoc. auto.
Qed.

Lemma extends_emit e s : extends s (snd (emit e s)) [e].
Proof. unfold extends. simpl. auto. Qed.

Lemma extends_call {A} (f : World -> A * World) s : extends s (snd (call f s)) [].
Proof.
  unfold extends, call. destruct (f (world s)) as [a w]. simpl.
  rewrite app_nil_r. auto.
Qed.

Lemma new_Date_extends s :
  exists t, fst (new_Date s) = Returned t /\ extends s (snd (new_Date s)) [EvNow t].
Proof.
  unfold new_Date, bind, call, emit, ret, extends.
  destruct (Date_now (world s)) as [t w]. simpl. eauto.
Qed.

Lemma client_signSTXTransfer_extends this details s :
  exists sdk, extends s (snd (Client.signSTXTransfer this details s)) sdk /\
              Forall is_sdk_call sdk.
Proof.
  unfold Client.signSTXTransfer, Client.failure, try_catch, bind, lift, emit, call, ret.
  destruct (getAddressFromPrivateKey _ _) as [a|e]; cbn [fst snd].
  - cbn [world trace].
    destruct (makeSTXTokenTransfer _ _) as [[tx|e] w]; cbn [fst snd];
      eexists [_]; (split; [unfold extends; simpl; auto | repeat constructor]).
  - exists []. split; [apply extends_refl | constructor].
Qed.

Lemma client_signContractTransfer_extends this label fallback details s :
  exists sdk,
    extends s (snd (Client.signContractTransfer this label fallback details s)) sdk /\
    Forall is_sdk_call sdk.
Proof.
  unfold Client.signContractTransfer, Client.failure, try_catch, bind, lift, emit,
    call, ret, throw.
  destruct (getAddressFromPrivateKey _ _) as [a|e]; cbn [fst snd].
  - destruct (Details.tokenContract details) as [c|]; cbn [fst snd world trace].
    + destruct (makeContractCall _ _) as [[tx|e] w]; cbn [fst snd];
        eexists [_]; (split; [unfold extends; simpl; auto | repeat constructor]).
    + exists []. split; [apply extends_refl | constructor].
  - exists []. split; [apply extends_refl | constructor].
Qed.

Lemma client_signPayment_extends this paymentRequest s :
  exists sdk,
    extends s (snd (Client.signPayment this paymentRequest s))
      (EvSignPayment paymentRequest :: sdk) /\
    Forall is_sdk_call sdk.
Proof.
  unfold Client.signPayment, bind at 1. cbn [emit].
  set (s0 := {| world := world s |}).
  assert (H0 : extends s s0 [EvSignPayment paymentRequest])
    by (unfold extends; simpl; auto).
  unfold try_catch at 1, bind at 1, lift at 1.
  destruct (BigInt (maxAmountRequired paymentRequest)) as [amount|e].
  - set (details := {| Details.recipient := _ |}).
    destruct (default STX (tokenType paymentRequest));
      [ destruct (client_signSTXTransfer_extends this details s0) as (sdk & Hext & Hsdk)
      | destruct (client_signContractTransfer_extends this "sBTC" "sBTC signing failed"
                    details s0) as (sdk & Hext & Hsdk)
      | destruct (client_signContractTransfer_extends this "USDCx" "USDCx signing failed"
                    details s0) as (sdk & Hext & Hsdk) ];
      exists sdk; (split; [|exact Hsdk]);
      unfold Client.signSBTCTransfer, Client.signUSDCxTransfer;
      match goal with
      | Hx : extends _ (snd ?run) _ |- _ => destruct run as [[r|e] s1]
      end; cbn [snd] in *; apply (extends_trans _ _ _ _ _ H0 Hext).
  - exists []. split; [|constructor]. cbn [snd Client.failure ret]. exact H0.
Qed.

Lemma client_on402_handled this body s :
  exists c s' delta,
    Client.on402 this body s = (c, s') /\
    extends s s' delta /\ handled delta /\
    (forall d, c <> Returned (Client.Done d)).
Proof.
  unfold Client.on402, bind, lift.
  destruct (Client.isValidPaymentRequest body) as [[|]|e]; cbn [negb].
  - destruct (new_Date_extends s) as (t & Ht & Hext).
    destruct (new_Date s) as [c s1]. cbn [fst snd] in Ht, Hext. subst c.
    destruct (date_lt (expiresAt (as_payment_request body)) t) eqn:Hlt.
    + eexists _, _, [EvNow t]. split; [reflexivity|].
      split; [exact Hext|]. split; [eapply handled_expired; exact Hlt|].
      intros d Hd; discriminate Hd.
    + destruct (client_signPayment_extends this (as_payment_request body) s1)
        as (sdk & Hsign & Hsdk).
      destruct (Client.signPayment this (as_payment_request body) s1) as [[r|e] s2];
        cbn [snd] in Hsign;
        [destruct (negb (success r))|];
        (eexists _, _, ([EvNow t] ++ EvSignPayment (as_payment_request body) :: sdk)%list;
         split; [reflexivity|];
         split; [apply (extends_trans _ _ _ _ _ Hext Hsign)|];
         split; [apply handled_signed; assumption|];
         intros d Hd; discriminate Hd).
  - eexists _, _, []. split; [reflexivity|].
    split; [apply extends_refl|]. split; [constructor|]. intros d Hd; discriminate Hd.
  - eexists _, _, []. split; [reflexivity|].
    split; [apply extends_refl|]. split; [constructor|]. intros d Hd; discriminate Hd.
Qed.

Lemma client_turn_handled this url method data headers lastSigned lastRequest s :
  exists c s' delta,
    Client.turn this url method data headers lastSigned lastRequest s = (c, s') /\
    extends s s'
      (EvRequest {| url := url; method := method; body := data;
                    headers := Client.requestHeaders headers lastSigned lastRequest |}
         :: delta) /\
    handled delta.
Proof.
  unfold Client.turn, bind. cbn [emit].
  set (req := {| url := url |}).
  set (s0 := {| world := world s |}).
  assert (H0 : extends s s0 [EvRequest req]) by (unfold extends; simpl; auto).
  pose proof (extends_call (httpClient_request req) s0) as Hcall.
  unfold call in *.
  destruct (httpClient_request req (world s0)) as [[error|received] w].
  - cbn [snd] in Hcall.
    set (s1 := {| world := w |}) in *.
    destruct (is_402 error).
    + destruct (client_on402_handled this (response_data error) s1)
        as (c & s' & delta & Hrun & Hext & Hh & _).
      rewrite Hrun. exists c, s', delta. split; [reflexivity|]. split; [|exact Hh].
      change (EvRequest req :: delta) with (([EvRequest req] ++ []) ++ delta)%list.
      eapply extends_trans; [eapply extends_trans; eassumption | exact Hext].
    + eexists _, _, []. split; [reflexivity|]. split; [|constructor].
      change [EvRequest req] with ([EvRequest req] ++ [])%list.
      eapply extends_trans; eassumption.
  - cbn [snd ret] in *. eexists _, _, []. split; [reflexivity|]. split; [|constructor].
    change [EvRequest req] with ([EvRequest req] ++ [])%list.
    eapply extends_trans; eassumption.
Qed.

Lemma client_signPayment_returns this paymentRequest s :
  exists r s', Client.signPayment this paymentRequest s = (Returned r, s').
Proof.
  unfold Client.signPayment, bind at 1, emit. cbv beta iota.
  unfold try_catch at 1.
  match goal with |- context [match ?m with _ => _ end] => destruct m as [[r|e] s'] end.
  - eauto.
  - unfold Client.failure, ret. eauto.
Qed.

Lemma new_Date_reading s :
  new_Date s =
  (Returned (fst (Date_now (world s))),
   {| world := snd (Date_now (world s)); trace := trace s ++ [EvNow (fst (Date_now (world s)))];
      paymentAttempted := paymentAttempted s; requests := requests s |}).
Proof.
  unfold new_Date, bind, call, emit, ret.
  destruct (Date_now (world s)) as [t w]. reflexivity.
Qed.

Lemma date_lt_earlier expires e t :
  Date_parse expires = Some e -> e < t -> date_lt expires t = true.
Proof. intros Hp Hlt. unfold date_lt. rewrite Hp. apply Z.ltb_lt, Hlt. Qed.

Lemma date_lt_not_past expires t : date_lt expires t = false <-> not_past expires t.
Proof.
  unfold date_lt, not_past. destruct (Date_parse expires) as [e|].
  - rewrite Z.ltb_ge. split.
    + intros Hle e' [= <-]. exact Hle.
    + intros Hnp. apply Hnp. reflexivity.
  - split; [intros _ e' He'; discriminate He' | reflexivity].
Qed.

(** For a body whose [tokenType || 'STX'] is one of the three names, that
    name is the one the request read at its declared type carries. *)
Lemma token_type_or_STX_name body name :
  token_type_or_STX body = Returned (JString name) -> token_name name ->
  TokenType_to_string (default STX (tokenType (as_payment_request body))) = name.
Proof.
  unfold token_type_or_STX, as_payment_request. cbn [tokenType].
  destruct (get_prop body "tokenType") as [v|e].
  - destruct v as [| |b|n|str|items|fields]; cbn [truthy];
      try (intros [= <-]; reflexivity);
      try (destruct b; [discriminate | intros [= <-]; reflexivity]);
      try (destruct (n =? 0); cbn [negb];
           [intros [= <-]; reflexivity | discriminate]);
      try discriminate.
    destruct (String.eqb_spec str "") as [->|Hne]; cbn [negb].
    + intros [= <-] _. reflexivity.
    + intros [= <-] [->|[->| ->]]; reflexivity.
  - discriminate.
Qed.

End TraceLemmas.

(** ** The loop of [requestWithPayment] *)

Section ClientLoop.
Context `{Platform}.
Variable this : X402PaymentClient.t.

Lemma handled_no_request delta : handled delta -> requests_issued delta = O.
Proof.
  unfold requests_issued.
  destruct 1 as [|t p Hlt|t p sdk Hlt Hsdk]; simpl; try reflexivity.
  induction Hsdk as [|e sdk He _ IH]; simpl; [reflexivity|].
  destruct e; simpl in He; try contradiction; exact IH.
Qed.

Lemma requests_issued_app a b :
  requests_issued (a ++ b) = (requests_issued a + requests_issued b)%nat.
Proof. unfold requests_issued. rewrite List.filter_app, length_app. reflexivity. Qed.

Lemma turns_requests n tr : turns n tr -> requests_issued tr = n.
Proof.
  induction 1 as [|r delta n rest Hh _ IH]; [reflexivity|].
  change (EvRequest r :: delta ++ rest) with ([EvRequest r] ++ delta ++ rest)%list.
  rewrite !requests_issued_app, (handled_no_request _ Hh), IH. reflexivity.
Qed.

Lemma turns_app n m a b : turns n a -> turns m b -> turns (n + m) (a ++ b).
Proof.
  induction 1 as [|r delta n rest Hh _ IH]; intros Hb; [exact Hb|].
  simpl. rewrite <- app_assoc. constructor; auto.
Qed.

Lemma turns_one r delta : handled delta -> turns 1 (EvRequest r :: delta).
Proof.
  intros Hh. rewrite <- (app_nil_r delta). constructor; [exact Hh | constructor].
Qed.

Lemma guarded_sdk prev sdk rest :
  Forall is_sdk_call sdk -> (forall prev', guarded_from prev' rest) ->
  guarded_from prev (sdk ++ rest).
Proof.
  intros Hsdk Hrest. revert prev.
  induction Hsdk as [|e sdk He _ IH]; intros prev; simpl; [apply Hrest|].
  destruct e; simpl in He; try contradiction; apply IH.
Qed.

(** Every signer entry of the loop is guarded by the clock. *)
Lemma turns_guarded n tr : turns n tr -> forall prev, guarded_from prev tr.
Proof.
  induction 1 as [|r delta n rest Hh _ IH]; intros prev; simpl; [exact I|].
  destruct Hh as [|t p Hlt|t p sdk Hlt Hsdk]; simpl.
  - apply IH.
  - apply IH.
  - split; [exact Hlt|]. apply guarded_sdk; assumption.
Qed.

Lemma requestLoop_runs url method data headers maxRetries :
  forall fuel attempt lastSigned lastRequest s,
    (Z.to_nat (maxRetries + 1 - attempt) < fuel)%nat ->
    exists c s' n tr,
      Client.requestLoop this fuel url method data headers maxRetries attempt
        lastSigned lastRequest s = Some (c, s') /\
      extends s s' tr /\ turns n tr /\
      (n <= Z.to_nat (maxRetries + 1 - attempt))%nat.
Proof.
  induction fuel as [|fuel IH]; intros attempt lastSigned lastRequest s Hfuel; [lia|].
  cbn [Client.requestLoop].
  destruct (attempt <=? maxRetries) eqn:Hle.
  - apply Z.leb_le in Hle.
    destruct (client_turn_handled this url method data headers lastSigned lastRequest s)
      as (c & s1 & delta & Hrun & Hext & Hh).
    rewrite Hrun.
    destruct c as [[received|signed request]|e].
    + eexists _, _, 1%nat, _. split; [reflexivity|]. split; [exact Hext|].
      split; [apply turns_one; exact Hh | lia].
    + destruct (IH (attempt + 1) (Some signed) (Some request) s1)
        as (c & s' & n & tr & Hloop & Hext' & Hturns & Hn); [lia|].
      rewrite Hloop. eexists _, _, (1 + n)%nat, _. split; [reflexivity|].
      split; [eapply extends_trans; eassumption|].
      split; [apply turns_app; [apply turns_one; exact Hh | exact Hturns] | lia].
    + eexists _, _, 1%nat, _. split; [reflexivity|]. split; [exact Hext|].
      split; [apply turns_one; exact Hh | lia].
  - eexists _, _, O, []. split; [reflexivity|].
    split; [apply extends_refl|]. split; [constructor | lia].
Qed.

(** The call returns or throws, after at most [maxRetries + 1] requests
    (none when [maxRetries] is negative), each signer entry guarded. *)
Lemma requestWithPayment_runs url options s :
  exists c s' tr,
    Client.requestWithPayment this url options s = Some (c, s') /\
    trace s' = (trace s ++ tr)%list /\
    Z.of_nat (requests_issued tr) <= Z.max 0 (default 1 (Client.opt_maxRetries options) + 1) /\
    (forall prev, guarded_from prev tr).
Proof.
  unfold Client.requestWithPayment, Client.requestWithPayment_fuel.
  set (maxRetries := default 1 (Client.opt_maxRetries options)).
  destruct (requestLoop_runs url (default "GET" (Client.opt_method options))
              (Client.opt_data options)
              (default ∅ (Client.opt_headers options)) maxRetries
              (S (Z.to_nat (maxRetries + 1))) 0 None None s)
    as (c & s' & n & tr & Hloop & (Htrace & _) & Hturns & Hn).
  { replace (maxRetries + 1 - 0) with (maxRetries + 1) by lia. lia. }
  exists c, s', tr. split; [exact Hloop|]. split; [exact Htrace|].
  rewrite (turns_requests _ _ Hturns). split; [lia|].
  eapply turns_guarded; eassumption.
Qed.

End ClientLoop.

Section ClientRetries.
Context `{Platform}.
Variable this : X402PaymentClient.t.

(** What it takes for a turn to end with [continue]: the request was
    answered by a 402 whose body the validator accepts, the clock does not
    put the offer in the past, and the signer succeeded. *)
Lemma turn_continue_inv url method data headers lastSigned lastRequest s signed request s1 :
  Client.turn this url method data headers lastSigned lastRequest s
    = (Returned (Client.Continue signed request), s1) ->
  exists error w t r,
    httpClient_request
      {| url := url; method := method; body := data;
         headers := Client.requestHeaders headers lastSigned lastRequest |} (world s)
      = (inl error, w) /\
    is_402 error = true /\
    Client.isValidPaymentRequest (response_data error) = Returned true /\
    request = as_payment_request (response_data error) /\
    fst (Date_now w) = t /\ date_lt (expiresAt request) t = false /\
    success r = true /\ signed = signedTransaction r.
Proof.
  unfold Client.turn, bind, emit, call. cbn [world].
  destruct (httpClient_request _ (world s)) as [[error|received] w] eqn:Hhttp;
    [|discriminate].
  destruct (is_402 error) eqn:H402; [|discriminate].
  unfold Client.on402, bind, lift.
  destruct (Client.isValidPaymentRequest (response_data error)) as [[|]|e] eqn:Hvalid;
    cbn [negb]; try discriminate.
  unfold new_Date, bind, call, emit, ret. cbn [world].
  destruct (Date_now w) as [t w'] eqn:Hnow. cbn [fst snd].
  destruct (date_lt _ t) eqn:Hlt; [discriminate|].
  destruct (Client.signPayment this _ _) as [[r|e] s2]; [|discriminate].
  destruct (success r) eqn:Hs; cbn [negb]; [|discriminate].
  intros [= <- <- <-].
  exists error, w, t, r. rewrite Hnow. repeat split; auto.
Qed.

(** A turn whose request is answered by a 402 does not return the
    response. *)
Lemma turn_402_not_done url method data headers lastSigned lastRequest s error w :
  httpClient_request
    {| url := url; method := method; body := data;
       headers := Client.requestHeaders headers lastSigned lastRequest |} (world s)
    = (inl error, w) ->
  is_402 error = true ->
  forall d,
    fst (Client.turn this url method data headers lastSigned lastRequest s)
      <> Returned (Client.Done d).
Proof.
  intros Hhttp H402 d.
  unfold Client.turn, bind, emit, call. cbn [world].
  rewrite Hhttp, H402.
  match goal with
  | |- context [Client.on402 ?t ?b ?st] =>
      destruct (client_on402_handled t b st) as (c & s' & delta & Hrun & _ & _ & Hnd)
  end.
  rewrite Hrun. cbn [fst]. apply Hnd.
Qed.

(** C1, as the code has it. [requestWithPayment] returns or throws after at
    most [maxRetries + 1] requests (none when [maxRetries] is negative).
    With [maxRetries = 1], when the first request is answered by a 402 that
    ends in a signed payment and the second request is answered by a 402
    again, the call throws after exactly two requests; it throws the
    max-retries error when the handling of the second 402 ends in a signed
    payment too, and the error of that handling otherwise. *)
Theorem requestWithPayment_request_bound (url : string)
    (options : Client.RequestOptions) (s : State) :
  let method := default "GET" (Client.opt_method options) in
  let data := Client.opt_data options in
  let headers := default ∅ (Client.opt_headers options) in
  let maxRetries := default 1 (Client.opt_maxRetries options) in
  (exists c s' tr,
      Client.requestWithPayment this url options s = Some (c, s') /\
      trace s' = (trace s ++ tr)%list /\
      Z.of_nat (requests_issued tr) <= Z.max 0 (maxRetries + 1)) /\
  (maxRetries = 1 ->
   forall signed request s1 error2 w2,
     Client.turn this url method data headers None None s
       = (Returned (Client.Continue signed request), s1) ->
     httpClient_request
       {| url := url; method := method; body := data;
          headers := Client.requestHeaders headers (Some signed) (Some request) |}
       (world s1) = (inl error2, w2) ->
     is_402 error2 = true ->
     exists e s' tr,
       Client.requestWithPayment this url options s = Some (Thrown e, s') /\
       trace s' = (trace s ++ tr)%list /\
       requests_issued tr = 2%nat /\
       ((exists signed2 request2,
            fst (Client.turn this url method data headers (Some signed) (Some request) s1)
              = Returned (Client.Continue signed2 request2)) ->
        e = max_retries_error) /\
       (forall e',
           fst (Client.turn this url method data headers (Some signed) (Some request) s1)
             = Thrown e' ->
           e = e')).
Proof.
  intros method data headers maxRetries. split.
  - destruct (requestWithPayment_runs this url options s)
      as (c & s' & tr & Hrun & Htrace & Hbound & _).
    exists c, s', tr. auto.
  - intros Hmax signed request s1 error2 w2 Hfirst Hhttp H402.
    unfold Client.requestWithPayment, Client.requestWithPayment_fuel.
    fold method data headers maxRetries. rewrite Hmax.
    change (S (Z.to_nat (1 + 1))) with 3%nat.
    cbn [Client.requestLoop]. change (0 <=? 1) with true. cbv iota.
    rewrite Hfirst. change (0 + 1 <=? 1) with true. cbv iota.
    destruct (client_turn_handled this url method data headers None None s)
      as (c1 & s1' & delta1 & Hrun1 & (Htr1 & _) & Hh1).
    rewrite Hfirst in Hrun1. injection Hrun1 as <- <-.
    destruct (client_turn_handled this url method data headers
                (Some signed) (Some request) s1)
      as (c2 & s2 & delta2 & Hrun2 & (Htr2 & _) & Hh2).
    rewrite Hrun2.
    assert (Hnot_done : forall d, c2 <> Returned (Client.Done d)).
    { intros d ->.
      apply (turn_402_not_done url method data headers (Some signed) (Some request)
               s1 error2 w2 Hhttp H402 d).
      rewrite Hrun2. reflexivity. }
    assert (Htrace : trace s2 =
                     (trace s ++ (EvRequest
                                    {| url := url; method := method; body := data;
                                       headers := Client.requestHeaders headers None None |}
                                    :: delta1) ++
                                 (EvRequest
                                    {| url := url; method := method; body := data;
                                       headers := Client.requestHeaders headers
                                                    (Some signed) (Some request) |}
                                    :: delta2))%list).
    { rewrite Htr2, Htr1, <- app_assoc. reflexivity. }
    assert (Hcount : requests_issued
                       ((EvRequest
                           {| url := url; method := method; body := data;
                              headers := Client.requestHeaders headers None None |}
                           :: delta1) ++
                        (EvRequest
                           {| url := url; method := method; body := data;
                              headers := Client.requestHeaders headers
                                           (Some signed) (Some request) |}
                           :: delta2))%list = 2%nat).
    { apply (turns_requests 2).
      apply (turns_app 1 1); apply turns_one; assumption. }
    destruct c2 as [[received|signed2 request2]|e].
    + exfalso. eapply Hnot_done; reflexivity.
    + cbn [Client.requestLoop]. change (0 + 1 + 1 <=? 1) with false. cbv iota.
      eexists _, _, _. split; [reflexivity|]. split; [exact Htrace|].
      split; [exact Hcount|]. split; [intros _; reflexivity|].
      intros e' He'. discriminate He'.
    + eexists _, _, _. split; [reflexivity|]. split; [exact Htrace|].
      split; [exact Hcount|]. split.
      * intros (signed2 & request2 & Hc). discriminate Hc.
      * intros e' [= <-]. reflexivity.
Qed.

End ClientRetries.

(** C1, as stated, fails. The first 402 carries a valid, unexpired offer and
    is signed, and the second response is a 402 again: with the same offer,
    read after it has expired, the call ends with the expiration error; with
    an empty object as body, it ends with the invalid-request error. In
    both cases two requests are issued. *)
Lemma requestWithPayment_second_402_other_error :
  let first_turn w :=
    fst (@Client.turn Scripted.platform Sample.client "/resource" "GET" JUndefined ∅
           None None (Scripted.start w)) in
  let run w :=
    @Client.requestWithPayment Scripted.platform Sample.client "/resource"
      Sample.options (Scripted.start w) in
  let signed :=
    Returned (Client.Continue ("0x00" ++ Sample.merchant)
                (as_payment_request Sample.offer)) in
  (first_turn Sample.two_offers_late = signed /\
   option_map fst (run Sample.two_offers_late) = Some (Thrown expired_error) /\
   option_map (fun r => requests_issued (trace (snd r))) (run Sample.two_offers_late)
     = Some 2%nat /\
   expired_error <> max_retries_error) /\
  (first_turn Sample.offer_then_empty = signed /\
   option_map fst (run Sample.offer_then_empty) = Some (Thrown invalid_request_error) /\
   option_map (fun r => requests_issued (trace (snd r))) (run Sample.offer_then_empty)
     = Some 2%nat /\
   invalid_request_error <> max_retries_error).
Proof.
  repeat split; try discriminate; vm_compute; reflexivity.
Qed.

Lemma requestWithPayment_request_bound_witness :
  exists s' tr,
    @Client.requestWithPayment Scripted.platform Sample.client "/resource"
      Sample.options (Scripted.start Sample.two_offers)
      = Some (Thrown max_retries_error, s') /\
    trace s' = tr /\ requests_issued tr = 2%nat.
Proof.
  pose (s := Scripted.start Sample.two_offers).
  pose (first_turn :=
          @Client.turn Scripted.platform Sample.client "/resource" "GET" JUndefined ∅
            None None s).
  pose (signed := "0x00" ++ Sample.merchant).
  pose (request := as_payment_request Sample.offer).
  destruct (@requestWithPayment_request_bound Scripted.platform Sample.client
              "/resource" Sample.options s) as [_ Hscenario].
  destruct (Hscenario eq_refl signed request (snd first_turn)
              (Sample.payment_required 1%positive Sample.offer)
              {| Scripted.http_outcomes := [];
                 Scripted.clock_readings := [Sample.in_2023] |})
    as (e & s' & tr & Hrun & Htrace & Hcount & Hmax & _).
  - change (first_turn = (Returned (Client.Continue signed request), snd first_turn)).
    apply injective_projections; [vm_compute; reflexivity | reflexivity].
  - vm_compute. reflexivity.
  - reflexivity.
  - assert (He : e = max_retries_error).
    { apply Hmax. exists signed, request. vm_compute. reflexivity. }
    subst e. exists s', tr.
    split; [exact Hrun|]. split; [exact Htrace | exact Hcount].
Defined.

(** ** The rejection handler of the interceptor *)

Section InterceptorHandler.
Context `{Platform}.

Lemma interceptor_signPayment_extends paymentRequest account s :
  exists sdk,
    extends s (snd (Interceptor.signPayment paymentRequest account s))
      (EvSignPayment paymentRequest :: sdk) /\
    Forall is_sdk_call sdk.
Proof.
  unfold Interceptor.signPayment, bind, lift, emit, call, throw, extends. cbn [world trace].
  destruct (BigInt (maxAmountRequired paymentRequest)) as [amount|e]; cbn [snd].
  - destruct (default STX (tokenType paymentRequest)).
    + destruct (makeSTXTokenTransfer _ _) as [[tx|e] w]; cbn;
        eexists [_]; rewrite <- app_assoc; (split; [auto | repeat constructor]).
    + destruct (tokenContract paymentRequest) as [c|]; cbn.
      * destruct (makeContractCall _ _) as [[tx|e] w]; cbn;
          eexists [_]; rewrite <- app_assoc; (split; [auto | repeat constructor]).
      * exists []. split; [auto | constructor].
    + destruct (tokenContract paymentRequest) as [c|]; cbn.
      * destruct (makeContractCall _ _) as [[tx|e] w]; cbn;
          eexists [_]; rewrite <- app_assoc; (split; [auto | repeat constructor]).
      * exists []. split; [auto | constructor].
  - exists []. split; [auto | constructor].
Qed.

(** A rejection that is not a 402 passes through. *)
Lemma onRejected_not_402 account error s :
  is_402 error = false ->
  Interceptor.onRejected account error s = (Thrown (AxiosErr error), s).
Proof. intros H402. unfold Interceptor.onRejected. rewrite H402. reflexivity. Qed.

(** A 402 for a marked object is rejected at once: nothing is read,
    signed, sent or changed. *)
Lemma onRejected_marked account error s :
  is_402 error = true -> config error ∈ paymentAttempted s ->
  Interceptor.onRejected account error s = (Thrown already_attempted_error, s).
Proof.
  intros H402 Hin. unfold Interceptor.onRejected. rewrite H402. cbn [negb].
  unfold bind, Interceptor.paymentAttempted_has.
  rewrite (bool_decide_eq_true_2 _ Hin). reflexivity.
Qed.

(** A 402 for an unmarked object starts the one cycle of that object. *)
Lemma onRejected_unmarked account error s :
  is_402 error = true -> config error ∉ paymentAttempted s ->
  exists c s' delta,
    Interceptor.onRejected account error s = (c, s') /\
    trace s' = (trace s ++ delta)%list /\
    cycle (config error) delta /\
    paymentAttempted s' = {[config error]} ∪ paymentAttempted s /\
    (forall o, c = Returned o ->
               o = config error /\ reissues_of (config error) delta = 1%nat) /\
    (forall e, c = Thrown e -> reissues_of (config error) delta = O).
Proof.
  intros H402 Hnotin. unfold Interceptor.onRejected. rewrite H402. cbn [negb].
  unfold bind at 1, Interceptor.paymentAttempted_has.
  rewrite (bool_decide_eq_false_2 _ Hnotin).
  unfold bind at 1, Interceptor.paymentAttempted_add.
  set (o := config error).
  set (s0 := {| world := world s |}).
  unfold bind at 1, lift at 1.
  destruct (Interceptor.isValidPaymentRequest (response_data error)) as [[|]|e];
    cbn [negb].
  - unfold bind at 1.
    destruct (new_Date_extends s0) as (t & Ht & (Htr1 & Hpa1 & Hrq1)).
    destruct (new_Date s0) as [c s1]. cbn [fst snd] in Ht, Htr1, Hpa1, Hrq1. subst c.
    set (request := as_payment_request (response_data error)).
    destruct (date_lt (expiresAt request) t) eqn:Hlt.
    + eexists _, _, [EvMark o; EvNow t]. split; [reflexivity|].
      split; [rewrite Htr1; subst s0; cbn [trace]; rewrite <- app_assoc; reflexivity|].
      split; [apply cycle_rejected; eapply handled_expired; exact Hlt|].
      split; [rewrite Hpa1; reflexivity|].
      split; [intros o' Ho'; discriminate Ho' | intros e _].
      unfold reissues_of. simpl. reflexivity.
    + unfold try_catch, bind at 1.
      destruct (interceptor_signPayment_extends request account s1)
        as (sdk & (Htr2 & Hpa2 & Hrq2) & Hsdk).
      destruct (Interceptor.signPayment request account s1) as [[signed|e] s2];
        cbn [snd] in Htr2, Hpa2, Hrq2.
      * unfold bind, Interceptor.set_payment_headers, Interceptor.reissue, bind, emit, ret.
        cbn [world trace paymentAttempted requests].
        eexists _, _, (EvMark o :: EvNow t :: EvSignPayment request :: sdk ++ [_])%list.
        split; [reflexivity|]. cbn [trace paymentAttempted].
        split.
        { rewrite Htr2, Htr1. subst s0. cbn [trace].
          rewrite <- !app_assoc. reflexivity. }
        split.
        { eapply cycle_reissued; [exact Hlt | exact Hsdk |].
          unfold Interceptor.read_config at 1. cbn [requests].
          rewrite lookup_insert_eq. cbn [default from_option id].
          eexists. split; [reflexivity|]. split.
          - rewrite lookup_insert_ne by discriminate. apply lookup_insert_eq.
          - apply lookup_insert_eq. }
        split; [rewrite Hpa2, Hpa1; reflexivity|].
        split; [intros o' [= <-]; split; [reflexivity|] | intros e He; discriminate He].
        unfold reissues_of. cbn [List.filter is_reissue_of].
        rewrite List.filter_app. cbn [List.filter is_reissue_of].
        rewrite Pos.eqb_refl, length_app. cbn [length].
        replace (List.filter (is_reissue_of o) sdk) with (@nil Event); [reflexivity|].
        clear -Hsdk. induction Hsdk as [|x l Hx _ IH]; [reflexivity|].
        destruct x; simpl in Hx; try contradiction; exact IH.
      * cbn [throw].
        eexists _, _, (EvMark o :: EvNow t :: EvSignPayment request :: sdk)%list.
        split; [reflexivity|].
        split.
        { rewrite Htr2, Htr1. subst s0. cbn [trace].
          rewrite <- !app_assoc. reflexivity. }
        split; [apply cycle_rejected, handled_signed; assumption|].
        split; [rewrite Hpa2, Hpa1; reflexivity|].
        split; [intros o' Ho'; discriminate Ho' | intros e' _].
        unfold reissues_of. cbn [List.filter is_reissue_of].
        clear -Hsdk. induction Hsdk as [|x l Hx _ IH]; [reflexivity|].
        destruct x; simpl in Hx; try contradiction; exact IH.
  - eexists _, _, [EvMark o]. split; [reflexivity|]. cbn [throw].
    split; [reflexivity|]. split; [apply cycle_rejected; constructor|].
    split; [reflexivity|].
    split; [intros o' Ho'; discriminate Ho' | intros e _; reflexivity].
  - eexists _, _, [EvMark o]. split; [reflexivity|].
    split; [reflexivity|]. split; [apply cycle_rejected; constructor|].
    split; [reflexivity|].
    split; [intros o' Ho'; discriminate Ho' | intros e' _; reflexivity].
Qed.

Lemma interceptor_signPayment_keeps paymentRequest account s :
  paymentAttempted (snd (Interceptor.signPayment paymentRequest account s))
    = paymentAttempted s /\
  requests (snd (Interceptor.signPayment paymentRequest account s)) = requests s.
Proof.
  destruct (interceptor_signPayment_extends paymentRequest account s)
    as (sdk & (_ & Hpa & Hrq) & _).
  split; assumption.
Qed.

(** The one cycle of an unmarked request object, step by step. The
    object is marked, and the state so marked is where a body that the
    validator refuses leaves the handler. The clock is read, and the state
    then reached is where an expired offer leaves it. The signer runs: when
    it throws, the handler rejects with the signing failure; when it returns
    a transaction, the handler sets the two payment headers of the object
    and re-issues it. *)
Lemma onRejected_cycle account error s :
  is_402 error = true -> config error ∉ paymentAttempted s ->
  let o := config error in
  let body := response_data error in
  let offer := as_payment_request body in
  let before := Interceptor.read_config o s in
  let marked := snd (Interceptor.paymentAttempted_add o s) in
  let t := fst (Date_now (world s)) in
  let read := snd (new_Date marked) in
  paymentAttempted read = {[o]} ∪ paymentAttempted s /\
  requests read = requests s /\
  trace marked = (trace s ++ [EvMark o])%list /\
  trace read = (trace s ++ [EvMark o; EvNow t])%list /\
  (Interceptor.isValidPaymentRequest body = Returned false ->
   Interceptor.onRejected account error s = (Thrown invalid_request_error, marked)) /\
  (Interceptor.isValidPaymentRequest body = Returned true ->
   (exists e, Date_parse (expiresAt offer) = Some e /\ e < t) ->
   Interceptor.onRejected account error s = (Thrown expired_error, read)) /\
  (Interceptor.isValidPaymentRequest body = Returned true ->
   not_past (expiresAt offer) t ->
   forall e s2,
     Interceptor.signPayment offer account read = (Thrown e, s2) ->
     Interceptor.onRejected account error s =
       (Thrown (ErrorObj EError
                  ("Payment signing failed: " ++ message_or e "Unknown error")), s2) /\
     paymentAttempted s2 = {[o]} ∪ paymentAttempted s /\
     requests s2 = requests s) /\
  (Interceptor.isValidPaymentRequest body = Returned true ->
   not_past (expiresAt offer) t ->
   forall signed s2,
     Interceptor.signPayment offer account read = (Returned signed, s2) ->
     exists after,
       Interceptor.onRejected account error s =
         (Returned o,
          {| world := world s2; trace := trace s2 ++ [EvReissue o after];
             paymentAttempted := paymentAttempted s2;
             requests := <[o := after]> (requests s) |}) /\
       paymentAttempted s2 = {[o]} ∪ paymentAttempted s /\
       cfg_url after = cfg_url before /\
       cfg_method after = cfg_method before /\
       config_headers after !! "X-PAYMENT" = Some signed /\
       (forall k, other_header k ->
                  config_headers after !! k = config_headers before !! k) /\
       (forall name,
           token_type_or_STX body = Returned (JString name) -> token_name name ->
           config_headers after !! "X-PAYMENT-TOKEN-TYPE" = Some name)).
Proof.
  intros H402 Hnotin o body offer before marked t read.
  assert (Hnow : new_Date marked = (Returned t, read)).
  { subst read. rewrite new_Date_reading. reflexivity. }
  assert (Hread : read =
                  {| world := snd (Date_now (world s));
                     trace := (trace s ++ [EvMark o]) ++ [EvNow t];
                     paymentAttempted := {[o]} ∪ paymentAttempted s;
                     requests := requests s |}).
  { subst read. rewrite new_Date_reading. reflexivity. }
  assert (Hstart :
             Interceptor.onRejected account error s =
             (let* valid := lift (Interceptor.isValidPaymentRequest body) in
              if negb valid then
                throw (ErrorObj EError "Invalid x402 payment request from server")
              else
                let* now := new_Date in
                if date_lt (expiresAt offer) now then
                  throw (ErrorObj EError "Payment request has expired")
                else
                  try_catch
                    (let* signedTransaction := Interceptor.signPayment offer account in
                     do Interceptor.set_payment_headers o signedTransaction offer then
                     Interceptor.reissue o)
                    (fun paymentError =>
                       throw (ErrorObj EError
                                ("Payment signing failed: "
                                   ++ message_or paymentError "Unknown error")))) marked).
  { unfold Interceptor.onRejected. rewrite H402. cbn [negb].
    unfold bind at 1, Interceptor.paymentAttempted_has.
    rewrite (bool_decide_eq_false_2 _ Hnotin).
    unfold bind at 1. reflexivity. }
  split; [rewrite Hread; reflexivity|].
  split; [rewrite Hread; reflexivity|].
  split; [reflexivity|].
  split; [rewrite Hread; cbn [trace]; rewrite <- app_assoc; reflexivity|].
  split; [|split; [|split]].
  - intros Hvalid. rewrite Hstart. unfold bind, lift. rewrite Hvalid. reflexivity.
  - intros Hvalid (e & Hparse & Hlt). rewrite Hstart. unfold bind at 1, lift at 1.
    rewrite Hvalid. cbn [negb]. unfold bind at 1. rewrite Hnow.
    rewrite (date_lt_earlier _ _ _ Hparse Hlt). reflexivity.
  - intros Hvalid Hnot_past e s2 Hsign. apply date_lt_not_past in Hnot_past.
    destruct (interceptor_signPayment_keeps offer account read) as [Hpa Hrq].
    rewrite Hsign in Hpa, Hrq. cbn [snd] in Hpa, Hrq.
    split; [|split; [rewrite Hpa, Hread; reflexivity | rewrite Hrq, Hread; reflexivity]].
    rewrite Hstart. unfold bind at 1, lift at 1.
    rewrite Hvalid. cbn [negb]. unfold bind at 1. rewrite Hnow, Hnot_past.
    unfold try_catch, bind at 1. rewrite Hsign. reflexivity.
  - intros Hvalid Hnot_past signed s2 Hsign. apply date_lt_not_past in Hnot_past.
    destruct (interceptor_signPayment_keeps offer account read) as [Hpa Hrq].
    rewrite Hsign in Hpa, Hrq. cbn [snd] in Hpa, Hrq.
    assert (Hrq' : requests s2 = requests s) by (rewrite Hrq, Hread; reflexivity).
    assert (Hbefore : Interceptor.read_config o s2 = before).
    { unfold before, Interceptor.read_config. rewrite Hrq'. reflexivity. }
    eexists. split; [|split; [rewrite Hpa, Hread; reflexivity|]].
    + rewrite Hstart. unfold bind at 1, lift at 1.
      rewrite Hvalid. cbn [negb]. unfold bind at 1. rewrite Hnow, Hnot_past.
      unfold try_catch, bind at 1. rewrite Hsign.
      unfold bind, Interceptor.set_payment_headers, Interceptor.reissue, bind, emit, ret.
      cbn [world trace paymentAttempted requests].
      unfold Interceptor.read_config at 1. cbn [requests].
      rewrite lookup_insert_eq. cbn [default from_option id].
      rewrite Hbefore, Hrq'. reflexivity.
    + cbn [cfg_url cfg_method cfg_headers config_headers default from_option id].
      split; [reflexivity|]. split; [reflexivity|].
      split; [rewrite lookup_insert_ne by discriminate; apply lookup_insert_eq|].
      split.
      * intros k [Hp Ht]. rewrite !lookup_insert_ne by congruence. reflexivity.
      * intros name Hname Hdeclared.
        rewrite lookup_insert_eq. f_equal.
        apply token_type_or_STX_name; assumption.
Qed.

End InterceptorHandler.

Section InterceptorRuns.
Context `{Platform}.








Lemma cycles_guarded os tr : cycles os tr -> forall prev, guarded_from prev tr.
Proof.
  induction 1 as [|o os delta rest Hc _ IH]; intros prev; [exact I|].
  destruct Hc as [delta Hh|t p sdk cfg signed Hlt Hsdk Hcfg]; cbn [app guarded_from].
  - destruct Hh as [|t p Hlt|t p sdk Hlt Hsdk]; cbn [app guarded_from].
    + apply IH.
    + apply IH.
    + split; [exact Hlt|]. apply guarded_sdk; assumption.
  - split; [exact Hlt|]. rewrite <- app_assoc.
    apply guarded_sdk; [exact Hsdk|]. intros prev'. cbn [app guarded_from]. apply IH.
Qed.

(** The trace of a run of the handler is a sequence of cycles, of
    pairwise distinct request objects that were not marked at the start;
    the objects marked at the end are those and the ones marked before. *)
Lemma deliver_cycles arrivals :
  forall s, exists os tr,
    trace (Interceptor.deliver arrivals s) = (trace s ++ tr)%list /\
    cycles os tr /\ NoDup os /\
    (forall o, o ∈ os -> o ∉ paymentAttempted s) /\
    paymentAttempted (Interceptor.deliver arrivals s) = list_to_set os ∪ paymentAttempted s.
Proof.
  induction arrivals as [|[account error] rest IH]; intros s.
  - exists [], []. cbn [Interceptor.deliver]. rewrite app_nil_r.
    repeat split; [constructor | constructor | set_solver | set_solver].
  - cbn [Interceptor.deliver].
    destruct (is_402 error) eqn:H402.
    + destruct (decide (config error ∈ paymentAttempted s)) as [Hin|Hnotin].
      * rewrite (onRejected_marked account error s H402 Hin). apply IH.
      * destruct (onRejected_unmarked account error s H402 Hnotin)
          as (c & s' & delta & Hrun & Htr & Hcycle & Hpa & _).
        rewrite Hrun. cbn [snd].
        destruct (IH s') as (os & tr & Htr' & Hcycles & Hnd & Hfresh & Hpa').
        exists (config error :: os), (delta ++ tr)%list.
        split; [rewrite Htr', Htr, app_assoc; reflexivity|].
        split; [constructor; assumption|].
        split.
        { apply NoDup_cons. split; [|exact Hnd].
          intros Hin. apply (Hfresh _ Hin). rewrite Hpa. set_solver. }
        split.
        { intros o Ho. apply elem_of_cons in Ho as [->|Ho]; [exact Hnotin|].
          intros Hin. apply (Hfresh _ Ho). rewrite Hpa. set_solver. }
        rewrite Hpa', Hpa. set_solver.
    + rewrite (onRejected_not_402 account error s H402). apply IH.
Qed.

End InterceptorRuns.

Section InterceptorClaims.
Context `{Platform}.


(** C10. The marker set only grows. Once the handler has run on a 402
    for a request object, the object is marked; it stays marked through
    whatever the handler is given afterwards; and every later 402 for that
    object, for whichever wrapper's account and in whichever call it
    arises, is rejected with the already-attempted error. *)
Theorem paymentAttempted_is_permanent
    (account : StacksAccount) (error : AxiosError) (s : State)
    (arrivals : list (StacksAccount * AxiosError))
    (account' : StacksAccount) (error' : AxiosError) :
  is_402 error = true ->
  is_402 error' = true -> config error' = config error ->
  let s1 := snd (Interceptor.onRejected account error s) in
  paymentAttempted s ⊆ paymentAttempted s1 /\
  config error ∈ paymentAttempted s1 /\
  paymentAttempted s1 ⊆ paymentAttempted (Interceptor.deliver arrivals s1) /\
  Interceptor.onRejected account' error' (Interceptor.deliver arrivals s1)
    = (Thrown already_attempted_error, Interceptor.deliver arrivals s1).
Proof.
  intros H402 H402' Hsame s1.
  assert (Hs1 : paymentAttempted s ⊆ paymentAttempted s1 /\
                config error ∈ paymentAttempted s1).
  { subst s1. destruct (decide (config error ∈ paymentAttempted s)) as [Hin|Hnotin].
    - rewrite (onRejected_marked account error s H402 Hin). cbn [snd]. set_solver.
    - destruct (onRejected_unmarked account error s H402 Hnotin)
        as (c & s' & delta & Hrun & _ & _ & Hpa & _).
      rewrite Hrun. cbn [snd]. rewrite Hpa. set_solver. }
  destruct Hs1 as [Hsub Hin].
  destruct (deliver_cycles arrivals s1) as (os & tr & _ & _ & _ & _ & Hpa).
  assert (Hgrow : paymentAttempted s1 ⊆ paymentAttempted (Interceptor.deliver arrivals s1))
    by (rewrite Hpa; set_solver).
  repeat split; try assumption.
  apply onRejected_marked; [exact H402'|]. rewrite Hsame. set_solver.
Qed.

End InterceptorClaims.


Lemma paymentAttempted_is_permanent_witness :
  let first := Sample.payment_required 1%positive Sample.offer in
  let other := Sample.payment_required 2%positive Sample.expired_offer in
  let s1 :=
    snd (@Interceptor.onRejected Scripted.platform Sample.account first
           (Scripted.start (Sample.clock [Sample.in_2023; Sample.in_2023]))) in
  let s2 := @Interceptor.deliver Scripted.platform [(Sample.account, other)] s1 in
  1%positive ∈ paymentAttempted s1 /\
  paymentAttempted s1 ⊆ paymentAttempted s2 /\
  @Interceptor.onRejected Scripted.platform Sample.other_account first s2
    = (Thrown already_attempted_error, s2).
Proof.
  intros first other s1 s2.
  destruct (@paymentAttempted_is_permanent Scripted.platform Sample.account first
              (Scripted.start (Sample.clock [Sample.in_2023; Sample.in_2023]))
              [(Sample.account, other)] Sample.other_account first
              eq_refl eq_refl eq_refl)
    as (_ & Hin & Hsub & Hrej).
  repeat split; assumption.
Defined.

(** ** Expiration *)

Section Expiration.
Context `{Platform}.

Lemma guarded_signed_in_time tr :
  forall prev, guarded_from prev tr -> signed_in_time_from prev tr.
Proof.
  induction tr as [|x tr IH]; intros prev; [exact (fun H => H)|].
  destruct x; cbn [guarded_from signed_in_time_from]; try apply IH.
  intros [Hprev Hrest]. split; [|apply IH, Hrest].
  destruct prev as [t|]; [apply date_lt_not_past, Hprev | exact Hprev].
Qed.

(** C5, as the code has it. On both paths a 402 whose body is accepted
    (on the interceptor path: for a request object that is not marked) is
    rejected with the expiration error exactly when its [expiresAt] is a
    time strictly earlier than the reading of the clock, and then the
    signer is not entered: the explicit path adds only its request and the
    reading to the trace, the interceptor path only the mark and the
    reading. When [expiresAt] is equal to the reading or later, or is not
    a date, the offer is not rejected as expired: the signer is entered
    right after the reading. Hence, on both paths, every entry into the
    signer comes right after a reading of the clock that is not later than
    [expiresAt], or has an [expiresAt] that is not a date. *)
Theorem expired_offer_is_not_signed :
  (forall this url method data headers lastSigned lastRequest s error w t w' e,
      let request :=
        {| url := url; method := method; body := data;
           headers := Client.requestHeaders headers lastSigned lastRequest |} in
      httpClient_request request (world s) = (inl error, w) ->
      is_402 error = true ->
      Client.isValidPaymentRequest (response_data error) = Returned true ->
      Date_now w = (t, w') ->
      Date_parse (expiresAt (as_payment_request (response_data error))) = Some e ->
      e < t ->
      exists s',
        Client.turn this url method data headers lastSigned lastRequest s
          = (Thrown expired_error, s') /\
        trace s' = (trace s ++ [EvRequest request; EvNow t])%list) /\
  (forall account error s t w e,
      is_402 error = true -> config error ∉ paymentAttempted s ->
      Interceptor.isValidPaymentRequest (response_data error) = Returned true ->
      Date_now (world s) = (t, w) ->
      Date_parse (expiresAt (as_payment_request (response_data error))) = Some e ->
      e < t ->
      exists s',
        Interceptor.onRejected account error s = (Thrown expired_error, s') /\
        trace s' = (trace s ++ [EvMark (config error); EvNow t])%list) /\
  (forall this url method data headers lastSigned lastRequest s error w t w',
      let request :=
        {| url := url; method := method; body := data;
           headers := Client.requestHeaders headers lastSigned lastRequest |} in
      let offer := as_payment_request (response_data error) in
      httpClient_request request (world s) = (inl error, w) ->
      is_402 error = true ->
      Client.isValidPaymentRequest (response_data error) = Returned true ->
      Date_now w = (t, w') ->
      (forall e, Date_parse (expiresAt offer) = Some e -> t <= e) ->
      exists c s' sdk,
        Client.turn this url method data headers lastSigned lastRequest s = (c, s') /\
        c <> Thrown expired_error /\
        trace s' =
          (trace s ++ EvRequest request :: EvNow t :: EvSignPayment offer :: sdk)%list /\
        Forall is_sdk_call sdk) /\
  (forall account error s t w,
      let offer := as_payment_request (response_data error) in
      is_402 error = true -> config error ∉ paymentAttempted s ->
      Interceptor.isValidPaymentRequest (response_data error) = Returned true ->
      Date_now (world s) = (t, w) ->
      (forall e, Date_parse (expiresAt offer) = Some e -> t <= e) ->
      exists c s' after,
        Interceptor.onRejected account error s = (c, s') /\
        c <> Thrown expired_error /\
        trace s' =
          (trace s ++ EvMark (config error) :: EvNow t :: EvSignPayment offer :: after)%list) /\
  (forall this url options s,
      exists c s' tr,
        Client.requestWithPayment this url options s = Some (c, s') /\
        trace s' = (trace s ++ tr)%list /\ signed_in_time tr) /\
  (forall arrivals s,
      exists tr,
        trace (Interceptor.deliver arrivals s) = (trace s ++ tr)%list /\
        signed_in_time tr).
Proof.
  split; [|split; [|split; [|split; [|split]]]].
  - intros this url method data headers lastSigned lastRequest s error w t w' e request
      Hhttp H402 Hvalid Hnow Hparse Hlt.
    unfold Client.turn, bind at 1, emit. cbv beta iota.
    unfold bind at 1, call. cbn [world]. fold request. rewrite Hhttp, H402.
    unfold Client.on402, bind at 1, lift at 1. rewrite Hvalid. cbn [negb].
    unfold bind at 1, new_Date, bind, call, emit, ret. cbn [world].
    rewrite Hnow. cbn [trace].
    rewrite (date_lt_earlier _ _ _ Hparse Hlt).
    eexists. split; [reflexivity|]. cbn [trace]. rewrite <- app_assoc. reflexivity.
  - intros account error s t w e H402 Hnotin Hvalid Hnow Hparse Hlt.
    unfold Interceptor.onRejected. rewrite H402. cbn [negb].
    unfold bind at 1, Interceptor.paymentAttempted_has.
    rewrite (bool_decide_eq_false_2 _ Hnotin).
    unfold bind at 1, Interceptor.paymentAttempted_add.
    unfold bind at 1, lift at 1. rewrite Hvalid. cbn [negb].
    unfold bind at 1, new_Date, bind, call, emit, ret. cbn [world].
    rewrite Hnow. cbn [trace].
    rewrite (date_lt_earlier _ _ _ Hparse Hlt).
    eexists. split; [reflexivity|]. cbn [trace]. rewrite <- app_assoc. reflexivity.
  - intros this url method data headers lastSigned lastRequest s error w t w' request offer
      Hhttp H402 Hvalid Hnow Hnot_past.
    apply date_lt_not_past in Hnot_past.
    unfold Client.turn, bind at 1, emit. cbv beta iota.
    unfold bind at 1, call. cbn [world]. fold request. rewrite Hhttp, H402.
    unfold Client.on402, bind at 1, lift at 1. rewrite Hvalid. cbn [negb].
    unfold bind at 1. rewrite new_Date_reading. cbn [world trace]. rewrite Hnow.
    cbn [fst snd]. fold offer. rewrite Hnot_past.
    unfold bind at 1.
    match goal with
    | |- context [Client.signPayment this offer ?st] =>
        destruct (client_signPayment_extends this offer st) as (sdk & (Htr & _) & Hsdk);
        destruct (client_signPayment_returns this offer st) as (r & s2 & Hsign)
    end.
    rewrite Hsign in Htr |- *. cbn [snd trace] in Htr.
    destruct (negb (success r)); eexists _, s2, sdk;
      (split; [reflexivity|]);
      (split; [cbn; intros Hc; discriminate Hc|]);
      (split; [|exact Hsdk]); rewrite Htr, <- !app_assoc; reflexivity.
  - intros account error s t w offer H402 Hnotin Hvalid Hnow Hnot_past.
    apply date_lt_not_past in Hnot_past.
    unfold Interceptor.onRejected. rewrite H402. cbn [negb].
    unfold bind at 1, Interceptor.paymentAttempted_has.
    rewrite (bool_decide_eq_false_2 _ Hnotin).
    unfold bind at 1, Interceptor.paymentAttempted_add.
    unfold bind at 1, lift at 1. rewrite Hvalid. cbn [negb].
    unfold bind at 1. rewrite new_Date_reading. cbn [world trace]. rewrite Hnow.
    cbn [fst snd]. fold offer. rewrite Hnot_past.
    unfold try_catch, bind at 1.
    match goal with
    | |- context [Interceptor.signPayment offer account ?st] =>
        destruct (interceptor_signPayment_extends offer account st)
          as (sdk & (Htr & _) & Hsdk);
        destruct (Interceptor.signPayment offer account st) as [[signed|e] s2]
    end; cbn [snd trace] in Htr.
    + unfold bind, Interceptor.set_payment_headers, Interceptor.reissue, bind, emit, ret.
      cbn [world trace paymentAttempted requests].
      eexists _, _, (sdk ++ [_])%list. split; [reflexivity|].
      split; [intros Hc; discriminate Hc|].
      cbn [trace]. rewrite Htr, <- !app_assoc. reflexivity.
    + cbn [throw]. eexists _, _, sdk. split; [reflexivity|].
      split; [cbn; intros Hc; discriminate Hc|].
      rewrite Htr, <- !app_assoc. reflexivity.
  - intros this url options s.
    destruct (requestWithPayment_runs this url options s)
      as (c & s' & tr & Hrun & Htrace & _ & Hguard).
    exists c, s', tr. repeat split; try assumption.
    apply guarded_signed_in_time, Hguard.
  - intros arrivals s.
    destruct (deliver_cycles arrivals s) as (os & tr & Htr & Hcycles & _).
    exists tr. split; [exact Htr|].
    apply guarded_signed_in_time. eapply cycles_guarded; eassumption.
Qed.

End Expiration.

Lemma expired_offer_is_not_signed_witness :
  (exists s',
      @Client.turn Scripted.platform Sample.client "/resource" "GET" JUndefined ∅ None None
        (Scripted.start (Sample.one_offer Sample.expired_offer Sample.in_2023))
      = (Thrown expired_error, s') /\
      trace s' =
        [EvRequest {| url := "/resource"; method := "GET"; body := JUndefined;
                      headers := Client.requestHeaders ∅ None None |};
         EvNow Sample.in_2023]) /\
  (exists c s' sdk,
      @Client.turn Scripted.platform Sample.client "/resource" "GET" JUndefined ∅ None None
        (Scripted.start (Sample.one_offer Sample.offer Sample.start_of_2030))
      = (c, s') /\
      c <> Thrown expired_error /\
      trace s' =
        EvRequest {| url := "/resource"; method := "GET"; body := JUndefined;
                     headers := Client.requestHeaders ∅ None None |}
          :: EvNow Sample.start_of_2030
          :: EvSignPayment (as_payment_request Sample.offer) :: sdk).
Proof.
  destruct (@expired_offer_is_not_signed Scripted.platform)
    as (Hexpired & _ & Hsigned & _).
  split.
  - apply (Hexpired Sample.client "/resource" "GET" JUndefined ∅ None None
             (Scripted.start (Sample.one_offer Sample.expired_offer Sample.in_2023))
             (Sample.payment_required 1%positive Sample.expired_offer)
             (Sample.clock [Sample.in_2023]) Sample.in_2023 (Sample.clock [])
             1577836800000);
      reflexivity.
  - destruct (Hsigned Sample.client "/resource" "GET" JUndefined ∅ None None
                (Scripted.start (Sample.one_offer Sample.offer Sample.start_of_2030))
                (Sample.payment_required 1%positive Sample.offer)
                (Sample.clock [Sample.start_of_2030]) Sample.start_of_2030
                (Sample.clock []) eq_refl eq_refl eq_refl eq_refl)
      as (c & s' & sdk & Hrun & Hc & Htr & _).
    + intros e He. vm_compute in He. injection He as <-. vm_compute. discriminate.
    + exists c, s', sdk. split; [exact Hrun|]. split; [exact Hc | exact Htr].
Defined.

(** C5, as stated, fails: an offer that expires at the very instant the
    clock gives is not rejected; on both paths the signer is entered. *)
Lemma offer_expiring_now_is_signed :
  Scripted.Date_parse "2030-01-01T00:00:00.000Z" = Some Sample.start_of_2030 /\
  (let run :=
     @Client.turn Scripted.platform Sample.client "/resource" "GET" JUndefined ∅
       None None (Scripted.start (Sample.one_offer Sample.offer Sample.start_of_2030)) in
   fst run = Returned (Client.Continue ("0x00" ++ Sample.merchant)
                         (as_payment_request Sample.offer)) /\
   signs_made (trace (snd run)) = 1%nat) /\
  (let run :=
     @Interceptor.onRejected Scripted.platform Sample.account
       (Sample.payment_required 1%positive Sample.offer)
       (Scripted.start (Sample.clock [Sample.start_of_2030])) in
   fst run = Returned 1%positive /\
   signs_made (trace (snd run)) = 1%nat).
Proof.
  repeat split; vm_compute; reflexivity.
Qed.

(** ** The reference built-ins keep the laws *)

Section ReferenceBuiltins.
Import Reference.
























End ReferenceBuiltins.


(** ** The [X-PAYMENT-RESPONSE] header codec *)

Section HeaderCodec.
Context `{BuiltinsLaws}.



End HeaderCodec.



(** * Further properties of the code *)

(** ** Addresses *)

Lemma string_length_app (a b : string) :
  String.length (a ++ b) = (String.length a + String.length b)%nat.
Proof. induction a as [|c a IH]; cbn; [reflexivity | rewrite IH; reflexivity]. Qed.

Lemma prefix_empty (s : string) : String.prefix "" s = true.
Proof. destruct s; reflexivity. Qed.

Lemma regex_test_spec (p1 p2 : ascii) (address : string) :
  Helpers.regex_test (String p1 (String p2 "")) address = true <->
  exists body,
    address = String p1 (String p2 body) /\
    (38 <= String.length body <= 41)%nat /\
    Helpers.all_chars Helpers.upper_alnum body = true.
Proof.
  unfold Helpers.regex_test. split.
  - intros Ht. apply andb_prop in Ht as [Hp Hrest].
    destruct address as [|c1 [|c2 body]]; cbn in Hp; try discriminate.
    destruct (ascii_dec p1 c1) as [<-|]; [|discriminate].
    destruct (ascii_dec p2 c2) as [<-|]; [|discriminate].
    cbn [drop_chars] in Hrest.
    apply andb_prop in Hrest as [Hlen Hall]. apply andb_prop in Hlen as [Hlo Hhi].
    apply Nat.leb_le in Hlo, Hhi.
    exists body. split; [reflexivity|]. split; [lia | exact Hall].
  - intros (body & -> & [Hlo Hhi] & Hall). cbn [String.prefix drop_chars].
    destruct (ascii_dec p1 p1) as [_|Hne]; [|congruence].
    destruct (ascii_dec p2 p2) as [_|Hne]; [|congruence].
    apply Nat.leb_le in Hlo, Hhi. rewrite Hlo, Hhi, Hall.
    destruct body; reflexivity.
Qed.

(** X1. [getAddressNetwork] answers [mainnet] exactly for the strings made
    of [SP] and 38 to 41 characters among the digits and the capital
    letters, [testnet] exactly for those made of [ST] and 38 to 41 such
    characters, and [null] for every other string. *)
Theorem getAddressNetwork_spec (address : string) (n : NetworkType) :
  Helpers.getAddressNetwork address = Some n <->
  exists body,
    address = network_prefix n ++ body /\
    (38 <= String.length body <= 41)%nat /\
    Helpers.all_chars Helpers.upper_alnum body = true.
Proof.
  unfold Helpers.getAddressNetwork, Helpers.isValidStacksAddress. split.
  - destruct (Helpers.regex_test "SP" address) eqn:Hsp; cbn [orb negb].
    + apply regex_test_spec in Hsp as (body & -> & Hlen & Hall).
      cbn. rewrite ?prefix_empty. intros [= <-]. exists body.
      split; [reflexivity | split; assumption].
    + destruct (Helpers.regex_test "ST" address) eqn:Hst; cbn [negb]; [|discriminate].
      apply regex_test_spec in Hst as (body & -> & Hlen & Hall).
      cbn. rewrite ?prefix_empty. intros [= <-]. exists body.
      split; [reflexivity | split; assumption].
  - intros (body & -> & Hlen & Hall).
    assert (Ht : Helpers.regex_test (network_prefix n) (network_prefix n ++ body) = true).
    { destruct n; apply regex_test_spec; exists body; auto. }
    destruct n; cbn [network_prefix] in Ht.
    + cbn [network_prefix]. rewrite Ht. cbn. rewrite prefix_empty. reflexivity.
    + cbn [network_prefix]. rewrite Ht, orb_true_r. cbn. reflexivity.
Qed.

(** X2. The default USDCx contract of each network has an address of that
    network, and so has the default sBTC contract of the test network. The
    default sBTC contract of the main network, whose address starts with
    [SM], is not an address for [isValidStacksAddress], and
    [getAddressNetwork] answers [null] for it. *)
Theorem default_contract_addresses :
  (forall n,
      Helpers.getAddressNetwork (Contract.address (Helpers.getDefaultUSDCxContract n))
        = Some n) /\
  Helpers.getAddressNetwork (Contract.address (Helpers.getDefaultSBTCContract testnet))
    = Some testnet /\
  Helpers.isValidStacksAddress (Contract.address (Helpers.getDefaultSBTCContract mainnet))
    = false /\
  Helpers.getAddressNetwork (Contract.address (Helpers.getDefaultSBTCContract mainnet))
    = None.
Proof.
  split; [intros []; vm_compute; reflexivity|].
  repeat split; vm_compute; reflexivity.
Qed.

(** ** [truncateAddress] *)

Lemma substring_prefix_app (a b : string) :
  String.substring 0 (String.length a) (a ++ b) = a.
Proof.
  induction a as [|c a IH]; cbn.
  - destruct b; reflexivity.
  - rewrite IH. reflexivity.
Qed.

Lemma substring_skip_app (a b : string) (n m : nat) :
  String.substring (String.length a + n) m (a ++ b) = String.substring n m b.
Proof. induction a as [|c a IH]; cbn; [reflexivity | exact IH]. Qed.

Lemma substring_whole (s : string) : String.substring 0 (String.length s) s = s.
Proof. induction s as [|c s IH]; cbn; [reflexivity | rewrite IH; reflexivity]. Qed.

Lemma substring_length (s : string) (n m : nat) :
  (n + m <= String.length s)%nat -> String.length (String.substring n m s) = m.
Proof.
  revert n m. induction s as [|c s IH]; intros n m Hle; cbn in Hle.
  - assert (n = O) by lia. assert (m = O) by lia. subst. reflexivity.
  - destruct n as [|n].
    + destruct m as [|m]; [reflexivity|]. cbn. rewrite (IH O m) by lia. reflexivity.
    + cbn. apply IH. lia.
Qed.

(** X3. [truncateAddress] returns an address of at most [2 * chars]
    characters as it is. Of a longer one it keeps, for a positive [chars],
    the first [chars] and the last [chars] characters, with three dots
    between them in place of the rest. *)
Theorem truncateAddress_keeps_ends :
  (forall address chars,
      Z.of_nat (String.length address) <= 2 * chars ->
      Helpers.truncateAddress address (Some chars) = address) /\
  (forall first middle last chars,
      0 < chars ->
      Z.of_nat (String.length first) = chars ->
      Z.of_nat (String.length last) = chars ->
      middle <> "" ->
      Helpers.truncateAddress (first ++ middle ++ last) (Some chars)
        = first ++ "..." ++ last).
Proof.
  split.
  - intros address chars Hle. unfold Helpers.truncateAddress. cbn [default from_option id].
    destruct (Z.leb_spec (Z.of_nat (String.length address)) (chars * 2)); [reflexivity | lia].
  - intros first middle last chars Hpos Hfirst Hlast Hmiddle.
    assert (Hm : (0 < String.length middle)%nat).
    { destruct middle; [congruence | cbn; lia]. }
    unfold Helpers.truncateAddress. cbn [default from_option id].
    rewrite !string_length_app.
    destruct (Z.leb_spec (Z.of_nat (String.length first + (String.length middle
                                      + String.length last))) (chars * 2)); [lia|].
    unfold Helpers.slice, Helpers.slice_index. rewrite !string_length_app.
    destruct (Z.ltb_spec 0 0); [lia|]. destruct (Z.ltb_spec chars 0); [lia|].
    destruct (Z.ltb_spec (- chars) 0); [|lia].
    f_equal; [|f_equal].
    + replace (Z.to_nat (Z.min 0 _)) with O by lia.
      replace (Z.to_nat (Z.min chars _ - Z.min 0 _)) with (String.length first) by lia.
      apply substring_prefix_app.
    + replace (Z.to_nat (Z.max _ 0))
        with (String.length first + (String.length middle + 0))%nat by lia.
      replace (Z.to_nat (_ - Z.max _ 0)) with (String.length last) by lia.
      rewrite substring_skip_app, substring_skip_app. apply substring_whole.
Qed.

Lemma truncateAddress_keeps_ends_witness :
  Helpers.truncateAddress ("ST2J6Z" ++ "Y48GV1EZ5V2V5RB9MP66SW86PYKKN" ++ "RV9EJ7") (Some 6)
    = "ST2J6Z" ++ "..." ++ "RV9EJ7".
Proof.
  apply (proj2 truncateAddress_keeps_ends
           "ST2J6Z" "Y48GV1EZ5V2V5RB9MP66SW86PYKKN" "RV9EJ7" 6);
    [lia | reflexivity | reflexivity | discriminate].
Defined.

(** X4. The result for an address of more than [2 * chars] characters has
    [2 * chars + 3] characters when [chars] is positive, so that it is
    longer than an address of [2 * chars + 1] or [2 * chars + 2]
    characters; with [chars = 0] the last-characters slice is the whole
    address, and the result is the address after three dots. *)
Theorem truncateAddress_length (address : string) (chars : Z) :
  0 <= chars -> 2 * chars < Z.of_nat (String.length address) ->
  Z.of_nat (String.length (Helpers.truncateAddress address (Some chars)))
    = (if chars =? 0 then Z.of_nat (String.length address) + 3 else 2 * chars + 3) /\
  (chars = 0 -> Helpers.truncateAddress address (Some chars) = "..." ++ address).
Proof.
  intros Hnn Hlong. unfold Helpers.truncateAddress. cbn [default from_option id].
  destruct (Z.leb_spec (Z.of_nat (String.length address)) (chars * 2)); [lia|].
  unfold Helpers.slice, Helpers.slice_index.
  destruct (Z.ltb_spec 0 0); [lia|]. destruct (Z.ltb_spec chars 0); [lia|].
  destruct (Z.eqb_spec chars 0) as [->|Hne].
  - change (- 0) with 0. destruct (Z.ltb_spec 0 0); [lia|].
    replace (Z.to_nat (Z.of_nat (String.length address) - Z.min 0 _))
      with (String.length address) by lia.
    replace (Z.to_nat (Z.min 0 _)) with O by lia.
    replace (Z.to_nat (Z.min 0 _ - Z.min 0 _)) with O by lia.
    rewrite substring_whole.
    assert (Hempty : String.substring 0 0 address = "") by (destruct address; reflexivity).
    rewrite Hempty. cbn [String.append]. split; [|reflexivity].
    cbn [String.length]. lia.
  - destruct (Z.ltb_spec (- chars) 0); [|lia].
    split; [|lia].
    rewrite !string_length_app, !substring_length by lia.
    cbn [String.length]. lia.
Qed.

Lemma truncateAddress_length_witness :
  Z.of_nat (String.length (Helpers.truncateAddress "ST2J6ZY48GV1E" (Some 6))) = 15 /\
  Z.of_nat (String.length "ST2J6ZY48GV1E") = 13.
Proof.
  split; [|reflexivity].
  apply (truncateAddress_length "ST2J6ZY48GV1E" 6); [lia | reflexivity].
Defined.

(** ** [retryWithBackoff] *)

Section Retries.
Variables (W A : Type).
Variable setTimeout : Z -> W -> W.
Variable fn : W -> Completion A * W.

Lemma attempts_steps (maxAttempts baseDelayMs : Z) :
  forall remaining attempt lastError s,
    (0 < remaining)%nat ->
    Z.of_nat attempt + Z.of_nat remaining = maxAttempts ->
    exists delta,
      snd (snd (Backoff.attempts W A setTimeout fn maxAttempts baseDelayMs
                  remaining attempt lastError s)) = (snd s ++ delta)%list /\
      Backoff.retry_steps maxAttempts baseDelayMs attempt delta
        (Backoff.thrown_by
           (fst (Backoff.attempts W A setTimeout fn maxAttempts baseDelayMs
                   remaining attempt lastError s))).
Proof.
  induction remaining as [|remaining IH]; intros attempt lastError s Hpos Hsum; [lia|].
  cbn [Backoff.attempts].
  destruct (fn (fst s)) as [[a|error] w].
  - exists [Backoff.Called attempt None]. split; [reflexivity|].
    apply Backoff.retry_returned. lia.
  - destruct remaining as [|remaining].
    + destruct (Z.ltb_spec (Z.of_nat attempt) (maxAttempts - 1)); [lia|].
      exists [Backoff.Called attempt (Some error)]. split; [reflexivity|].
      apply Backoff.retry_exhausted. lia.
    + destruct (Z.ltb_spec (Z.of_nat attempt) (maxAttempts - 1)); [|lia].
      match goal with
      | |- context [Backoff.attempts _ _ _ _ _ _ _ ?a ?l ?st] =>
          destruct (IH a l st) as (delta & Hlog & Hsteps); [lia | lia |]
      end.
      eexists (_ :: _ :: delta). split.
      * rewrite Hlog. unfold Backoff.waitWithBackoff. cbn [fst snd default from_option id].
        rewrite <- !app_assoc. reflexivity.
      * apply Backoff.retry_again; [lia | exact Hsteps].
Qed.

Lemma retry_steps_counts (maxAttempts baseDelayMs : Z) attempt delta thrown :
  Backoff.retry_steps maxAttempts baseDelayMs attempt delta thrown ->
  Z.of_nat (Backoff.calls_made delta) + Z.of_nat attempt <= maxAttempts /\
  Backoff.calls_made delta = S (Backoff.timers_set delta) /\
  (forall e, thrown = Some e ->
             Z.of_nat (Backoff.calls_made delta) + Z.of_nat attempt = maxAttempts /\
             forall v, e <> Other v).
Proof.
  induction 1 as [attempt Hlt|attempt error Hlast|attempt error rest thrown Hlt _ IH].
  - cbn. split; [lia|]. split; [reflexivity|]. intros e He; discriminate He.
  - cbn. split; [lia|]. split; [reflexivity|]. intros e [= <-]. split; [lia|].
    intros v. destruct error; discriminate.
  - destruct IH as (Hle & Hcount & Hthrown).
    unfold Backoff.calls_made, Backoff.timers_set in *. cbn [List.filter Backoff.is_call negb length].
    split; [lia|]. split; [lia|].
    intros e He. destruct (Hthrown e He) as [Hall Herr]. split; [lia | exact Herr].
Qed.

Lemma attempts_returned (maxAttempts baseDelayMs : Z) :
  forall remaining attempt lastError s a,
    fst (Backoff.attempts W A setTimeout fn maxAttempts baseDelayMs
           remaining attempt lastError s) = Returned a ->
    exists w,
      fn w = (Returned a,
              fst (snd (Backoff.attempts W A setTimeout fn maxAttempts baseDelayMs
                          remaining attempt lastError s))).
Proof.
  induction remaining as [|remaining IH]; intros attempt lastError s a;
    cbn [Backoff.attempts]; [discriminate|].
  destruct (fn (fst s)) as [[a'|error] w] eqn:Hfn.
  - intros [= <-]. exists (fst s). exact Hfn.
  - apply IH.
Qed.

(** X5. A run of [retryWithBackoff] with a positive [maxAttempts] calls
    [fn] for the attempts 0, 1, ... in turn. When a call returns, the run
    returns what that call returned, in the world that call left, and
    makes no further call. After a call that throws it waits for
    [min(baseDelayMs * 2^attempt, 30000)] milliseconds and goes on, unless
    the call was the one numbered [maxAttempts - 1]: then it throws,
    without waiting, what that last call threw (an [Error] with the message
    [Unknown error] when the call threw a value that is not an [Error]). *)
Theorem retryWithBackoff_steps (maxAttempts baseDelayMs : option Z) (s : W * list Backoff.Step) :
  0 < default 3 maxAttempts ->
  let run := Backoff.retryWithBackoff W A setTimeout fn maxAttempts baseDelayMs s in
  (exists delta,
      snd (snd run) = (snd s ++ delta)%list /\
      Backoff.retry_steps (default 3 maxAttempts) (default 1000 baseDelayMs) 0 delta
        (Backoff.thrown_by (fst run))) /\
  (forall a, fst run = Returned a -> exists w, fn w = (Returned a, fst (snd run))).
Proof.
  intros Hpos run. subst run. unfold Backoff.retryWithBackoff. split.
  - apply attempts_steps; lia.
  - apply attempts_returned.
Qed.

Lemma retry_steps_spaced (maxAttempts baseDelayMs : Z) attempt delta thrown :
  Backoff.retry_steps maxAttempts baseDelayMs attempt delta thrown ->
  Backoff.spaced delta = true /\
  (forall e, thrown = Some e -> forallb Backoff.not_returned delta = true).
Proof.
  induction 1 as [attempt Hlt|attempt error Hlast|attempt error rest thrown Hlt _ IH].
  - split; [reflexivity|]. intros e He; discriminate He.
  - split; reflexivity.
  - destruct IH as [Hspaced Hthrew]. split; [exact Hspaced|].
    intros e He. cbn. exact (Hthrew e He).
Qed.

(** X6. Whatever [fn] does: when [maxAttempts] is zero or negative,
    [retryWithBackoff] calls nothing, sets no timer and throws the error
    [Max retry attempts exceeded]. Otherwise it calls [fn] at least once
    and at most [maxAttempts] times, and sets exactly one timer between
    each call and the next, none before the first call and none after the
    last; it throws only when [maxAttempts] calls have been made and every
    one of them has thrown, and what it throws is an [Error]. *)
Theorem retryWithBackoff_bounds (maxAttempts baseDelayMs : option Z)
    (s : W * list Backoff.Step) :
  let run := Backoff.retryWithBackoff W A setTimeout fn maxAttempts baseDelayMs s in
  (default 3 maxAttempts <= 0 ->
   run = (Thrown (ErrorObj EError "Max retry attempts exceeded"), s)) /\
  (0 < default 3 maxAttempts ->
   exists delta,
     snd (snd run) = (snd s ++ delta)%list /\
     Backoff.spaced delta = true /\
     (1 <= Backoff.calls_made delta)%nat /\
     Z.of_nat (Backoff.calls_made delta) <= default 3 maxAttempts /\
     Backoff.timers_set delta = pred (Backoff.calls_made delta) /\
     (forall e, fst run = Thrown e ->
                Backoff.calls_made delta = Z.to_nat (default 3 maxAttempts) /\
                forallb Backoff.not_returned delta = true /\
                (forall v, e <> Other v))).
Proof.
  intros run. subst run. split.
  - intros Hnone. unfold Backoff.retryWithBackoff.
    replace (Z.to_nat (default 3 maxAttempts)) with O by lia.
    cbn [Backoff.attempts default from_option id]. reflexivity.
  - intros Hpos.
    destruct (attempts_steps (default 3 maxAttempts) (default 1000 baseDelayMs)
                (Z.to_nat (default 3 maxAttempts)) 0 None s ltac:(lia) ltac:(lia))
      as (delta & Hlog & Hsteps).
    fold (Backoff.retryWithBackoff W A setTimeout fn maxAttempts baseDelayMs s)
      in Hlog, Hsteps.
    destruct (retry_steps_counts _ _ _ _ _ Hsteps) as (Hle & Hcount & Hthrown).
    destruct (retry_steps_spaced _ _ _ _ _ Hsteps) as (Hspaced & Hthrew).
    exists delta. split; [exact Hlog|]. split; [exact Hspaced|].
    split; [lia|]. split; [lia|]. split; [lia|].
    intros e He. rewrite He in Hthrown, Hthrew. cbn [Backoff.thrown_by] in Hthrown, Hthrew.
    destruct (Hthrown e eq_refl) as [Hall Herr].
    split; [lia|]. split; [exact (Hthrew e eq_refl) | exact Herr].
Qed.

End Retries.

Lemma retryWithBackoff_bounds_witness :
  Backoff.retryWithBackoff nat string Sample2.no_timer Sample2.flaky (Some 0) None (O, [])
    = (Thrown (ErrorObj EError "Max retry attempts exceeded"), (O, [])) /\
  exists delta,
    snd (snd (Backoff.retryWithBackoff nat string Sample2.no_timer Sample2.flaky
                (Some 2) None (O, []))) = delta /\
    Backoff.spaced delta = true /\
    Backoff.calls_made delta = 2%nat /\ Backoff.timers_set delta = 1%nat.
Proof.
  split.
  - apply (retryWithBackoff_bounds nat string Sample2.no_timer Sample2.flaky
             (Some 0) None (O, [])). cbn. lia.
  - destruct (retryWithBackoff_bounds nat string Sample2.no_timer Sample2.flaky
                (Some 2) None (O, [])) as [_ Hsome].
    destruct (Hsome ltac:(cbn; lia)) as (delta & Hlog & Hspaced & _ & _ & Htimers & Hthrown).
    destruct (Hthrown (ErrorObj EError "Unknown error") eq_refl) as (Hcalls & _).
    exists delta. split; [exact Hlog|]. split; [exact Hspaced|].
    split; [exact Hcalls|]. rewrite Htimers, Hcalls. reflexivity.
Defined.

Lemma retryWithBackoff_steps_witness :
  Backoff.retryWithBackoff nat string Sample2.no_timer Sample2.flaky None None (O, [])
    = (Returned "done",
       (3%nat,
        [Backoff.Called 0 (Some (Other (JString "busy"))); Backoff.Waited 1000;
         Backoff.Called 1 (Some (Other (JString "busy"))); Backoff.Waited 2000;
         Backoff.Called 2 None])) /\
  exists delta,
    Backoff.retry_steps 3 1000 0 delta None /\ Backoff.calls_made delta = 3%nat.
Proof.
  split; [reflexivity|].
  destruct (retryWithBackoff_steps nat string Sample2.no_timer Sample2.flaky None None
              (O, []) ltac:(reflexivity)) as [(delta & Hlog & Hsteps) _].
  exists delta. split; [exact Hsteps|].
  cbn in Hlog. subst delta. reflexivity.
Defined.

(** ** [isPaymentRequestExpired] and the two orchestration paths *)

Section ExpirationHelper.
Context `{Platform}.

(** X7. The exported test [isPaymentRequestExpired] is the test of both
    orchestration paths: for a 402 whose body the validator accepts, the
    explicit client ends with the expiration error exactly when the test,
    made on the offer's [expiresAt] in the same state of the world,
    answers [true]; and so does the interceptor for a request object that
    is not marked. The test answers [false] for an [expiresAt] that is not
    a date, whatever the clock reads. *)
Theorem isPaymentRequestExpired_agrees :
  (forall this body s,
      Client.isValidPaymentRequest body = Returned true ->
      fst (Client.on402 this body s) = Thrown expired_error <->
      fst (Helpers.isPaymentRequestExpired (expiresAt (as_payment_request body)) s)
        = Returned true) /\
  (forall account error s,
      is_402 error = true -> config error ∉ paymentAttempted s ->
      Interceptor.isValidPaymentRequest (response_data error) = Returned true ->
      fst (Interceptor.onRejected account error s) = Thrown expired_error <->
      fst (Helpers.isPaymentRequestExpired
             (expiresAt (as_payment_request (response_data error))) s)
        = Returned true) /\
  (forall expiresAt s,
      Date_parse expiresAt = None ->
      fst (Helpers.isPaymentRequestExpired expiresAt s) = Returned false).
Proof.
  split; [|split].
  - intros this body s Hvalid.
    unfold Client.on402, Helpers.isPaymentRequestExpired, bind at 1, lift at 1.
    rewrite Hvalid. cbn [negb]. unfold bind at 1 3. rewrite new_Date_reading.
    unfold ret. cbn [fst].
    destruct (date_lt _ _); [split; reflexivity|].
    split; [|discriminate].
    unfold bind.
    match goal with
    | |- context [Client.signPayment ?t ?p ?st] =>
        destruct (client_signPayment_returns t p st) as (r & s' & ->)
    end.
    destruct (negb (success r)); cbn; intros Hc; discriminate Hc.
  - intros account error s H402 Hnotin Hvalid.
    unfold Interceptor.onRejected, Helpers.isPaymentRequestExpired. rewrite H402.
    cbn [negb]. unfold bind at 1, Interceptor.paymentAttempted_has.
    rewrite (bool_decide_eq_false_2 _ Hnotin).
    unfold bind at 1, Interceptor.paymentAttempted_add.
    unfold bind at 1, lift at 1. rewrite Hvalid. cbn [negb].
    unfold bind at 1 4. rewrite !new_Date_reading. unfold ret. cbn [fst world].
    destruct (date_lt _ _); [split; reflexivity|].
    split; [|discriminate].
    unfold try_catch, bind at 1.
    match goal with
    | |- context [Interceptor.signPayment ?p ?a ?st] =>
        destruct (Interceptor.signPayment p a st) as [[signed|e] s']
    end.
    + unfold bind, Interceptor.set_payment_headers, Interceptor.reissue, bind, emit, ret.
      cbn. intros Hc; discriminate Hc.
    + cbn. intros Hc; discriminate Hc.
  - intros e s Hparse. unfold Helpers.isPaymentRequestExpired, bind.
    rewrite new_Date_reading. unfold ret, date_lt. rewrite Hparse. reflexivity.
Qed.

End ExpirationHelper.

Lemma isPaymentRequestExpired_agrees_witness :
  fst (@Client.on402 Scripted.platform Sample.client Sample.expired_offer
         (Scripted.start (Sample.clock [Sample.in_2023])))
    = Thrown expired_error /\
  fst (@Helpers.isPaymentRequestExpired Scripted.platform "soon"
         (Scripted.start (Sample.clock [Sample.in_2023])))
    = Returned false.
Proof.
  destruct (@isPaymentRequestExpired_agrees Scripted.platform) as (Hclient & _ & Hundated).
  split.
  - apply (Hclient Sample.client Sample.expired_offer); vm_compute; reflexivity.
  - apply Hundated. reflexivity.
Defined.

(** ** The broadcasting path of the client *)

Section BroadcastingPath.
Context `{Broadcaster}.
Variable this : X402PaymentClient.t.

Lemma broadcast_settled_or_failed transaction n s r s' :
  Broadcasting.broadcast transaction n s = (Returned r, s') -> settled_or_failed r.
Proof.
  unfold Broadcasting.broadcast, bind, call, lift, ret.
  destruct (broadcastTransaction transaction n (world s)) as [[[txid|reason]|e] w];
    intros [= <- <-]; [left | right]; cbn; eauto.
Qed.

Lemma try_catch_payment_failure (m : M PaymentResult) fallback :
  (forall s r s', m s = (Returned r, s') -> settled_or_failed r) ->
  forall s, exists r s',
    try_catch m (Broadcasting.failure fallback) s = (Returned r, s') /\ settled_or_failed r.
Proof.
  intros Hm s. unfold try_catch.
  destruct (m s) as [[r|e] s'] eqn:E.
  - exists r, s'. split; [reflexivity|]. eapply Hm; eassumption.
  - eexists _, _. split; [reflexivity|]. right. cbn. eauto.
Qed.

Lemma sendSTXTransfer_returns details s :
  exists r s',
    Broadcasting.sendSTXTransfer this details s = (Returned r, s') /\ settled_or_failed r.
Proof.
  apply try_catch_payment_failure. clear s. intros s r s'.
  unfold bind at 1, emit. cbv beta iota. unfold bind at 1, call. cbn [world].
  destruct (makeSTXTokenTransfer _ _) as [[tx|e] w]; unfold bind at 1, lift;
    [|discriminate].
  apply broadcast_settled_or_failed.
Qed.

Lemma sendContractTransfer_returns label fallback details s :
  exists r s',
    Broadcasting.sendContractTransfer this label fallback details s = (Returned r, s') /\
    settled_or_failed r.
Proof.
  apply try_catch_payment_failure. clear s. intros s r s'.
  unfold bind at 1, lift at 1.
  destruct (getAddressFromPrivateKey _ _) as [a|e]; [|discriminate].
  destruct (Details.tokenContract details) as [c|]; [|discriminate].
  unfold bind at 1, emit. cbv beta iota. unfold bind at 1, call. cbn [world].
  destruct (makeContractCall _ _) as [[tx|e] w]; unfold bind at 1, lift;
    [|discriminate].
  apply broadcast_settled_or_failed.
Qed.

(** X8. [makePayment] never throws: for every payment request, key, chain
    SDK and node it resolves to a result that is either a success, without
    an error, or a failure with an empty transaction identifier and an
    error message. *)
Theorem makePayment_never_throws (paymentRequest : X402PaymentRequired) (s : State) :
  exists r s',
    Broadcasting.makePayment this paymentRequest s = (Returned r, s') /\
    settled_or_failed r.
Proof.
  unfold Broadcasting.makePayment.
  apply try_catch_payment_failure. clear s. intros s r s'.
  unfold bind, lift.
  destruct (BigInt (maxAmountRequired paymentRequest)) as [amount|e]; [|discriminate].
  intros Hrun.
  destruct (default STX (tokenType paymentRequest));
    match type of Hrun with
    | context [Broadcasting.sendSTXTransfer this ?d ?st] =>
        destruct (sendSTXTransfer_returns d st) as (r0 & s0 & Hr0 & Hshape)
    | context [Broadcasting.sendSBTCTransfer this ?d ?st] =>
        destruct (sendContractTransfer_returns "sBTC" "sBTC transfer failed" d st)
          as (r0 & s0 & Hr0 & Hshape)
    | context [Broadcasting.sendUSDCxTransfer this ?d ?st] =>
        destruct (sendContractTransfer_returns "USDCx" "USDCx transfer failed" d st)
          as (r0 & s0 & Hr0 & Hshape)
    end;
    unfold Broadcasting.sendSBTCTransfer, Broadcasting.sendUSDCxTransfer in Hrun;
    rewrite Hr0 in Hrun; injection Hrun as <- <-; exact Hshape.
Qed.

(** X9. [makePayment] submits the transaction that [signPayment] signs.
    When [signPayment] succeeds on a request, [makePayment] on the same
    request, in the same state of the world, submits that signed
    transaction on the network of the request, once, and its result is made
    of the node's answer: the transaction identifier and the raw
    transaction for an accepted transaction; the node's error, with the raw
    transaction and no identifier, for a rejected one; and, when the
    submission throws, a failure that carries neither. *)
Theorem makePayment_submits_signed (paymentRequest : X402PaymentRequired)
    (s s1 : State) (r : SignedPaymentResult) :
  Client.signPayment this paymentRequest s = (Returned r, s1) ->
  success r = true ->
  let signed := signedTransaction r in
  let answer := broadcastTransaction signed (network paymentRequest) (world s1) in
  fst (Broadcasting.makePayment this paymentRequest s) =
    Returned
      match fst answer with
      | Returned (BroadcastOk txid) =>
          {| Payment.txId := txid; Payment.txRaw := signed; Payment.success := true;
             Payment.error := None |}
      | Returned (BroadcastRejected reason) =>
          {| Payment.txId := ""; Payment.txRaw := signed; Payment.success := false;
             Payment.error := Some reason |}
      | Thrown e =>
          {| Payment.txId := ""; Payment.txRaw := ""; Payment.success := false;
             Payment.error :=
               Some (message_or e
                       (transfer_fallback (default STX (tokenType paymentRequest)))) |}
      end /\
  world (snd (Broadcasting.makePayment this paymentRequest s)) = snd answer.
Proof.
  unfold Client.signPayment, Broadcasting.makePayment,
    Client.signSTXTransfer, Broadcasting.sendSTXTransfer,
    Client.signSBTCTransfer, Broadcasting.sendSBTCTransfer,
    Client.signUSDCxTransfer, Broadcasting.sendUSDCxTransfer,
    Client.signContractTransfer, Broadcasting.sendContractTransfer,
    Client.failure, Broadcasting.failure, Broadcasting.broadcast,
    try_catch, bind, lift, emit, call, ret, throw.
  cbn [world trace].
  destruct (BigInt (maxAmountRequired paymentRequest)) as [amount|e];
    [|intros [= <- <-]; discriminate].
  destruct (default STX (tokenType paymentRequest));
    cbn [Details.senderKey Details.network Details.memo Details.recipient Details.amount
           Details.nonce Details.fee Details.tokenContract world trace];
    (destruct (getAddressFromPrivateKey _ _) as [a|e];
       [|intros [= <- <-]; discriminate]);
    try (destruct (tokenContract paymentRequest) as [c|];
           [|intros [= <- <-]; discriminate]);
    cbn [world trace];
    match goal with
    | |- context [makeSTXTokenTransfer ?o ?w] =>
        destruct (makeSTXTokenTransfer o w) as [[tx|e] w1]
    | |- context [makeContractCall ?o ?w] =>
        destruct (makeContractCall o w) as [[tx|e] w1]
    end;
    try (intros [= <- <-]; discriminate);
    intros [= <- <-] _; cbn [signedTransaction world fst snd];
    destruct (broadcastTransaction tx (network paymentRequest) w1)
      as [[[txid|reason]|e] w'];
    cbn; split; reflexivity.
Qed.

(** X10. For a request for sBTC or USDCx without a token contract
    [makePayment] resolves to a failure with no transaction identifier and
    no raw transaction, and leaves the state as it is: nothing is signed,
    and the result is the same whatever the node would answer. The message
    names the missing contract whenever the amount converts to an integer
    and the sender address is derived from the key. *)
Theorem makePayment_missing_contract
    (paymentRequest : X402PaymentRequired) (t : TokenType) (s : State) :
  tokenType paymentRequest = Some t -> t <> STX ->
  tokenContract paymentRequest = None ->
  exists msg,
    Broadcasting.makePayment this paymentRequest s =
      (Returned {| Payment.txId := ""; Payment.txRaw := ""; Payment.success := false;
                   Payment.error := Some msg |}, s) /\
    (forall amount a,
        BigInt (maxAmountRequired paymentRequest) = Returned amount ->
        getAddressFromPrivateKey (X402PaymentClient.privateKey this)
          (network paymentRequest) = Returned a ->
        msg = missing_contract_message t).
Proof.
  intros Ht Hstx Hc.
  unfold Broadcasting.makePayment, try_catch at 1, bind at 1, lift at 1.
  rewrite Ht. cbn [default from_option id].
  destruct (BigInt (maxAmountRequired paymentRequest)) as [amount|e].
  - destruct t; [congruence| |];
      unfold Broadcasting.sendSBTCTransfer, Broadcasting.sendUSDCxTransfer,
        Broadcasting.sendContractTransfer, Broadcasting.failure,
        try_catch, bind, lift, ret, throw;
      cbn [Details.senderKey Details.network Details.tokenContract];
      rewrite network_match, Hc;
      destruct (getAddressFromPrivateKey _ _) as [a|e];
      eexists; (split; [reflexivity|]); intros amount' a' _ Ha;
      (discriminate Ha || reflexivity).
  - eexists. split; [reflexivity|]. intros amount a Ha; discriminate Ha.
Qed.

End BroadcastingPath.

Lemma makePayment_submits_signed_witness :
  let request := Sample.request "1000000" "abc123" None None in
  fst (@Broadcasting.makePayment Scripted.platform ScriptedNode.broadcaster Sample.client
         request (Scripted.start Sample.idle))
    = Returned {| Payment.txId := "txid-0x00" ++ Sample.merchant;
                  Payment.txRaw := "0x00" ++ Sample.merchant;
                  Payment.success := true; Payment.error := None |} /\
  fst (@Broadcasting.makePayment Scripted.platform ScriptedNode.offline Sample.client
         request (Scripted.start Sample.idle))
    = Returned {| Payment.txId := ""; Payment.txRaw := "";
                  Payment.success := false; Payment.error := Some "fetch failed" |}.
Proof.
  intros request.
  pose (signed := @Client.signPayment Scripted.platform Sample.client request
                    (Scripted.start Sample.idle)).
  assert (Hsigned : signed =
                    (Returned {| signedTransaction := "0x00" ++ Sample.merchant;
                                 success := true;
                                 senderAddress := Some "ST753b7cc0"; error := None |},
                     snd signed))
    by (apply injective_projections; [vm_compute; reflexivity | reflexivity]).
  split.
  - apply (@makePayment_submits_signed Scripted.platform ScriptedNode.broadcaster
             Sample.client request _ _ _ Hsigned eq_refl).
  - apply (@makePayment_submits_signed Scripted.platform ScriptedNode.offline
             Sample.client request _ _ _ Hsigned eq_refl).
Defined.

Lemma makePayment_missing_contract_witness :
  @Broadcasting.makePayment Scripted.platform ScriptedNode.broadcaster Sample.client
    (Sample.request "1000000" "abc123" (Some sBTC) None) (Scripted.start Sample.idle)
  = (Returned {| Payment.txId := ""; Payment.txRaw := ""; Payment.success := false;
                 Payment.error := Some (missing_contract_message sBTC) |},
     Scripted.start Sample.idle).
Proof.
  destruct (@makePayment_missing_contract Scripted.platform ScriptedNode.broadcaster
              Sample.client (Sample.request "1000000" "abc123" (Some sBTC) None) sBTC
              (Scripted.start Sample.idle) eq_refl ltac:(discriminate) eq_refl)
    as (msg & Hrun & Hmsg).
  rewrite (Hmsg 1000000 ("ST" ++ String.substring 0 8 Sample.key) eq_refl eq_refl) in Hrun.
  exact Hrun.
Defined.

(** ** More on [requestWithPayment] *)

Section ClientRuns.
Context `{Platform}.
Variable this : X402PaymentClient.t.

Lemma requestHeaders_other headers lastSigned lastRequest k :
  other_header k ->
  Client.requestHeaders headers lastSigned lastRequest !! k = headers !! k.
Proof.
  intros [Hp Ht]. unfold Client.requestHeaders.
  destruct lastSigned as [signed|], lastRequest as [request|]; try reflexivity.
  destruct (String.eqb signed ""); [reflexivity|].
  rewrite !lookup_insert_ne by congruence. reflexivity.
Qed.

Lemma signs_made_app a b : signs_made (a ++ b) = (signs_made a + signs_made b)%nat.
Proof. unfold signs_made. rewrite List.filter_app, length_app. reflexivity. Qed.

Lemma sdk_counts sdk :
  Forall is_sdk_call sdk -> requests_issued sdk = O /\ signs_made sdk = O.
Proof.
  unfold requests_issued, signs_made.
  induction 1 as [|e sdk He _ IH]; [split; reflexivity|].
  destruct e; simpl in He; try contradiction; exact IH.
Qed.

Lemma handled_request_of u m d h delta :
  handled delta -> Forall (request_of u m d h) delta.
Proof.
  destruct 1 as [|t p Hlt|t p sdk Hlt Hsdk]; repeat constructor.
  induction Hsdk as [|e sdk He _ IH]; [constructor|].
  constructor; [|exact IH]. destruct e; simpl in He; try contradiction; exact I.
Qed.

Lemma requestLoop_requests url method data headers maxRetries :
  forall fuel attempt lastSigned lastRequest s c s',
    Client.requestLoop this fuel url method data headers maxRetries attempt
      lastSigned lastRequest s = Some (c, s') ->
    exists tr,
      trace s' = (trace s ++ tr)%list /\
      Forall (request_of url method data headers) tr.
Proof.
  induction fuel as [|fuel IH]; intros attempt lastSigned lastRequest s c s';
    [discriminate|].
  cbn [Client.requestLoop].
  destruct (attempt <=? maxRetries).
  - destruct (client_turn_handled this url method data headers lastSigned lastRequest s)
      as (c1 & s1 & delta & Hrun & (Htr & _) & Hh).
    rewrite Hrun.
    assert (Hturn : Forall (request_of url method data headers)
                      (EvRequest {| url := url; method := method; body := data;
                                    headers := Client.requestHeaders headers
                                                 lastSigned lastRequest |} :: delta)).
    { constructor; [|apply handled_request_of; exact Hh].
      cbn. repeat split. intros k Hk. apply requestHeaders_other, Hk. }
    destruct c1 as [[received|signed request]|e].
    + intros [= <- <-]. eexists. split; [exact Htr | exact Hturn].
    + intros Hloop. destruct (IH _ _ _ _ _ _ Hloop) as (tr & Htr' & Hall).
      eexists. split; [rewrite Htr', Htr, <- app_assoc; reflexivity|].
      apply Forall_app. split; assumption.
    + intros [= <- <-]. eexists. split; [exact Htr | exact Hturn].
  - intros [= <- <-]. exists []. split; [rewrite app_nil_r; reflexivity | constructor].
Qed.

(** X11. Every request that a call of [requestWithPayment] issues is for
    the URL, with the method and the body of the call, and carries the
    caller's headers: it differs from them at most by the two payment
    headers [X-PAYMENT] and [X-PAYMENT-TOKEN-TYPE]. *)
Theorem requestWithPayment_requests_uniform (url : string)
    (options : Client.RequestOptions) (s : State) :
  exists c s' tr,
    Client.requestWithPayment this url options s = Some (c, s') /\
    trace s' = (trace s ++ tr)%list /\
    Forall (request_of url (default "GET" (Client.opt_method options))
              (Client.opt_data options) (default ∅ (Client.opt_headers options))) tr.
Proof.
  destruct (requestWithPayment_runs this url options s) as (c & s' & tr0 & Hrun & _).
  pose proof Hrun as Hloop.
  unfold Client.requestWithPayment, Client.requestWithPayment_fuel in Hloop.
  destruct (requestLoop_requests _ _ _ _ _ _ _ _ _ _ _ _ Hloop) as (tr & Htr & Hall).
  exists c, s', tr. auto.
Qed.

(** X12. When the first request is not answered by a 402,
    [requestWithPayment] (with a [maxRetries] that is not negative) is that
    one request, sent with the caller's headers: it returns the data of the
    response, or throws the rejection of the HTTP client as it is; nothing
    is validated, read from the clock or signed. *)
Theorem requestWithPayment_passes_through (url : string)
    (options : Client.RequestOptions) (s : State)
    (outcome : AxiosError + JsValue) (w : World) :
  let request :=
    {| url := url; method := default "GET" (Client.opt_method options);
       body := Client.opt_data options;
       headers := default ∅ (Client.opt_headers options) |} in
  0 <= default 1 (Client.opt_maxRetries options) ->
  httpClient_request request (world s) = (outcome, w) ->
  (forall error, outcome = inl error -> is_402 error = false) ->
  Client.requestWithPayment this url options s =
    Some (match outcome with
          | inr received => Returned received
          | inl error => Thrown (AxiosErr error)
          end,
          {| world := w; trace := trace s ++ [EvRequest request];
             paymentAttempted := paymentAttempted s; requests := requests s |}).
Proof.
  intros request Hmax Hhttp Hnot402.
  unfold Client.requestWithPayment, Client.requestWithPayment_fuel.
  cbn [Client.requestLoop].
  destruct (Z.leb_spec 0 (default 1 (Client.opt_maxRetries options))); [|lia].
  unfold Client.turn, bind, emit, call. cbn [world trace Client.requestHeaders].
  fold request. rewrite Hhttp.
  destruct outcome as [error|received].
  - rewrite (Hnot402 error eq_refl). reflexivity.
  - reflexivity.
Qed.

(** X13. The paid request, for a 402 whose [tokenType || 'STX'] is one
    of the three token names. When the first request is answered by such a
    402, its handling ends in a signed payment, and the second request is
    answered with a response, [requestWithPayment] (with [maxRetries] at
    least 1) returns the data of that response after these two requests.
    The payment was signed for the body of the 402. The second request
    carries the signed transaction in [X-PAYMENT] and that token name in
    [X-PAYMENT-TOKEN-TYPE]; when the signed transaction is the empty
    string it is sent with the caller's headers only. *)
Theorem requestWithPayment_paid (url : string) (options : Client.RequestOptions)
    (s s1 : State) (error : AxiosError) (w0 : World) (name signed : string)
    (offer : X402PaymentRequired) (received : JsValue) (w : World) :
  let method := default "GET" (Client.opt_method options) in
  let data := Client.opt_data options in
  let headers := default ∅ (Client.opt_headers options) in
  let first := {| url := url; method := method; body := data; headers := headers |} in
  let retry :=
    {| url := url; method := method; body := data;
       headers := Client.requestHeaders headers (Some signed) (Some offer) |} in
  1 <= default 1 (Client.opt_maxRetries options) ->
  httpClient_request first (world s) = (inl error, w0) ->
  token_type_or_STX (response_data error) = Returned (JString name) -> token_name name ->
  Client.turn this url method data headers None None s
    = (Returned (Client.Continue signed offer), s1) ->
  httpClient_request retry (world s1) = (inr received, w) ->
  Client.requestWithPayment this url options s =
    Some (Returned received,
          {| world := w; trace := trace s1 ++ [EvRequest retry];
             paymentAttempted := paymentAttempted s1; requests := requests s1 |}) /\
  offer = as_payment_request (response_data error) /\
  (signed <> "" ->
   Client.requestHeaders headers (Some signed) (Some offer)
     = <["X-PAYMENT-TOKEN-TYPE" := name]> (<["X-PAYMENT" := signed]> headers)) /\
  (signed = "" -> Client.requestHeaders headers (Some signed) (Some offer) = headers).
Proof.
  intros method data headers first retry Hmax Hanswer Hname Htoken Hfirst Hhttp.
  assert (Hoffer : offer = as_payment_request (response_data error)).
  { destruct (turn_continue_inv _ _ _ _ _ _ _ _ _ _ _ Hfirst)
      as (error' & w' & t & r & Hanswer' & _ & _ & Hoffer & _).
    cbn [Client.requestHeaders] in Hanswer'. fold first in Hanswer'.
    rewrite Hanswer in Hanswer'. injection Hanswer' as <- <-. exact Hoffer. }
  split; [|split; [exact Hoffer|split]].
  - unfold Client.requestWithPayment, Client.requestWithPayment_fuel.
    fold method data headers.
    destruct (Z.to_nat (default 1 (Client.opt_maxRetries options) + 1))
      as [|[|fuel]] eqn:Hfuel; [lia | lia |].
    cbn [Client.requestLoop].
    destruct (Z.leb_spec 0 (default 1 (Client.opt_maxRetries options))); [|lia].
    rewrite Hfirst.
    destruct (Z.leb_spec (0 + 1) (default 1 (Client.opt_maxRetries options))); [|lia].
    unfold Client.turn, bind, emit, call. cbn [world trace].
    fold retry. rewrite Hhttp. reflexivity.
  - intros Hne. unfold Client.requestHeaders.
    destruct (String.eqb_spec signed ""); [contradiction|].
    subst offer. rewrite (token_type_or_STX_name _ _ Hname Htoken). reflexivity.
  - intros ->. reflexivity.
Qed.

Lemma client_isValidPaymentRequest_thrown v e :
  Client.isValidPaymentRequest v = Thrown e -> exists m, e = ErrorObj ETypeError m.
Proof.
  destruct v as [| |b|n|str|items|fields];
    try (intros Hthrown;
         match type of Hthrown with
         | Client.isValidPaymentRequest ?x = _ =>
             destruct (client_isValidPaymentRequest_spec x ltac:(discriminate))
               as (b' & Hb & _)
         end;
         rewrite Hb in Hthrown; discriminate Hthrown).
  cbn. intros [= <-]. eauto.
Qed.

Lemma turn_continue_trace url method data headers lastSigned lastRequest s signed offer s1 :
  Client.turn this url method data headers lastSigned lastRequest s
    = (Returned (Client.Continue signed offer), s1) ->
  exists t sdk,
    trace s1 =
      (trace s ++
       EvRequest {| url := url; method := method; body := data;
                    headers := Client.requestHeaders headers lastSigned lastRequest |}
         :: EvNow t :: EvSignPayment offer :: sdk)%list /\
    Forall is_sdk_call sdk.
Proof.
  unfold Client.turn, bind at 1, emit. cbv beta iota. unfold bind at 1, call. cbn [world].
  destruct (httpClient_request _ (world s)) as [[error|received] w]; [|discriminate].
  destruct (is_402 error); [|discriminate].
  unfold Client.on402, bind at 1, lift at 1.
  destruct (Client.isValidPaymentRequest (response_data error)) as [[|]|e];
    cbn [negb]; try discriminate.
  unfold bind at 1. rewrite new_Date_reading. cbn [world trace].
  destruct (date_lt _ _); [discriminate|].
  unfold bind at 1.
  match goal with
  | |- context [Client.signPayment ?t ?p ?st] =>
      destruct (client_signPayment_extends t p st) as (sdk & (Htr & _) & Hsdk);
      destruct (Client.signPayment t p st) as [[r|e] s2]; [|discriminate]
  end.
  cbn [snd trace] in Htr.
  destruct (negb (success r)); [discriminate|].
  intros [= <- <- <-]. eexists _, sdk. split; [|exact Hsdk].
  rewrite Htr, <- !app_assoc. reflexivity.
Qed.

Lemma turn_thrown_not_max url method data headers lastSigned lastRequest s e s1 :
  Client.turn this url method data headers lastSigned lastRequest s = (Thrown e, s1) ->
  e <> max_retries_error.
Proof.
  unfold Client.turn, bind at 1, emit. cbv beta iota. unfold bind at 1, call. cbn [world].
  destruct (httpClient_request _ (world s)) as [[error|received] w]; [|discriminate].
  destruct (is_402 error); [|intros [= <- <-]; discriminate].
  unfold Client.on402, bind at 1, lift at 1.
  destruct (Client.isValidPaymentRequest (response_data error)) as [[|]|e0] eqn:Hvalid;
    cbn [negb].
  - unfold bind at 1. rewrite new_Date_reading. cbn [world trace].
    destruct (date_lt _ _); [intros [= <- <-]; discriminate|].
    unfold bind at 1.
    match goal with
    | |- context [Client.signPayment ?t ?p ?st] =>
        destruct (client_signPayment_returns t p st) as (r & s2 & ->)
    end.
    destruct (negb (success r)); [|discriminate].
    intros [= <- <-]. cbn. discriminate.
  - intros [= <- <-]. discriminate.
  - intros [= <- <-]. destruct (client_isValidPaymentRequest_thrown _ _ Hvalid) as [m ->].
    discriminate.
Qed.

Lemma requestLoop_exhausted url method data headers maxRetries :
  forall fuel attempt lastSigned lastRequest s s',
    Client.requestLoop this fuel url method data headers maxRetries attempt
      lastSigned lastRequest s = Some (Thrown max_retries_error, s') ->
    exists tr,
      trace s' = (trace s ++ tr)%list /\
      requests_issued tr = Z.to_nat (maxRetries + 1 - attempt) /\
      signs_made tr = Z.to_nat (maxRetries + 1 - attempt) /\
      (attempt <= maxRetries -> ends_with_signature tr).
Proof.
  induction fuel as [|fuel IH]; intros attempt lastSigned lastRequest s s';
    [discriminate|].
  cbn [Client.requestLoop].
  destruct (Z.leb_spec attempt maxRetries) as [Hle|Hgt].
  - destruct (Client.turn this url method data headers lastSigned lastRequest s)
      as [[[received|signed offer]|e] s1] eqn:Hturn.
    + discriminate.
    + intros Hloop.
      destruct (turn_continue_trace _ _ _ _ _ _ _ _ _ _ Hturn) as (t & sdk & Htr & Hsdk).
      destruct (IH _ _ _ _ _ Hloop) as (tr & Htr' & Hreq & Hsign & Hend).
      destruct (sdk_counts sdk Hsdk) as [Hsdk_req Hsdk_sign].
      exists ([EvRequest {| url := url; method := method; body := data;
                            headers := Client.requestHeaders headers
                                         lastSigned lastRequest |};
               EvNow t; EvSignPayment offer] ++ sdk ++ tr)%list.
      split; [rewrite Htr', Htr, <- !app_assoc; reflexivity|].
      rewrite !requests_issued_app, !signs_made_app, Hsdk_req, Hsdk_sign, Hreq, Hsign.
      split; [cbn; lia|]. split; [cbn; lia|].
      intros _. destruct (Z.le_gt_cases (attempt + 1) maxRetries) as [Hmore|Hlast].
      * destruct (Hend Hmore) as (before & p & sdk' & -> & Hsdk').
        exists ([EvRequest {| url := url; method := method; body := data;
                              headers := Client.requestHeaders headers
                                           lastSigned lastRequest |};
                 EvNow t; EvSignPayment offer] ++ sdk ++ before)%list, p, sdk'.
        split; [rewrite <- !app_assoc; reflexivity | exact Hsdk'].
      * assert (Hnil : tr = []).
        { destruct tr as [|x tr]; [reflexivity|].
          assert (Hz : requests_issued (x :: tr) = O) by (rewrite Hreq; lia).
          assert (Hs : signs_made (x :: tr) = O) by (rewrite Hsign; lia).
          exfalso. clear - Hloop Hz Hs Hlast Htr'.
          destruct fuel as [|fuel]; [discriminate|].
          cbn [Client.requestLoop] in Hloop.
          destruct (Z.leb_spec (attempt + 1) maxRetries); [lia|].
          injection Hloop as <-. 
          apply (f_equal (@length Event)) in Htr'.
          rewrite length_app in Htr'. cbn in Htr'. lia. }
        subst tr. rewrite app_nil_r.
        exists [EvRequest {| url := url; method := method; body := data;
                             headers := Client.requestHeaders headers
                                          lastSigned lastRequest |};
                EvNow t], offer, sdk.
        split; [reflexivity | exact Hsdk].
    + intros [= -> <-]. exfalso.
      apply (turn_thrown_not_max _ _ _ _ _ _ _ _ _ Hturn). reflexivity.
  - intros [= <-]. exists []. rewrite app_nil_r.
    split; [reflexivity|]. split; [cbn; lia|]. split; [cbn; lia|]. lia.
Qed.

Lemma requestHeaders_payment headers signed request :
  signed <> "" ->
  Client.requestHeaders headers (Some signed) (Some request) !! "X-PAYMENT" = Some signed.
Proof.
  intros Hne. unfold Client.requestHeaders.
  destruct (String.eqb_spec signed ""); [contradiction|].
  rewrite lookup_insert_ne by discriminate. apply lookup_insert_eq.
Qed.

Lemma turn_continue_paid url method data headers lastSigned lastRequest s signed offer s1 :
  (lastSigned = None <-> lastRequest = None) ->
  Client.turn this url method data headers lastSigned lastRequest s
    = (Returned (Client.Continue signed offer), s1) ->
  paid_turn this url method data headers lastSigned signed s s1.
Proof.
  intros Hboth.
  unfold paid_turn, Client.turn, bind at 1, emit. cbv beta iota zeta.
  unfold bind at 1, call. cbn [world trace paymentAttempted requests].
  destruct (httpClient_request _ (world s)) as [[error|received] w] eqn:Hhttp;
    [|discriminate].
  destruct (is_402 error) eqn:H402; [|discriminate].
  unfold Client.on402, bind at 1, lift at 1.
  destruct (Client.isValidPaymentRequest (response_data error)) as [[|]|e] eqn:Hvalid;
    cbn [negb]; try discriminate.
  unfold bind at 1.
  match goal with
  | |- context [new_Date ?st] =>
      pose proof (new_Date_reading st) as Hnow;
      destruct (new_Date st) as [c read] eqn:Hread
  end.
  injection Hnow as -> ->. cbn [world].
  destruct (date_lt _ _) eqn:Hlt; [discriminate|].
  apply date_lt_not_past in Hlt.
  unfold bind at 1.
  match goal with
  | |- context [Client.signPayment ?t ?p ?st] =>
      destruct (Client.signPayment t p st) as [[r|e] s2] eqn:Hsign; [|discriminate]
  end.
  destruct (success r) eqn:Hsuccess; cbn [negb]; [|discriminate].
  intros [= <- <- <-].
  exists {| url := url; method := method; body := data;
            headers := Client.requestHeaders headers lastSigned lastRequest |},
    error, w, r.
  cbn [snd request_of]. simpl.
  split; [repeat split; intros k Hk; apply requestHeaders_other, Hk|].
  split; [intros ->; reflexivity|].
  split.
  { intros sent -> Hne. destruct lastRequest as [request|].
    - apply requestHeaders_payment, Hne.
    - destruct Hboth as [_ Hnone]. discriminate (Hnone eq_refl). }
  split; [exact Hhttp|]. split; [exact H402|]. split; [exact Hvalid|].
  split; [exact Hlt|].
  split; [rewrite new_Date_reading; exact Hsign|].
  split; [exact Hsuccess | reflexivity].
Qed.

Lemma requestLoop_paid_turns url method data headers maxRetries :
  forall fuel attempt lastSigned lastRequest s s',
    (lastSigned = None <-> lastRequest = None) ->
    Client.requestLoop this fuel url method data headers maxRetries attempt
      lastSigned lastRequest s = Some (Thrown max_retries_error, s') ->
    paid_turns this url method data headers lastSigned s
      (Z.to_nat (maxRetries + 1 - attempt)) s'.
Proof.
  induction fuel as [|fuel IH]; intros attempt lastSigned lastRequest s s' Hboth;
    [discriminate|].
  cbn [Client.requestLoop].
  destruct (Z.leb_spec attempt maxRetries) as [Hle|Hgt].
  - destruct (Client.turn this url method data headers lastSigned lastRequest s)
      as [[[received|signed offer]|e] s1] eqn:Hturn.
    + discriminate.
    + intros Hloop.
      replace (Z.to_nat (maxRetries + 1 - attempt))
        with (S (Z.to_nat (maxRetries + 1 - (attempt + 1)))) by lia.
      apply paid_turns_more with signed s1;
        [apply (turn_continue_paid _ _ _ _ _ _ _ _ _ _ Hboth Hturn)|].
      apply (IH _ _ (Some offer)); [split; intros Hnone; discriminate Hnone|].
      exact Hloop.
    + intros [= -> <-]. exfalso.
      apply (turn_thrown_not_max _ _ _ _ _ _ _ _ _ Hturn). reflexivity.
  - intros [= <-].
    replace (Z.to_nat (maxRetries + 1 - attempt)) with O by lia.
    apply paid_turns_none.
Qed.

(** X14. When [requestWithPayment] ends with the max-retries error, its
    run is [maxRetries + 1] turns of the loop (none when [maxRetries] is
    negative), each of which ended in a signed payment: its request, the
    first with the caller's headers and every later one with the payment
    signed in the turn before (when that is not the empty string), was
    answered by a 402 whose body the validator accepted and whose offer
    the clock did not put in the past, and [signPayment] returned a
    success for that offer. So as many
    payments were signed as requests were issued, and the run ends with a
    signature that no request follows: the last signed payment is not
    sent. *)
Theorem requestWithPayment_exhausted (url : string) (options : Client.RequestOptions)
    (s s' : State) :
  Client.requestWithPayment this url options s = Some (Thrown max_retries_error, s') ->
  paid_turns this url (default "GET" (Client.opt_method options))
    (Client.opt_data options) (default ∅ (Client.opt_headers options)) None s
    (Z.to_nat (default 1 (Client.opt_maxRetries options) + 1)) s' /\
  exists tr,
    trace s' = (trace s ++ tr)%list /\
    requests_issued tr = Z.to_nat (default 1 (Client.opt_maxRetries options) + 1) /\
    signs_made tr = Z.to_nat (default 1 (Client.opt_maxRetries options) + 1) /\
    (0 <= default 1 (Client.opt_maxRetries options) -> ends_with_signature tr).
Proof.
  unfold Client.requestWithPayment, Client.requestWithPayment_fuel. intros Hloop.
  split.
  - pose proof (requestLoop_paid_turns _ _ _ _ _ _ _ _ _ _ _
                  ltac:(split; reflexivity) Hloop) as Hpaid.
    rewrite Z.sub_0_r in Hpaid. exact Hpaid.
  - destruct (requestLoop_exhausted _ _ _ _ _ _ _ _ _ _ _ Hloop)
      as (tr & Htr & Hreq & Hsign & Hend).
    exists tr. rewrite Z.sub_0_r in Hreq, Hsign. auto.
Qed.

End ClientRuns.

Lemma requestWithPayment_passes_through_witness :
  @Client.requestWithPayment Scripted.platform Sample.client "/resource" Sample.options
    (Scripted.start Sample2.resource_at_once)
  = Some (Returned (JString "free data"),
          @Build_State Scripted.platform Sample.idle
            [EvRequest {| url := "/resource"; method := "GET"; body := JUndefined;
                          headers := ∅ |}] ∅ ∅).
Proof.
  apply (@requestWithPayment_passes_through Scripted.platform Sample.client "/resource"
           Sample.options (Scripted.start Sample2.resource_at_once)
           (inr (JString "free data")) Sample.idle);
    [cbn; lia | reflexivity | intros error Herror; discriminate Herror].
Defined.

Lemma requestWithPayment_paid_witness :
  exists (s1 : @State Scripted.platform) (retry : HttpRequest),
    @Client.requestWithPayment Scripted.platform Sample.client "/resource" Sample.options
      (Scripted.start Sample2.sbtc_offer_then_resource)
    = Some (Returned (JString "premium data"),
            @Build_State Scripted.platform Sample.idle (trace s1 ++ [EvRequest retry])
              (paymentAttempted s1) (requests s1)) /\
    headers retry =
      <["X-PAYMENT-TOKEN-TYPE" := "sBTC"]> (<["X-PAYMENT" := "0x80sbtc-token"]> ∅).
Proof.
  pose (s := Scripted.start Sample2.sbtc_offer_then_resource).
  pose (offer := as_payment_request Sample2.sbtc_offer_with_contract).
  pose (first_turn :=
          @Client.turn Scripted.platform Sample.client "/resource" "GET" JUndefined ∅
            None None s).
  assert (Hfirst : first_turn =
                   (Returned (Client.Continue "0x80sbtc-token" offer), snd first_turn))
    by (apply injective_projections; [vm_compute; reflexivity | reflexivity]).
  destruct (@requestWithPayment_paid Scripted.platform Sample.client "/resource"
              Sample.options s (snd first_turn)
              (Sample.payment_required 1%positive Sample2.sbtc_offer_with_contract)
              {| Scripted.http_outcomes := [inr (JString "premium data")];
                 Scripted.clock_readings := [Sample.in_2023] |}
              "sBTC" "0x80sbtc-token" offer (JString "premium data") Sample.idle
              ltac:(cbn; lia) ltac:(reflexivity) ltac:(reflexivity)
              ltac:(right; left; reflexivity) Hfirst ltac:(vm_compute; reflexivity))
    as (Hrun & _ & Hheaders & _).
  eexists (snd first_turn), _. split; [exact Hrun|].
  apply Hheaders. discriminate.
Defined.

Lemma requestWithPayment_exhausted_witness :
  exists s' tr,
    @Client.requestWithPayment Scripted.platform Sample.client "/resource" Sample.options
      (Scripted.start Sample.two_offers) = Some (Thrown max_retries_error, s') /\
    paid_turns Sample.client "/resource" "GET" JUndefined ∅ None
      (Scripted.start Sample.two_offers) 2 s' /\
    trace s' = tr /\ requests_issued tr = 2%nat /\ signs_made tr = 2%nat /\
    ends_with_signature tr.
Proof.
  assert (Hthrown :
            option_map fst
              (@Client.requestWithPayment Scripted.platform Sample.client "/resource"
                 Sample.options (Scripted.start Sample.two_offers))
            = Some (Thrown max_retries_error))
    by (vm_compute; reflexivity).
  destruct (@Client.requestWithPayment Scripted.platform Sample.client "/resource"
              Sample.options (Scripted.start Sample.two_offers))
    as [[c s']|] eqn:Hrun; [|discriminate Hthrown].
  injection Hthrown as ->.
  destruct (@requestWithPayment_exhausted Scripted.platform Sample.client "/resource"
              Sample.options _ _ Hrun) as (Hpaid & tr & Htr & Hreq & Hsign & Hend).
  exists s', tr. split; [reflexivity|]. split; [exact Hpaid|]. split; [exact Htr|].
  split; [exact Hreq|]. split; [exact Hsign|]. apply Hend. cbn. lia.
Defined.

(** ** More on the signing functions of the client *)

Section ClientSigningMore.
Context `{Platform}.
Variable this : X402PaymentClient.t.

Lemma substring_34_empty (s : string) :
  String.eqb (String.substring 0 34 s) "" = String.eqb s "".
Proof. destruct s; reflexivity. Qed.

(** X15. A success of [signPayment] is made of what the collaborators
    gave: the amount converted, the sender address is the one derived from
    the client's key on the network of the request, and exactly one signing
    call of the SDK was made, whose serialized transaction is the signed
    transaction of the result: [makeSTXTokenTransfer] for the native token,
    [makeContractCall] for sBTC and USDCx, which then came with their
    contract. *)
Theorem signPayment_success (paymentRequest : X402PaymentRequired) (s s' : State)
    (r : SignedPaymentResult) :
  Client.signPayment this paymentRequest s = (Returned r, s') ->
  success r = true ->
  exists amount a sdk_call,
    BigInt (maxAmountRequired paymentRequest) = Returned amount /\
    getAddressFromPrivateKey (X402PaymentClient.privateKey this) (network paymentRequest)
      = Returned a /\
    senderAddress r = Some a /\ error r = None /\
    trace s' = (trace s ++ [EvSignPayment paymentRequest; sdk_call])%list /\
    match sdk_call with
    | EvMakeSTX o =>
        default STX (tokenType paymentRequest) = STX /\
        makeSTXTokenTransfer o (world s) = (Returned (signedTransaction r), world s')
    | EvMakeCall o =>
        default STX (tokenType paymentRequest) <> STX /\
        tokenContract paymentRequest <> None /\
        makeContractCall o (world s) = (Returned (signedTransaction r), world s')
    | _ => False
    end.
Proof.
  unfold Client.signPayment, Client.signSTXTransfer, Client.signSBTCTransfer,
    Client.signUSDCxTransfer, Client.signContractTransfer, Client.failure,
    try_catch, bind, lift, emit, call, ret, throw.
  cbn [world trace].
  destruct (BigInt (maxAmountRequired paymentRequest)) as [amount|e];
    [|intros [= <- <-]; discriminate].
  destruct (default STX (tokenType paymentRequest)) eqn:Htoken;
    cbn [Details.senderKey Details.network Details.memo Details.recipient Details.amount
           Details.nonce Details.fee Details.tokenContract world trace];
    rewrite network_match;
    (destruct (getAddressFromPrivateKey _ _) as [a|e];
       [|intros [= <- <-]; discriminate]);
    try (destruct (tokenContract paymentRequest) as [c|] eqn:Hcontract;
           [|intros [= <- <-]; discriminate]);
    cbn [world trace];
    match goal with
    | |- context [makeSTXTokenTransfer ?o ?w] =>
        destruct (makeSTXTokenTransfer o w) as [[tx|e] w1] eqn:Hmade
    | |- context [makeContractCall ?o ?w] =>
        destruct (makeContractCall o w) as [[tx|e] w1] eqn:Hmade
    end;
    try (intros [= <- <-]; discriminate);
    intros [= <- <-] _; exists amount, a; eexists;
    (split; [reflexivity|]); (split; [reflexivity|]); (split; [reflexivity|]);
    (split; [reflexivity|]);
    (split; [cbn [trace]; rewrite <- app_assoc; reflexivity|]);
    cbn [signedTransaction world]; repeat split; try exact Hmade; discriminate.
Qed.

(** X16. The call behind a signed sBTC or USDCx payment. When
    [signPayment] returns a success for a request for sBTC or USDCx that
    comes with its contract, whose amount converts and whose key yields an
    address, the signed transaction is what [makeContractCall] returned,
    in the one call to the SDK of that run, for a call of the function
    [transfer] of that contract with, in this order, the amount, the
    sender address derived from the key, the recipient of the request and
    the memo (the first 34 code units of the nonce, or none for an empty
    nonce), signed with the client's key on the network of the request,
    with post-conditions in mode [allow] and no explicit nonce or fee. *)
Theorem signPayment_contract_call (paymentRequest : X402PaymentRequired) (s s' : State)
    (r : SignedPaymentResult) (t : TokenType) (c : TokenContract) (amount : Z)
    (a : string) :
  let options :=
    {| CallOptions.contractAddress := Contract.address c;
       CallOptions.contractName := Contract.name c;
       CallOptions.functionName := "transfer";
       CallOptions.functionArgs :=
         [uintCV amount; principalCV a; principalCV (payTo paymentRequest);
          if String.eqb (nonce paymentRequest) "" then noneCV
          else someCV (bufferCVFromString
                         (String.substring 0 34 (nonce paymentRequest)))];
       CallOptions.senderKey := X402PaymentClient.privateKey this;
       CallOptions.network := network paymentRequest;
       CallOptions.postConditionMode := "allow";
       CallOptions.nonce := None;
       CallOptions.fee := None |} in
  tokenType paymentRequest = Some t -> t <> STX ->
  tokenContract paymentRequest = Some c ->
  BigInt (maxAmountRequired paymentRequest) = Returned amount ->
  getAddressFromPrivateKey (X402PaymentClient.privateKey this) (network paymentRequest)
    = Returned a ->
  Client.signPayment this paymentRequest s = (Returned r, s') ->
  success r = true ->
  trace s' = (trace s ++ [EvSignPayment paymentRequest; EvMakeCall options])%list /\
  makeContractCall options (world s) = (Returned (signedTransaction r), world s') /\
  senderAddress r = Some a.
Proof.
  intros options Ht Hstx Hc Hamount Haddr. subst options.
  unfold Client.signPayment, Client.signSBTCTransfer,
    Client.signUSDCxTransfer, Client.signContractTransfer, Client.failure,
    try_catch, bind, lift, emit, call, ret, throw.
  cbn [world trace]. rewrite Hamount, Ht. cbn [default from_option id].
  destruct t; [congruence| |];
    cbn [Details.senderKey Details.network Details.memo Details.recipient Details.amount
           Details.nonce Details.fee Details.tokenContract world trace];
    rewrite network_match, Haddr, Hc, substring_34_empty; cbn [world trace];
    match goal with
    | |- context [makeContractCall ?o ?w] =>
        destruct (makeContractCall o w) as [[tx|e] w1] eqn:Hmade
    end;
    try (intros [= <- <-]; discriminate);
    intros [= <- <-] _; cbn [trace world signedTransaction senderAddress];
    (split; [rewrite <- app_assoc; reflexivity|]);
    split; reflexivity.
Qed.

(** X17. [signSTXTransfer] signs with the key of the client, whatever
    [details.senderKey] is, and reports as sender the address derived from
    [details.senderKey]: on a success the options handed to the SDK carry
    the client's key and the recipient, amount, network, memo, nonce and
    fee of the details, and the sender address of the result is the one
    derived from [details.senderKey] on the network of the details. *)
Theorem signSTXTransfer_keys (details : PaymentDetails) (s s' : State)
    (r : SignedPaymentResult) :
  Client.signSTXTransfer this details s = (Returned r, s') ->
  success r = true ->
  exists a o,
    getAddressFromPrivateKey (Details.senderKey details) (Details.network details)
      = Returned a /\
    senderAddress r = Some a /\
    trace s' = (trace s ++ [EvMakeSTX o])%list /\
    STXOptions.senderKey o = X402PaymentClient.privateKey this /\
    STXOptions.recipient o = Details.recipient details /\
    STXOptions.amount o = Details.amount details /\
    STXOptions.network o = Details.network details /\
    STXOptions.memo o = default "" (Details.memo details) /\
    STXOptions.nonce o = Details.nonce details /\
    STXOptions.fee o = Details.fee details.
Proof.
  unfold Client.signSTXTransfer, Client.failure, try_catch, bind, lift, emit, call, ret.
  rewrite network_match.
  destruct (getAddressFromPrivateKey _ _) as [a|e]; [|intros [= <- <-]; discriminate].
  cbn [world trace].
  destruct (makeSTXTokenTransfer _ _) as [[tx|e] w]; [|intros [= <- <-]; discriminate].
  intros [= <- <-] _. exists a. eexists.
  split; [reflexivity|]. split; [reflexivity|]. split; [reflexivity|].
  cbn. repeat split.
  destruct (Details.memo details) as [m|]; [|reflexivity].
  cbn. destruct (String.eqb_spec m ""); congruence.
Qed.

End ClientSigningMore.

Lemma signPayment_success_witness :
  exists amount a sdk_call,
    Scripted.BigInt "1000000" = Returned amount /\
    Scripted.getAddressFromPrivateKey Sample.key testnet = Returned a /\
    a = "ST753b7cc0"%string /\
    is_sdk_call sdk_call.
Proof.
  pose (request := Sample.request "1000000" "abc123" None None).
  pose (run := @Client.signPayment Scripted.platform Sample.client request
                 (Scripted.start Sample.idle)).
  assert (Hrun : run =
                 (Returned {| signedTransaction := "0x00" ++ Sample.merchant;
                              success := true;
                              senderAddress := Some "ST753b7cc0"; error := None |},
                  snd run))
    by (apply injective_projections; [vm_compute; reflexivity | reflexivity]).
  destruct (@signPayment_success Scripted.platform Sample.client request _ _ _ Hrun eq_refl)
    as (amount & a & sdk_call & Hamount & Haddr & Hsender & _ & _ & Hcall).
  exists amount, a, sdk_call.
  split; [exact Hamount|]. split; [exact Haddr|].
  split; [injection Hsender as Ha; symmetry; exact Ha|].
  destruct sdk_call; try contradiction; exact I.
Defined.

Lemma signPayment_contract_call_witness :
  exists s' o,
    @Client.signPayment Scripted.platform Sample.client
      (Sample.request "2500" "abc123" (Some sBTC) (Some Sample2.token))
      (Scripted.start Sample.idle)
    = (Returned {| signedTransaction := "0x80sbtc-token"; success := true;
                   senderAddress := Some "ST753b7cc0"; error := None |}, s') /\
    trace s'
      = [EvSignPayment (Sample.request "2500" "abc123" (Some sBTC) (Some Sample2.token));
         EvMakeCall o] /\
    CallOptions.functionArgs o =
      [uintCV 2500; principalCV "ST753b7cc0"; principalCV Sample.merchant;
       someCV (bufferCVFromString "abc123")].
Proof.
  pose (request := Sample.request "2500" "abc123" (Some sBTC) (Some Sample2.token)).
  pose (run := @Client.signPayment Scripted.platform Sample.client request
                 (Scripted.start Sample.idle)).
  assert (Hrun : run =
                 (Returned {| signedTransaction := "0x80sbtc-token"; success := true;
                              senderAddress := Some "ST753b7cc0"; error := None |},
                  snd run))
    by (apply injective_projections; [vm_compute; reflexivity | reflexivity]).
  destruct (@signPayment_contract_call Scripted.platform Sample.client request
              (Scripted.start Sample.idle) (snd run) _ sBTC Sample2.token 2500
              "ST753b7cc0" eq_refl ltac:(discriminate) eq_refl eq_refl eq_refl
              Hrun eq_refl) as (Htrace & _ & _).
  eexists (snd run), _. split; [exact Hrun|]. split; [exact Htrace | reflexivity].
Defined.

Lemma signSTXTransfer_keys_witness :
  let details :=
    {| Details.recipient := Sample.merchant; Details.amount := 1000000;
       Details.senderKey := Account.privateKey Sample.other_account;
       Details.network := testnet; Details.memo := None;
       Details.nonce := Some 7; Details.fee := Some 180;
       Details.tokenType := None; Details.tokenContract := None |} in
  exists a o,
    Scripted.getAddressFromPrivateKey (Account.privateKey Sample.other_account) testnet
      = Returned a /\
    a = "STa1b2c3d4"%string /\
    STXOptions.senderKey o = Sample.key /\
    STXOptions.nonce o = Some 7 /\ STXOptions.fee o = Some 180.
Proof.
  intros details.
  pose (run := @Client.signSTXTransfer Scripted.platform Sample.client details
                 (Scripted.start Sample.idle)).
  assert (Hrun : run =
                 (Returned {| signedTransaction := "0x00" ++ Sample.merchant;
                              success := true;
                              senderAddress := Some "STa1b2c3d4"; error := None |},
                  snd run))
    by (apply injective_projections; [vm_compute; reflexivity | reflexivity]).
  destruct (@signSTXTransfer_keys Scripted.platform Sample.client details _ _ _
              Hrun eq_refl)
    as (a & o & Haddr & Hsender & _ & Hkey & _ & _ & _ & _ & Hnonce & Hfee).
  exists a, o. split; [exact Haddr|].
  split; [injection Hsender as Ha; symmetry; exact Ha|].
  split; [exact Hkey|]. split; [exact Hnonce | exact Hfee].
Defined.

(** ** More on the interceptor *)

Section InterceptorMore.
Context `{Platform}.

Lemma memo_or_empty (m : string) : (if String.eqb m "" then "" else m) = m.
Proof. destruct (String.eqb_spec m ""); congruence. Qed.

(** X18. The two signers agree. For an account made by
    [privateKeyToAccountV1] from a key, on the network of the payment
    request, the interceptor's [signPayment] and the [signPayment] of a
    client with that key make the same calls to the SDK, with the same
    options, and leave the same state; when the interceptor's resolves
    with a transaction, the client's succeeds with that transaction and
    the address of the account as sender; when the interceptor's throws,
    the client's resolves to a failure. *)
Theorem signers_agree (paymentRequest : X402PaymentRequired) (key : string)
    (clientNetwork : NetworkType) (account : StacksAccount) (s : State) :
  privateKeyToAccountV1 key (Some (network paymentRequest)) = Returned account ->
  let this :=
    {| X402PaymentClient.network := clientNetwork; X402PaymentClient.privateKey := key |} in
  snd (Interceptor.signPayment paymentRequest account s)
    = snd (Client.signPayment this paymentRequest s) /\
  match fst (Interceptor.signPayment paymentRequest account s) with
  | Returned transaction =>
      fst (Client.signPayment this paymentRequest s) =
        Returned {| signedTransaction := transaction; success := true;
                    senderAddress := Some (Account.address account); error := None |}
  | Thrown _ =>
      exists msg,
        fst (Client.signPayment this paymentRequest s) =
          Returned {| signedTransaction := ""; success := false;
                      senderAddress := None; error := Some msg |}
  end.
Proof.
  unfold privateKeyToAccountV1. cbn [default from_option id]. rewrite network_match.
  destruct (getAddressFromPrivateKey key (network paymentRequest)) as [a|e] eqn:Haddr;
    [|discriminate].
  intros [= <-]. cbv zeta.
  unfold Interceptor.signPayment, Client.signPayment, Client.signSTXTransfer,
    Client.signSBTCTransfer, Client.signUSDCxTransfer, Client.signContractTransfer,
    Client.failure, try_catch, bind, lift, emit, call, ret, throw.
  cbn [world trace Account.address Account.privateKey X402PaymentClient.privateKey].
  destruct (BigInt (maxAmountRequired paymentRequest)) as [amount|e];
    [|split; [reflexivity | eexists; reflexivity]].
  destruct (default STX (tokenType paymentRequest));
    cbn [Details.senderKey Details.network Details.memo Details.recipient Details.amount
           Details.nonce Details.fee Details.tokenContract world trace];
    rewrite network_match, Haddr;
    try (destruct (tokenContract paymentRequest) as [c|];
           [|split; [reflexivity | eexists; reflexivity]]);
    rewrite ?memo_or_empty; cbn [world trace];
    match goal with
    | |- context [makeSTXTokenTransfer ?o ?w] =>
        destruct (makeSTXTokenTransfer o w) as [[tx|e] w1]
    | |- context [makeContractCall ?o ?w] =>
        destruct (makeContractCall o w) as [[tx|e] w1]
    end;
    (split; [reflexivity|]); cbn [fst]; try reflexivity; eexists; reflexivity.
Qed.

Lemma as_payment_request_tokenType body t :
  get_prop body "tokenType" = Returned (JString (TokenType_to_string t)) ->
  tokenType (as_payment_request body) = Some t.
Proof.
  intros Hraw. unfold as_payment_request. cbn [tokenType]. rewrite Hraw.
  destruct t; reflexivity.
Qed.

Lemma as_payment_request_no_contract body :
  no_token_contract body -> tokenContract (as_payment_request body) = None.
Proof.
  intros (v & Hraw & Hfalsy). unfold as_payment_request. cbn [tokenContract].
  rewrite Hraw. destruct v; try reflexivity; discriminate Hfalsy.
Qed.

(** X19. What the rejection handler does to the request objects. When the
    handler rejects by itself, that is without re-issuing the request, no
    request object has changed. When it hands the request over to be
    re-issued (its promise then settles as that request does, be it with a
    rejection), the object re-issued is the one of the failed request and
    no other object has changed; that object has kept its URL, its method
    and its headers other than the two payment headers (absent headers
    read as the empty record), [X-PAYMENT] is the transaction that the
    signer, run on the offer of the 402 right after the mark and the
    reading of the clock, returned, [X-PAYMENT-TOKEN-TYPE] is the
    [tokenType || 'STX'] of the body when that is one of the three token
    names, and the re-issue, of the object with these headers, is the last
    thing the handler does. *)
Theorem onRejected_request_objects (account : StacksAccount) (error : AxiosError)
    (s : State) :
  let o := config error in
  let body := response_data error in
  let before := Interceptor.read_config o s in
  match Interceptor.onRejected account error s with
  | (Thrown _, s') => requests s' = requests s
  | (Returned o', s') =>
      o' = o /\
      (forall other, other <> o -> requests s' !! other = requests s !! other) /\
      exists after signed s2,
        Interceptor.signPayment (as_payment_request body) account
          (snd (new_Date (snd (Interceptor.paymentAttempted_add o s))))
          = (Returned signed, s2) /\
        requests s' !! o = Some after /\
        trace s' = (trace s2 ++ [EvReissue o after])%list /\
        cfg_url after = cfg_url before /\
        cfg_method after = cfg_method before /\
        config_headers after !! "X-PAYMENT" = Some signed /\
        (forall k, other_header k ->
                   config_headers after !! k = config_headers before !! k) /\
        (forall name,
            token_type_or_STX body = Returned (JString name) -> token_name name ->
            config_headers after !! "X-PAYMENT-TOKEN-TYPE" = Some name)
  end.
Proof.
  intros o body before.
  destruct (is_402 error) eqn:H402;
    [|rewrite (onRejected_not_402 account error s H402); reflexivity].
  destruct (decide (config error ∈ paymentAttempted s)) as [Hin|Hnotin];
    [rewrite (onRejected_marked account error s H402 Hin); reflexivity|].
  destruct (onRejected_cycle account error s H402 Hnotin)
    as (_ & Hrq & _ & _ & Hinvalid & Hexpired & Hfailed & Hsigned).
  fold o body in Hrq, Hinvalid, Hexpired, Hfailed, Hsigned.
  destruct (interceptor_isValidPaymentRequest_spec body) as ([|] & Hvalid & _).
  - destruct (date_lt (expiresAt (as_payment_request body)) (fst (Date_now (world s))))
      eqn:Hlt.
    + assert (Hpast : exists e,
                 Date_parse (expiresAt (as_payment_request body)) = Some e /\
                 e < fst (Date_now (world s))).
      { unfold date_lt in Hlt.
        destruct (Date_parse (expiresAt (as_payment_request body))) as [e|];
          [|discriminate].
        exists e. split; [reflexivity | apply Z.ltb_lt, Hlt]. }
      rewrite (Hexpired Hvalid Hpast). exact Hrq.
    + apply date_lt_not_past in Hlt.
      case_eq (Interceptor.signPayment (as_payment_request body) account
                 (snd (new_Date (snd (Interceptor.paymentAttempted_add o s)))));
        intros [signed|e] s2 Hsign.
      * destruct (Hsigned Hvalid Hlt signed s2 Hsign)
          as (after & Hrun & _ & Hurl & Hmethod & Hpayment & Hothers & Htoken).
        rewrite Hrun. cbn [requests trace]. split; [reflexivity|].
        split; [intros other Hother; apply lookup_insert_ne; congruence|].
        exists after, signed, s2. split; [reflexivity|].
        split; [apply lookup_insert_eq|].
        split; [reflexivity|]. split; [exact Hurl|]. split; [exact Hmethod|].
        split; [exact Hpayment|].
        split; [exact Hothers | exact Htoken].
      * destruct (Hfailed Hvalid Hlt e s2 Hsign) as (Hrun & _ & Hrq2).
        rewrite Hrun. exact Hrq2.
  - rewrite (Hinvalid Hvalid). reflexivity.
Qed.

(** X20. A 402 for sBTC or USDCx without a token contract, on the
    interceptor path. For a request object that is not marked and a body
    that the validator accepts, whose [tokenType] is [sBTC] or [USDCx],
    whose [tokenContract] is absent (or another falsy value), whose offer
    the clock does not put in the past and whose amount converts, the
    handler rejects with the signing failure that names the missing
    contract (in the interceptor's words: [payments], where the client
    says [transfers]). It has marked the request object, read the clock
    and entered the signer, and made no call to the SDK; no request object
    has changed and nothing is re-issued. *)
Theorem onRejected_missing_contract (account : StacksAccount) (error : AxiosError)
    (s : State) (t : TokenType) (amount : Z) :
  let body := response_data error in
  let offer := as_payment_request body in
  let now := fst (Date_now (world s)) in
  is_402 error = true -> config error ∉ paymentAttempted s ->
  Interceptor.isValidPaymentRequest body = Returned true ->
  (forall e, Date_parse (expiresAt offer) = Some e -> now <= e) ->
  get_prop body "tokenType" = Returned (JString (TokenType_to_string t)) -> t <> STX ->
  no_token_contract body ->
  BigInt (maxAmountRequired offer) = Returned amount ->
  Interceptor.onRejected account error s =
    (Thrown (ErrorObj EError
               ("Payment signing failed: Token contract required for "
                  ++ TokenType_to_string t ++ " payments")),
     {| world := snd (Date_now (world s));
        trace := trace s ++ [EvMark (config error); EvNow now; EvSignPayment offer];
        paymentAttempted := {[config error]} ∪ paymentAttempted s;
        requests := requests s |}).
Proof.
  intros body offer now H402 Hnotin Hvalid Hlt Ht Hstx Hc Hamount.
  apply date_lt_not_past in Hlt.
  apply as_payment_request_tokenType in Ht.
  apply as_payment_request_no_contract in Hc.
  fold body offer in Ht, Hc.
  unfold Interceptor.onRejected. rewrite H402. cbn [negb].
  unfold bind at 1, Interceptor.paymentAttempted_has.
  rewrite (bool_decide_eq_false_2 _ Hnotin).
  unfold bind at 1, Interceptor.paymentAttempted_add.
  unfold bind at 1, lift at 1. fold body. rewrite Hvalid. cbn [negb].
  unfold bind at 1. rewrite new_Date_reading. cbn [world trace paymentAttempted requests].
  fold offer now. rewrite Hlt.
  unfold try_catch, bind at 1, Interceptor.signPayment, bind, emit, lift, throw.
  cbn [world trace paymentAttempted requests].
  rewrite Hamount, Ht, Hc. cbn [default from_option id].
  destruct t; [congruence| |]; cbn [message_or TokenType_to_string];
    rewrite <- !app_assoc; reflexivity.
Qed.

End InterceptorMore.

Lemma signers_agree_witness :
  fst (@Interceptor.signPayment Scripted.platform
         (Sample.request "1000000" "abc123" None None) Sample.account
         (Scripted.start Sample.idle))
    = Returned ("0x00" ++ Sample.merchant) /\
  fst (@Client.signPayment Scripted.platform Sample.client
         (Sample.request "1000000" "abc123" None None) (Scripted.start Sample.idle))
    = Returned {| signedTransaction := "0x00" ++ Sample.merchant; success := true;
                  senderAddress := Some "ST753b7cc0"; error := None |}.
Proof.
  destruct (@signers_agree Scripted.platform
              (Sample.request "1000000" "abc123" None None) Sample.key testnet
              Sample.account (Scripted.start Sample.idle) eq_refl) as [_ Hresult].
  assert (Hi : fst (@Interceptor.signPayment Scripted.platform
                      (Sample.request "1000000" "abc123" None None) Sample.account
                      (Scripted.start Sample.idle))
               = Returned ("0x00" ++ Sample.merchant)) by (vm_compute; reflexivity).
  rewrite Hi in Hresult. split; [exact Hi | exact Hresult].
Defined.

Lemma onRejected_missing_contract_witness :
  fst (@Interceptor.onRejected Scripted.platform Sample.account
         (Sample.payment_required 1%positive Sample2.sbtc_offer)
         (Scripted.start (Sample.clock [Sample.in_2023])))
  = Thrown (ErrorObj EError
              "Payment signing failed: Token contract required for sBTC payments").
Proof.
  rewrite (@onRejected_missing_contract Scripted.platform Sample.account
             (Sample.payment_required 1%positive Sample2.sbtc_offer)
             (Scripted.start (Sample.clock [Sample.in_2023])) sBTC 2500);
    [reflexivity | reflexivity | set_solver | reflexivity | | reflexivity
    | discriminate | exists JUndefined; split; reflexivity | reflexivity].
  intros e He. vm_compute in He. injection He as <-. vm_compute. discriminate.
Defined.

Lemma onRejected_request_objects_witness :
  exists s' after,
    @Interceptor.onRejected Scripted.platform Sample.account
      (Sample.payment_required 1%positive Sample.offer)
      (Scripted.start (Sample.clock [Sample.in_2023])) = (Returned 1%positive, s') /\
    requests s' !! 1%positive = Some after /\
    config_headers after !! "X-PAYMENT-TOKEN-TYPE" = Some "STX".
Proof.
  pose proof (@onRejected_request_objects Scripted.platform Sample.account
                (Sample.payment_required 1%positive Sample.offer)
                (Scripted.start (Sample.clock [Sample.in_2023]))) as Hobjects.
  cbv zeta in Hobjects.
  destruct (@Interceptor.onRejected Scripted.platform Sample.account
              (Sample.payment_required 1%positive Sample.offer)
              (Scripted.start (Sample.clock [Sample.in_2023]))) as [[o|e] s'] eqn:Hrun.
  - destruct Hobjects
      as (-> & _ & after & signed & s2 & _ & Hafter & _ & _ & _ & _ & _ & Htoken).
    exists s', after. split; [reflexivity|]. split; [exact Hafter|].
    apply (Htoken "STX"); [reflexivity | left; reflexivity].
  - exfalso.
    assert (Hreturned : fst (@Interceptor.onRejected Scripted.platform Sample.account
                               (Sample.payment_required 1%positive Sample.offer)
                               (Scripted.start (Sample.clock [Sample.in_2023])))
                        = Returned 1%positive) by (vm_compute; reflexivity).
    rewrite Hrun in Hreturned. discriminate Hreturned.
Defined.

(** ** More on the memo codec *)

(** X21. The resource does not survive the codec. Under the conditions
    in which the nonce and the custom entries come back (a resource without
    [=], a nonce and custom keys and values that are not empty and have
    neither [,] nor [=], the keys distinct and none of [resource], [nonce]
    and [__proto__]), the result of decoding an encoded memo has no
    [resource]: the encoder writes the resource without a key, and the
    decoder reads only pieces of the form [key=value]. *)
Theorem createPaymentMemo_drops_resource (resource nonce : string)
    (custom : option (list (string * string))) :
  has_char "=" resource = false ->
  plain nonce = true ->
  forallb custom_entry (default [] custom) = true ->
  NoDup (map fst (default [] custom)) ->
  Memo.resource (Utils.parsePaymentMemo (Utils.createPaymentMemo resource nonce custom))
    = None.
Proof.
  intros Hres Hnonce Hall Hnd.
  rewrite (parse_create_memo_fields _ _ _ Hres Hnonce Hall Hnd). reflexivity.
Qed.

Lemma createPaymentMemo_drops_resource_witness :
  Memo.resource
    (Utils.parsePaymentMemo
       (Utils.createPaymentMemo "/api/premium" "abc123" (Some [("user", "42")])))
    = None.
Proof.
  apply createPaymentMemo_drops_resource; try reflexivity.
  refine (@bool_decide_unpack _ _ _). vm_compute. exact I.
Defined.

Lemma parse_part_resource result resource :
  plain resource = true ->
  Utils.parse_part result ("resource=" ++ resource) =
    {| Memo.resource := Some resource; Memo.nonce := Memo.nonce result;
       Memo.custom := Memo.custom result |}.
Proof.
  intros Hp. apply plain_inv in Hp as (Hne & _ & Heq).
  unfold Utils.parse_part.
  change ("resource=" ++ resource) with ("resource" ++ "=" ++ resource).
  rewrite split_key_value by (reflexivity || assumption). simpl.
  destruct (String.eqb_spec resource ""); [contradiction|]. reflexivity.
Qed.

(** X22. What the decoder reads as a resource. It finds the resource in
    a piece [resource=...], which the encoder never writes: a memo
    [x402:resource=R,nonce=N], with [R] and [N] not empty and without [,]
    and [=], decodes to the resource [R] and the nonce [N], with no custom
    entries. *)
Theorem parsePaymentMemo_keyed_resource (resource nonce : string) :
  plain resource = true -> plain nonce = true ->
  Utils.parsePaymentMemo ("x402:resource=" ++ resource ++ ",nonce=" ++ nonce) =
    {| Memo.resource := Some resource; Memo.nonce := Some nonce; Memo.custom := None |}.
Proof.
  intros Hres Hnonce. unfold Utils.parsePaymentMemo.
  change ("x402:resource=" ++ resource ++ ",nonce=" ++ nonce)
    with ("x402:" ++ ("resource=" ++ resource ++ ",nonce=" ++ nonce)).
  rewrite prefix_x402, drop_x402. cbn [negb].
  pose proof (plain_inv _ Hres) as (_ & Hrc & _).
  pose proof (plain_inv _ Hnonce) as (_ & Hnc & _).
  replace ("resource=" ++ resource ++ ",nonce=" ++ nonce)
    with (("resource=" ++ resource) ++ String "," ("nonce=" ++ nonce))
    by (normalize_append; reflexivity).
  rewrite split_on_app.
  rewrite (split_on_absent "," ("resource=" ++ resource)) by (simpl; exact Hrc).
  rewrite (split_on_absent "," ("nonce=" ++ nonce)) by (simpl; exact Hnc).
  cbn [app fold_left].
  rewrite (parse_part_resource _ _ Hres), (parse_part_nonce _ _ Hnonce). reflexivity.
Qed.

Lemma parsePaymentMemo_keyed_resource_witness :
  Utils.parsePaymentMemo "x402:resource=/api/premium,nonce=abc123" =
    {| Memo.resource := Some "/api/premium"; Memo.nonce := Some "abc123";
       Memo.custom := None |}.
Proof.
  apply (parsePaymentMemo_keyed_resource "/api/premium" "abc123"); reflexivity.
Defined.

Lemma custom_suffix_length entries :
  String.length (custom_suffix entries) = custom_length entries.
Proof.
  induction entries as [|[key value] rest IH]; [reflexivity|].
  cbn [custom_suffix custom_length]. rewrite !string_length_app, IH.
  cbn [String.length]. lia.
Qed.

Lemma utf8_length_ge (s : string) : (String.length s <= utf8_length s)%nat.
Proof.
  induction s as [|c s IH]; cbn [String.length utf8_length]; [lia|].
  destruct (nat_of_ascii c <? 128)%nat; lia.
Qed.

(** X23. [createPaymentMemo] never shortens what it is given: the memo
    has 12 characters more than the resource and the nonce together, and
    those of the custom entries. A resource and a nonce of more than 22
    characters together so make a memo of more than 34 bytes, the size
    that the signing code states for the memo of a transfer. *)
Theorem createPaymentMemo_length (resource nonce : string)
    (custom : option (list (string * string))) :
  String.length (Utils.createPaymentMemo resource nonce custom) =
    (12 + String.length resource + String.length nonce
     + custom_length (default [] custom))%nat /\
  ((22 < String.length resource + String.length nonce)%nat ->
   (34 < utf8_length (Utils.createPaymentMemo resource nonce custom))%nat).
Proof.
  assert (Hlen : String.length (Utils.createPaymentMemo resource nonce custom) =
                 (12 + String.length resource + String.length nonce
                  + custom_length (default [] custom))%nat).
  { rewrite createPaymentMemo_text, !string_length_app, custom_suffix_length.
    cbn [String.length]. lia. }
  split; [exact Hlen|]. intros Hlong.
  pose proof (utf8_length_ge (Utils.createPaymentMemo resource nonce custom)). lia.
Qed.

Lemma createPaymentMemo_length_witness :
  (34 < utf8_length (Utils.createPaymentMemo "/api/premium-data" "abc123" None))%nat.
Proof.
  apply (proj2 (createPaymentMemo_length "/api/premium-data" "abc123" None)).
  cbn. lia.
Defined.

Lemma prefix_drop_chars (p s : string) :
  String.prefix p s = true -> s = p ++ drop_chars (String.length p) s.
Proof.
  revert s. induction p as [|c p IH]; intros s Hp; [reflexivity|].
  destruct s as [|c' s]; [discriminate|]. cbn in Hp.
  destruct (ascii_dec c c') as [<-|]; [|discriminate].
  cbn. f_equal. apply IH, Hp.
Qed.

(** X24. The decoder skips what it cannot read. A piece without [=]
    changes nothing: appending [,] and a text with neither [,] nor [=] to a
    memo that starts with [x402:] leaves the decoded result as it is. *)
Theorem parsePaymentMemo_skips_unkeyed (memo junk : string) :
  String.prefix "x402:" memo = true ->
  has_char "," junk = false -> has_char "=" junk = false ->
  Utils.parsePaymentMemo (memo ++ "," ++ junk) = Utils.parsePaymentMemo memo.
Proof.
  intros Hprefix Hcomma Heq.
  apply prefix_drop_chars in Hprefix. cbn [String.length] in Hprefix.
  set (content := drop_chars 5 memo) in *. rewrite Hprefix.
  unfold Utils.parsePaymentMemo.
  replace (("x402:" ++ content) ++ "," ++ junk) with ("x402:" ++ (content ++ "," ++ junk))
    by (normalize_append; reflexivity).
  rewrite !prefix_x402, !drop_x402. cbn [negb].
  change (content ++ "," ++ junk) with (content ++ String "," junk).
  rewrite split_on_app, fold_left_app, (split_on_absent _ _ Hcomma).
  cbn [fold_left]. apply parse_part_skip, Heq.
Qed.

Lemma parsePaymentMemo_skips_unkeyed_witness :
  Utils.parsePaymentMemo ("x402:nonce=abc123" ++ "," ++ "/api/premium")
    = Utils.parsePaymentMemo "x402:nonce=abc123".
Proof.
  apply parsePaymentMemo_skips_unkeyed; reflexivity.
Defined.

Lemma prefix_x402_app (memo rest : string) :
  String.prefix "x402:" memo = true ->
  memo ++ rest = "x402:" ++ (drop_chars 5 memo ++ rest).
Proof.
  intros Hprefix. apply prefix_drop_chars in Hprefix. cbn [String.length] in Hprefix.
  rewrite Hprefix at 1. normalize_append. reflexivity.
Qed.

(** X27. The last nonce wins. Appending a piece [nonce=N], with [N] not
    empty and without [,] and [=], to a memo that starts with [x402:] gives
    a memo that decodes to the same resource and custom entries, and to the
    nonce [N], whatever nonce the memo had before. *)
Theorem parsePaymentMemo_last_nonce (memo nonce : string) :
  String.prefix "x402:" memo = true -> plain nonce = true ->
  Utils.parsePaymentMemo (memo ++ ",nonce=" ++ nonce) =
    {| Memo.resource := Memo.resource (Utils.parsePaymentMemo memo);
       Memo.nonce := Some nonce;
       Memo.custom := Memo.custom (Utils.parsePaymentMemo memo) |}.
Proof.
  intros Hprefix Hnonce.
  rewrite (prefix_x402_app memo _ Hprefix).
  unfold Utils.parsePaymentMemo. rewrite Hprefix, prefix_x402, drop_x402. cbn [negb].
  pose proof (plain_inv _ Hnonce) as (_ & Hnc & _).
  change (drop_chars 5 memo ++ ",nonce=" ++ nonce)
    with (drop_chars 5 memo ++ String "," ("nonce=" ++ nonce)).
  rewrite split_on_app, fold_left_app.
  rewrite (split_on_absent "," ("nonce=" ++ nonce)) by (simpl; exact Hnc).
  cbn [fold_left]. apply parse_part_nonce, Hnonce.
Qed.

Lemma parsePaymentMemo_last_nonce_witness :
  Memo.nonce (Utils.parsePaymentMemo ("x402:/api,nonce=first" ++ ",nonce=" ++ "second"))
    = Some "second".
Proof.
  rewrite (parsePaymentMemo_last_nonce "x402:/api,nonce=first" "second" eq_refl eq_refl).
  reflexivity.
Defined.

(** ** More on the validators *)

(** X25. The two validators agree on every value but [null]: on such a
    value both return a boolean, the same one, which is [true] exactly for
    a mapping that binds the six required fields to strings and [network]
    to [mainnet] or [testnet]. *)
Theorem validators_agree (v : JsValue) :
  v <> JNull ->
  exists b,
    Client.isValidPaymentRequest v = Returned b /\
    Interceptor.isValidPaymentRequest v = Returned b /\
    (b = true <-> well_formed_request v).
Proof.
  intros Hnull.
  destruct (client_isValidPaymentRequest_spec v Hnull) as (b1 & Hc & Hb1).
  destruct (interceptor_isValidPaymentRequest_spec v) as (b2 & Hi & Hb2).
  assert (Hsame : b1 = b2).
  { destruct b1, b2; try reflexivity.
    - symmetry. apply Hb2, Hb1. reflexivity.
    - apply Hb1, Hb2. reflexivity. }
  subst b2. exists b1. auto.
Qed.

Lemma validators_agree_witness :
  Client.isValidPaymentRequest Sample.offer = Returned true /\
  Interceptor.isValidPaymentRequest Sample.offer = Returned true.
Proof.
  destruct (validators_agree Sample.offer ltac:(discriminate)) as (b & Hc & Hi & _).
  assert (Hb : Returned b = Returned true)
    by (rewrite <- Hi; vm_compute; reflexivity).
  injection Hb as ->. split; assumption.
Defined.

Lemma has_string_assoc fields fields' k :
  assoc k fields = assoc k fields' -> has_string fields k = has_string fields' k.
Proof. unfold has_string. intros ->. reflexivity. Qed.

(** X26. The verdict of the validators depends on the six required fields
    only: two mappings that bind these six names alike get the same verdict
    from each validator, whatever else they hold. The optional fields
    [memo], [tokenType] and [tokenContract] are not looked at, of whatever
    type their values are. *)
Theorem validators_read_required_fields (fields fields' : list (string * JsValue)) :
  (forall k, In k required_fields -> assoc k fields = assoc k fields') ->
  Client.isValidPaymentRequest (JObject fields)
    = Client.isValidPaymentRequest (JObject fields') /\
  Interceptor.isValidPaymentRequest (JObject fields)
    = Interceptor.isValidPaymentRequest (JObject fields').
Proof.
  intros Hsame.
  assert (Hcheck : object_check fields = object_check fields').
  { unfold object_check, network_ok.
    rewrite !(has_string_assoc fields fields') by (apply Hsame; simpl; auto 10).
    rewrite (Hsame "network") by (simpl; auto 10). reflexivity. }
  unfold Client.isValidPaymentRequest, Interceptor.isValidPaymentRequest.
  cbn [typeof truthy negb orb String.eqb Ascii.eqb Bool.eqb andb].
  change (Returned true &&& prop_is_string (JObject fields) "maxAmountRequired")
    with (prop_is_string (JObject fields) "maxAmountRequired").
  change (Returned true &&& prop_is_string (JObject fields') "maxAmountRequired")
    with (prop_is_string (JObject fields') "maxAmountRequired").
  rewrite !conjunction_object, Hcheck. split; reflexivity.
Qed.

Lemma validators_read_required_fields_witness :
  Client.isValidPaymentRequest Sample2.offer_with_extras = Returned true /\
  Interceptor.isValidPaymentRequest Sample2.offer_with_extras = Returned true.
Proof.
  assert (Hsame : forall k, In k required_fields ->
                            assoc k [("maxAmountRequired", JString "1000000");
                                     ("resource", JString "/resource");
                                     ("payTo", JString Sample.merchant);
                                     ("network", JString "testnet");
                                     ("nonce", JString "abc123");
                                     ("expiresAt", JString "2030-01-01T00:00:00.000Z");
                                     ("tokenType", JNumber 7);
                                     ("tokenContract", JString "none")]
                            = assoc k [("maxAmountRequired", JString "1000000");
                                       ("resource", JString "/resource");
                                       ("payTo", JString Sample.merchant);
                                       ("network", JString "testnet");
                                       ("nonce", JString "abc123");
                                       ("expiresAt", JString "2030-01-01T00:00:00.000Z")]).
  { intros k Hk. simpl in Hk.
    repeat (destruct Hk as [<-|Hk]; [reflexivity|]). contradiction. }
  destruct (validators_read_required_fields _ _ Hsame) as [Hc Hi].
  split; [etransitivity; [exact Hc|] | etransitivity; [exact Hi|]];
    vm_compute; reflexivity.
Defined.

(** ** How many payments are signed *)

Section Signatures.
Context `{Platform}.

Lemma handled_signs delta : handled delta -> (signs_made delta <= 1)%nat.
Proof.
  destruct 1 as [|t p Hlt|t p sdk Hlt Hsdk]; try (cbn; lia).
  change (EvNow t :: EvSignPayment p :: sdk)
    with ([EvNow t; EvSignPayment p] ++ sdk)%list.
  rewrite signs_made_app. destruct (sdk_counts sdk Hsdk) as [_ ->]. cbn. lia.
Qed.

Lemma turns_signs n tr : turns n tr -> (signs_made tr <= n)%nat.
Proof.
  induction 1 as [|r delta n rest Hh _ IH]; [cbn; lia|].
  change (EvRequest r :: delta ++ rest) with ([EvRequest r] ++ delta ++ rest)%list.
  rewrite !signs_made_app. pose proof (handled_signs _ Hh). cbn. lia.
Qed.

Lemma cycle_signs o delta : cycle o delta -> (signs_made delta <= 1)%nat.
Proof.
  destruct 1 as [delta Hh|t p sdk cfg signed Hlt Hsdk Hcfg].
  - change (EvMark o :: delta) with ([EvMark o] ++ delta)%list.
    rewrite signs_made_app. pose proof (handled_signs _ Hh). cbn. lia.
  - change (EvMark o :: EvNow t :: EvSignPayment p :: sdk ++ [EvReissue o cfg])
      with ([EvMark o; EvNow t; EvSignPayment p] ++ sdk ++ [EvReissue o cfg])%list.
    rewrite !signs_made_app. destruct (sdk_counts sdk Hsdk) as [_ ->]. cbn. lia.
Qed.

Lemma cycles_signs os tr : cycles os tr -> (signs_made tr <= length os)%nat.
Proof.
  induction 1 as [|o os delta rest Hc _ IH]; [cbn; lia|].
  rewrite signs_made_app. pose proof (cycle_signs _ _ Hc). cbn [length]. lia.
Qed.

(** X28. A call of [requestWithPayment] signs at most one payment for
    each request it issues, and so at most [maxRetries + 1] payments (none
    when [maxRetries] is negative). *)
Theorem requestWithPayment_signatures_bound (this : X402PaymentClient.t) (url : string)
    (options : Client.RequestOptions) (s : State) :
  exists c s' tr,
    Client.requestWithPayment this url options s = Some (c, s') /\
    trace s' = (trace s ++ tr)%list /\
    (signs_made tr <= requests_issued tr)%nat /\
    Z.of_nat (signs_made tr) <= Z.max 0 (default 1 (Client.opt_maxRetries options) + 1).
Proof.
  unfold Client.requestWithPayment, Client.requestWithPayment_fuel.
  set (maxRetries := default 1 (Client.opt_maxRetries options)).
  destruct (requestLoop_runs this url (default "GET" (Client.opt_method options))
              (Client.opt_data options)
              (default ∅ (Client.opt_headers options)) maxRetries
              (S (Z.to_nat (maxRetries + 1))) 0 None None s)
    as (c & s' & n & tr & Hloop & (Htrace & _) & Hturns & Hn).
  { replace (maxRetries + 1 - 0) with (maxRetries + 1) by lia. lia. }
  exists c, s', tr. split; [exact Hloop|]. split; [exact Htrace|].
  pose proof (turns_signs _ _ Hturns) as Hsigns.
  rewrite (turns_requests _ _ Hturns). split; lia.
Qed.

(** X29. The interceptor signs at most one payment for each request
    object: in every run of the handler, over any rejections in any order,
    the payments signed are at most as many as the request objects that the
    run has marked, which are pairwise distinct and were not marked
    before. *)
Theorem interceptor_signatures_bound (arrivals : list (StacksAccount * AxiosError))
    (s : State) :
  exists os tr,
    trace (Interceptor.deliver arrivals s) = (trace s ++ tr)%list /\
    NoDup os /\
    (forall o, o ∈ os -> o ∉ paymentAttempted s) /\
    paymentAttempted (Interceptor.deliver arrivals s) = list_to_set os ∪ paymentAttempted s /\
    (signs_made tr <= length os)%nat.
Proof.
  destruct (deliver_cycles arrivals s) as (os & tr & Htr & Hcycles & Hnd & Hfresh & Hpa).
  exists os, tr. repeat split; try assumption. apply cycles_signs, Hcycles.
Qed.

End Signatures.
